(** * Availability poll bot: a shallow embedding and its verified properties

    The development follows the layout of the Python sources:

    - [database/models.py]            rows of the four tables
    - [database/database_manager.py]  [DatabaseManager]
    - [bot/config.py]                 [ConfigManager]
    - [bot/scheduler.py]              [PollScheduler]
    - [main.py]                       [AvailabilityBot] reaction handlers

    Python methods become computations in a state-and-exception monad over
    one [world] record that gathers every piece of mutable state the bot
    touches: the relational store, the in-memory and on-disk configuration,
    the job store of the recurring-trigger library, the active-poll index,
    the chat platform and the log.  [try]/[except] blocks become
    [try_except], early [return]s become the branches they cut off.

    Discord snowflakes (guild, channel, message and user identifiers) are
    integers; the code moves them through [str()] and [int()], which are
    inverse to each other on integers, so they are modelled as [Z]
    throughout.

    What the environment decides is part of the world: whether the store
    accepts statements ([available]), whether the configuration file can be
    written ([file_writable]), what the platform raises on a send, a
    deletion, an edit or an added reaction, the zone names [pytz] knows, the
    clock and the display label of tomorrow's date.  A table is a list of
    rows in the order the engine returns them; [.first()] is the first row
    that matches.  Of a rendered poll only the option lines are kept; title,
    description, colour and footer play no part in what is proved. *)

From stdpp Require Import base list strings gmap pretty.

Open Scope Z_scope.

(** ** Exceptions, outcomes and log lines *)

(** The exception classes the code raises or catches.  [NotFound] and
    [Forbidden] are subclasses of [HTTPException] in discord.py; all of them
    derive from [Exception]. *)
Inductive exn : Type :=
  | SQLAlchemyError
  | ValueError
  | UnknownTimeZoneError
  | NotFound
  | Forbidden
  | HTTPException
  | OSError
  | IndexError
  | JobLookupError
  | OverflowError.

#[global] Instance exn_eq_dec : EqDecision exn.
Proof. solve_decision. Defined.

Definition is_HTTPException (e : exn) : bool :=
  match e with
  | NotFound | Forbidden | HTTPException => true
  | _ => false
  end.

Inductive outcome (A : Type) : Type :=
  | Returned (a : A)
  | Raised (e : exn).
Arguments Returned {A} a.
Arguments Raised {A} e.

Inductive level : Type := DEBUG | INFO | WARNING | ERROR.

#[global] Instance level_eq_dec : EqDecision level.
Proof. solve_decision. Defined.

Definition log_line : Type := level * string.

(** ** database/models.py *)

Record ServerConfig : Type := mkServerConfig {
  sc_id : Z;
  sc_guild_id : Z;
  sc_enabled : bool;
  sc_channel_id : option Z;
  sc_poll_hour : Z;
  sc_poll_minute : Z;
  sc_timezone : string;
  sc_created_at : Z;
  sc_updated_at : Z
}.

Record PollOption : Type := mkPollOption {
  po_id : Z;
  po_server_config_id : Z;
  po_emoji : string;
  po_text : string;
  po_order_index : nat;
  po_created_at : Z
}.

Record Poll : Type := mkPoll {
  poll_id : Z;
  poll_server_config_id : Z;
  poll_guild_id : Z;
  poll_channel_id : Z;
  poll_message_id : Z;
  poll_date : string;
  poll_is_test : bool;
  poll_created_at : Z
}.

Record Vote : Type := mkVote {
  vote_id : Z;
  vote_poll_id : Z;
  vote_user_id : Z;
  vote_username : string;
  vote_display_name : string;
  vote_emoji : string;
  vote_voted_at : Z;
  vote_updated_at : Z
}.

(** The store: four tables in row order, the serial counters behind the
    [id] primary keys, and whether the engine currently accepts statements
    (when it does not, every query and commit raises). *)
Record database : Type := mkDatabase {
  server_configs : list ServerConfig;
  poll_options : list PollOption;
  polls : list Poll;
  votes : list Vote;
  next_server_config_id : Z;
  next_poll_option_id : Z;
  next_poll_id : Z;
  next_vote_id : Z;
  available : bool
}.

Definition empty_database : database :=
  mkDatabase [] [] [] [] 1 1 1 1 true.

(** ** Configuration dictionaries (bot/config.py)

    A guild configuration is a JSON object; every key may be missing, which
    is why the code reads it with [config.get(key, default)]. *)
Record config : Type := mkConfig {
  cfg_enabled : option bool;
  cfg_channel_id : option Z;
  cfg_poll_hour : option Z;
  cfg_poll_minute : option Z;
  cfg_timezone : option string;
  cfg_poll_options : option (list string);
  cfg_poll_emojis : option (list string);
  cfg_poll_history : option (list Z)
}.

(** ** The recurring-trigger library's job store (apscheduler) *)

Record job : Type := mkJob {
  job_id : string;
  job_guild : Z;          (* args=[guild_id] of the callback *)
  job_hour : Z;
  job_minute : Z;
  job_timezone : string
}.

#[global] Instance job_eq_dec : EqDecision job.
Proof. solve_decision. Defined.

(** ** The chat platform *)

Record member : Type := mkMember {
  member_name : string;
  member_display_name : string;
  member_bot : bool
}.

(** A message: its channel, its reactions (one entry per emoji, each with
    the users who currently have that reaction) and the option text of the
    embed it shows. *)
Record message : Type := mkMessage {
  msg_channel : Z;
  msg_reactions : list (string * list Z);
  msg_options_text : string
}.

Record platform : Type := mkPlatform {
  guilds : gmap Z (list Z);        (* guild id ↦ ids of its channels *)
  members : Z → member;            (* user directory *)
  bot_user : Z;                    (* the bot's own account *)
  messages : gmap Z message;       (* live messages by id *)
  next_message_id : Z;
  send_raises : option exn;        (* what [channel.send] raises, if anything *)
  delete_raises : option exn;      (* what deleting an existing message raises *)
  react_raises : gmap string exn;  (* what [add_reaction] raises, per emoji *)
  edit_raises : option exn;        (* what [message.edit] raises, if anything *)
  tomorrow_label : string;         (* tomorrow's date, formatted for display *)
  clock : Z                        (* [datetime.utcnow()] *)
}.

(** ** The active-poll index (main.py, [self.active_polls]) *)

Record poll_info : Type := mkPollInfo {
  pi_poll_message_id : Z;
  pi_vote_message_id : Z;
  pi_channel_id : Z;
  pi_guild_id : Z;
  pi_poll_options : list string;
  pi_emojis : list string;
  pi_is_test : option bool;
  pi_poll_date : string
}.

(** ** The world *)

Record world : Type := mkWorld {
  all_timezones : list string;          (* the zone names pytz knows *)
  db : database;                        (* DatabaseManager *)
  configs : gmap Z config;              (* ConfigManager.configs *)
  config_file : gmap Z config;          (* contents of config/servers.json *)
  file_writable : bool;                 (* whether the file can be opened for writing *)
  jobs : list job;                      (* PollScheduler.scheduler *)
  active_polls : gmap Z poll_info;      (* AvailabilityBot.active_polls *)
  discord : platform;
  log : list log_line
}.

Definition set_db (d : database) (w : world) : world :=
  mkWorld (all_timezones w) d (configs w) (config_file w) (file_writable w) (jobs w)
          (active_polls w) (discord w) (log w).
Definition set_configs (c : gmap Z config) (w : world) : world :=
  mkWorld (all_timezones w) (db w) c (config_file w) (file_writable w) (jobs w)
          (active_polls w) (discord w) (log w).
Definition set_config_file (c : gmap Z config) (w : world) : world :=
  mkWorld (all_timezones w) (db w) (configs w) c (file_writable w) (jobs w)
          (active_polls w) (discord w) (log w).
Definition set_jobs (j : list job) (w : world) : world :=
  mkWorld (all_timezones w) (db w) (configs w) (config_file w) (file_writable w) j
          (active_polls w) (discord w) (log w).
Definition set_active_polls (a : gmap Z poll_info) (w : world) : world :=
  mkWorld (all_timezones w) (db w) (configs w) (config_file w) (file_writable w) (jobs w)
          a (discord w) (log w).
Definition set_discord (p : platform) (w : world) : world :=
  mkWorld (all_timezones w) (db w) (configs w) (config_file w) (file_writable w) (jobs w)
          (active_polls w) p (log w).
Definition set_log (l : list log_line) (w : world) : world :=
  mkWorld (all_timezones w) (db w) (configs w) (config_file w) (file_writable w) (jobs w)
          (active_polls w) (discord w) l.

(** ** The monad *)

Definition M (A : Type) : Type := world → outcome A * world.

Definition ret {A} (a : A) : M A := λ w, (Returned a, w).

Definition bind {A B} (m : M A) (k : A → M B) : M B :=
  λ w, match m w with
       | (Returned a, w') => k a w'
       | (Raised e, w') => (Raised e, w')
       end.

Definition raise {A} (e : exn) : M A := λ w, (Raised e, w).

(** [try: body except Exception as e: handler e] *)
Definition try_except {A} (body : M A) (handler : exn → M A) : M A :=
  λ w, match body w with
       | (Raised e, w') => handler e w'
       | r => r
       end.

Definition get {A} (f : world → A) : M A := λ w, (Returned (f w), w).
Definition modify (f : world → world) : M unit := λ w, (Returned tt, f w).

Notation "x <- m ;; k" := (bind m (λ x, k))
  (at level 100, m at next level, right associativity).
Notation "m ;; k" := (bind m (λ _, k))
  (at level 100, right associativity).

Definition logger (l : level) (s : string) : M unit :=
  modify (λ w, set_log (log w ++ [(l, s)]) w).

Definition utcnow : M Z := get (λ w, clock (discord w)).

Fixpoint for_each {A} (l : list A) (body : A → M unit) : M unit :=
  match l with
  | [] => ret tt
  | x :: l' => body x ;; for_each l' body
  end.

(** [for i, x in enumerate(l)], threading what the body accumulates. *)
Fixpoint fold_enumerate {A B} (i : nat) (l : list A) (acc : B)
    (body : nat → A → B → M B) : M B :=
  match l with
  | [] => ret acc
  | x :: l' => acc' <- body i x acc ;; fold_enumerate (S i) l' acc' body
  end.

(** [l[i]] *)
Definition index {A} (l : list A) (i : nat) : M A :=
  match l !! i with
  | Some x => ret x
  | None => raise IndexError
  end.

Definition newline : string := String (Ascii.ascii_of_nat 10) "".

(** ** database/database_manager.py: [DatabaseManager] *)

Definition set_server_configs (l : list ServerConfig) (d : database) : database :=
  mkDatabase l (poll_options d) (polls d) (votes d) (next_server_config_id d)
             (next_poll_option_id d) (next_poll_id d) (next_vote_id d) (available d).
Definition set_poll_options (l : list PollOption) (d : database) : database :=
  mkDatabase (server_configs d) l (polls d) (votes d) (next_server_config_id d)
             (next_poll_option_id d) (next_poll_id d) (next_vote_id d) (available d).
Definition set_polls (l : list Poll) (d : database) : database :=
  mkDatabase (server_configs d) (poll_options d) l (votes d) (next_server_config_id d)
             (next_poll_option_id d) (next_poll_id d) (next_vote_id d) (available d).
Definition set_votes (l : list Vote) (d : database) : database :=
  mkDatabase (server_configs d) (poll_options d) (polls d) l (next_server_config_id d)
             (next_poll_option_id d) (next_poll_id d) (next_vote_id d) (available d).
Definition set_next_server_config_id (n : Z) (d : database) : database :=
  mkDatabase (server_configs d) (poll_options d) (polls d) (votes d) n
             (next_poll_option_id d) (next_poll_id d) (next_vote_id d) (available d).
Definition set_next_poll_option_id (n : Z) (d : database) : database :=
  mkDatabase (server_configs d) (poll_options d) (polls d) (votes d)
             (next_server_config_id d) n (next_poll_id d) (next_vote_id d) (available d).
Definition set_next_poll_id (n : Z) (d : database) : database :=
  mkDatabase (server_configs d) (poll_options d) (polls d) (votes d)
             (next_server_config_id d) (next_poll_option_id d) n (next_vote_id d) (available d).
Definition set_next_vote_id (n : Z) (d : database) : database :=
  mkDatabase (server_configs d) (poll_options d) (polls d) (votes d)
             (next_server_config_id d) (next_poll_option_id d) (next_poll_id d) n (available d).

(** Every statement a session sends to the engine, [commit] included. *)
Definition execute : M unit :=
  λ w, if available (db w) then (Returned tt, w) else (Raised SQLAlchemyError, w).

(** [session.rollback()]: back to what was last committed. *)
Definition rollback (committed : database) : M unit :=
  modify (set_db committed).

Definition modify_db (f : database → database) : M unit :=
  modify (λ w, set_db (f (db w)) w).

(** [session.query(Poll).filter_by(message_id=...).first()] *)
Definition query_poll (message_id : Z) (d : database) : option (nat * Poll) :=
  list_find (λ p, poll_message_id p = message_id) (polls d).

(** [session.query(Vote).filter_by(poll_id=..., user_id=...).first()] *)
Definition query_vote (pid user_id : Z) (d : database) : option (nat * Vote) :=
  list_find (λ v, vote_poll_id v = pid ∧ vote_user_id v = user_id) (votes d).

(** [session.query(ServerConfig).filter_by(guild_id=...).first()] *)
Definition query_server (guild_id : Z) (d : database) : option (nat * ServerConfig) :=
  list_find (λ s, sc_guild_id s = guild_id) (server_configs d).

(** The emoji defaults of [save_server_config] and [migrate_from_json]. *)
Definition default_emojis : list string :=
  ["✅"; "🌅"; "☀️"; "🌙"; "🌃"; "🤔"; "❌"].

Definition placeholder_emoji : string := "❓".

(** The rows [save_server_config] adds for [poll_options[:7]]. *)
Definition new_poll_options (first_id sid now : Z) (emojis option_texts : list string)
  : list PollOption :=
  imap (λ i option_text,
          mkPollOption (first_id + Z.of_nat i) sid
                       (default placeholder_emoji (emojis !! i))
                       option_text i now)
       (take 7 option_texts).

Definition save_server_config (guild_id : Z) (cfg : config) : M unit :=
  committed <- get db ;;
  try_except
    (execute ;;
     now <- utcnow ;;
     d <- get db ;;
     (* Get or create server *)
     i_server <-
       match query_server guild_id d with
       | Some (i, server) => ret (i, server)
       | None =>
           let server := mkServerConfig (next_server_config_id d) guild_id
                                        false None 5 0 "UTC" now now in
           modify_db (λ d, set_next_server_config_id (next_server_config_id d + 1)
                             (set_server_configs (server_configs d ++ [server]) d)) ;;
           execute ;;
           ret (length (server_configs d), server)
       end ;;
     (* Update server config *)
     let server :=
       mkServerConfig (sc_id i_server.2) (sc_guild_id i_server.2)
                      (default false (cfg_enabled cfg))
                      (cfg_channel_id cfg)
                      (default 5 (cfg_poll_hour cfg))
                      (default 0 (cfg_poll_minute cfg))
                      (default "UTC" (cfg_timezone cfg))
                      (sc_created_at i_server.2) now in
     modify_db (λ d, set_server_configs (<[i_server.1 := server]> (server_configs d)) d) ;;
     (* Update poll options if provided *)
     match cfg_poll_options cfg with
     | Some option_texts =>
         execute ;;
         modify_db (λ d, set_poll_options
                           (filter (λ o, po_server_config_id o ≠ sc_id server)
                                   (poll_options d)) d) ;;
         let emojis := default default_emojis (cfg_poll_emojis cfg) in
         modify_db (λ d,
           let rows := new_poll_options (next_poll_option_id d) (sc_id server) now
                                        emojis option_texts in
           set_next_poll_option_id (next_poll_option_id d + Z.of_nat (length rows))
             (set_poll_options (poll_options d ++ rows) d))
     | None => ret tt
     end ;;
     execute ;;
     logger DEBUG "Saved config for server")
    (λ e, rollback committed ;;
          logger ERROR "Failed to save server config" ;;
          raise e).

(** [order_by(Poll.created_at.desc())]: [q] comes before [p].  Rows with
    equal timestamps are told apart by their serial id. *)
Definition newer (q p : Poll) : Prop :=
  poll_created_at p < poll_created_at q
  ∨ (poll_created_at p = poll_created_at q ∧ poll_id p < poll_id q).

#[global] Instance newer_dec q p : Decision (newer q p).
Proof. unfold newer. apply _. Defined.

(** The rows of [.order_by(Poll.created_at.desc()).offset(3).all()] for one
    server: those with at least three newer polls of the same server. *)
Definition old_polls (sid : Z) (d : database) : list Poll :=
  filter (λ p, poll_server_config_id p = sid
               ∧ (3 ≤ length (filter (λ q, poll_server_config_id q = sid ∧ newer q p)
                                     (polls d)))%nat)
         (polls d).

(** [session.delete(poll)]; the [votes] relationship cascades. *)
Definition delete_poll (p : Poll) (d : database) : database :=
  set_votes (filter (λ v, vote_poll_id v ≠ poll_id p) (votes d))
    (set_polls (filter (λ q, poll_id q ≠ poll_id p) (polls d)) d).

(** The [except] block of [create_poll]. *)
Definition create_poll_failed {A} (committed : database) (e : exn) : M A :=
  rollback committed ;; logger ERROR "Failed to create poll" ;; raise e.

Definition create_poll (guild_id channel_id message_id : Z) (date : string)
    (is_test : bool) : M Z :=
  committed <- get db ;;
  r <- try_except
    (execute ;;
     d <- get db ;;
     match query_server guild_id d with
     | None => raise ValueError
     | Some (_, server) =>
         now <- utcnow ;;
         let poll := mkPoll (next_poll_id d) (sc_id server) guild_id channel_id
                            message_id date is_test now in
         modify_db (λ d, set_next_poll_id (next_poll_id d + 1)
                           (set_polls (polls d ++ [poll]) d)) ;;
         (* message_id is declared unique *)
         (if decide (is_Some (query_poll message_id d))
          then raise SQLAlchemyError else execute) ;;
         ret (server, poll)
     end)
    (create_poll_failed committed) ;;
  committed <- get db ;;
  try_except
    ((* Cleanup old polls (keep only last 3) *)
     execute ;;
     d <- get db ;;
     modify_db (λ d0, foldl (λ d p, delete_poll p d) d0 (old_polls (sc_id r.1) d)) ;;
     execute ;;
     logger INFO "Created poll" ;;
     ret (poll_id r.2))
    (create_poll_failed committed).

(** The row [save_vote] leaves when the voter already has one: emoji,
    display name and [updated_at] are overwritten, the rest is kept. *)
Definition updated_vote (existing_vote : Vote) (display_name emoji : string) (now : Z)
  : Vote :=
  mkVote (vote_id existing_vote) (vote_poll_id existing_vote)
         (vote_user_id existing_vote) (vote_username existing_vote)
         display_name emoji (vote_voted_at existing_vote) now.

Definition save_vote (message_id user_id : Z) (username display_name emoji : string)
  : M unit :=
  committed <- get db ;;
  try_except
    (execute ;;
     d <- get db ;;
     (* Find the poll *)
     match query_poll message_id d with
     | None => logger WARNING "Poll not found for message"
     | Some (_, poll) =>
         execute ;;
         (* Check for existing vote by this user *)
         match query_vote (poll_id poll) user_id d with
         | Some (i, existing_vote) =>
             (* Update existing vote *)
             now <- utcnow ;;
             modify_db (set_votes
                          (<[i := updated_vote existing_vote display_name emoji now]>
                             (votes d))) ;;
             logger DEBUG "Updated vote"
         | None =>
             (* Create new vote *)
             now <- utcnow ;;
             let vote := mkVote (next_vote_id d) (poll_id poll) user_id username
                                display_name emoji now now in
             modify_db (λ d, set_next_vote_id (next_vote_id d + 1)
                               (set_votes (votes d ++ [vote]) d)) ;;
             logger DEBUG "Created new vote"
         end ;;
         execute
     end)
    (λ e, rollback committed ;;
          logger ERROR "Failed to save vote" ;;
          raise e).

Definition remove_vote (message_id user_id : Z) : M unit :=
  committed <- get db ;;
  try_except
    (execute ;;
     d <- get db ;;
     match query_poll message_id d with
     | None => ret tt
     | Some (_, poll) =>
         execute ;;
         match query_vote (poll_id poll) user_id d with
         | Some (i, vote) =>
             modify_db (set_votes (delete i (votes d))) ;;
             execute ;;
             logger DEBUG "Removed vote"
         | None => ret tt
         end
     end)
    (λ e, rollback committed ;;
          logger ERROR "Failed to remove vote").

(** The tally: display names grouped by emoji, a Python [dict] of lists. *)
Definition group_vote (vote_results : gmap string (list string)) (vote : Vote)
  : gmap string (list string) :=
  <[vote_emoji vote :=
      default [] (vote_results !! vote_emoji vote) ++ [vote_display_name vote]]>
    vote_results.

Definition get_poll_votes (message_id : Z) : M (gmap string (list string)) :=
  try_except
    (execute ;;
     d <- get db ;;
     match query_poll message_id d with
     | None => ret ∅
     | Some (_, poll) =>
         execute ;;
         let votes := filter (λ v, vote_poll_id v = poll_id poll) (votes d) in
         (* Organize votes by emoji *)
         ret (foldl group_vote ∅ votes)
     end)
    (λ e, logger ERROR "Failed to get poll votes" ;; ret ∅).

(** ** bot/config.py: [ConfigManager] *)

(** [save_configs]: dump every configuration to the file; a failure to
    write is logged and goes no further. *)
Definition save_configs : M unit :=
  try_except
    (writable <- get file_writable ;;
     (if writable : bool then ret tt else raise OSError) ;;
     modify (λ w, set_config_file (configs w) w) ;;
     logger DEBUG "Configurations saved successfully")
    (λ e, logger ERROR "Failed to save configurations").

(** The option texts of [get_default_config], as the source file spells
    them. *)
Definition default_config_options : list string :=
  ["âœ… Ð¡Ð²Ð¾Ð±Ð¾Ð´ÐµÐ½ Ñ†ÑÐ» Ð´ÐµÐ½";
   "ðŸŒ… Ð¡Ð²Ð¾Ð±Ð¾Ð´ÐµÐ½ ÑÑƒÑ‚Ñ€Ð¸Ð½ (9:00 - 12:00)";
   "â˜€ï¸ Ð¡Ð²Ð¾Ð±Ð¾Ð´ÐµÐ½ ÑÐ»ÐµÐ´Ð¾Ð±ÐµÐ´ (12:00 - 18:00)";
   "ðŸŒ™ Ð¡Ð²Ð¾Ð±Ð¾Ð´ÐµÐ½ Ð²ÐµÑ‡ÐµÑ€ (18:00 - 23:00)";
   "ðŸŒƒ Ð¡Ð²Ð¾Ð±Ð¾Ð´ÐµÐ½ ÐºÑŠÑÐ½Ð¾ Ð²ÐµÑ‡ÐµÑ€ (23:00+)";
   "ðŸ¤” ÐÐµ ÑÑŠÐ¼ ÑÐ¸Ð³ÑƒÑ€ÐµÐ½";
   "âŒ ÐÐµ ÑÑŠÐ¼ ÑÐ²Ð¾Ð±Ð¾Ð´ÐµÐ½"].

Definition get_default_config : config :=
  {| cfg_enabled := Some false;
     cfg_channel_id := None;
     cfg_poll_hour := Some 8;
     cfg_poll_minute := Some 0;
     cfg_timezone := Some "UTC";
     cfg_poll_options := Some default_config_options;
     cfg_poll_emojis := None;
     cfg_poll_history := Some [] |}.

Definition initialize_guild (guild_id : Z) : M unit :=
  cs <- get configs ;;
  match cs !! guild_id with
  | None =>
      modify (set_configs (<[guild_id := get_default_config]> cs)) ;;
      save_configs ;;
      logger INFO "Initialized configuration for guild"
  | Some _ => ret tt
  end.

Definition get_guild_config (guild_id : Z) : M config :=
  cs <- get configs ;;
  match cs !! guild_id with
  | None => initialize_guild guild_id
  | Some _ => ret tt
  end ;;
  cs <- get configs ;;
  ret (default get_default_config (cs !! guild_id)).

Definition save_guild_config (guild_id : Z) (cfg : config) : M unit :=
  modify (λ w, set_configs (<[guild_id := cfg]> (configs w)) w) ;;
  save_configs ;;
  logger DEBUG "Saved configuration for guild".

Definition remove_guild (guild_id : Z) : M unit :=
  cs <- get configs ;;
  match cs !! guild_id with
  | Some _ =>
      modify (set_configs (delete guild_id cs)) ;;
      save_configs ;;
      logger INFO "Removed configuration for guild"
  | None => ret tt
  end.

Definition get_all_configs : M (gmap Z config) := get configs.

(** ** bot/scheduler.py: [PollScheduler] *)

Definition default_poll_options : list string :=
  ["‚úÖ Available all day";
   "üåÖ Available morning (9 AM - 12 PM)";
   "‚òÄÔ∏è Available afternoon (12 PM - 6 PM)";
   "üåô Available evening (6 PM - 11 PM)";
   "üåÉ Available late night (11 PM+)";
   "ü§î Not sure";
   "‚ùå Not available"].

(** Emoji reactions for voting, as the source file spells them. *)
Definition poll_emojis : list string :=
  ["‚úÖ";
   "üåÖ";
   "‚òÄÔ∏è";
   "üåô";
   "üåÉ";
   "ü§î";
   "‚ùå"].

(** [pytz.timezone(name)] *)
Definition pytz_timezone (name : string) : M string :=
  zones <- get all_timezones ;;
  if decide (name ∈ zones) then ret name else raise UnknownTimeZoneError.

(** [CronTrigger(hour=..., minute=..., timezone=...)]: the fields are
    checked against their ranges when the trigger is built. *)
Definition CronTrigger (hour minute : Z) (timezone : string) : M (Z * Z * string) :=
  if decide (0 ≤ hour ≤ 23 ∧ 0 ≤ minute ≤ 59)
  then ret (hour, minute, timezone)
  else raise ValueError.

(** The job store: [get_job], [remove_job] and
    [add_job(..., replace_existing=True)]. *)
Definition get_job (id : string) (js : list job) : option (nat * job) :=
  list_find (λ j, job_id j = id) js.

Definition remove_job (id : string) : M unit :=
  js <- get jobs ;;
  match get_job id js with
  | Some (i, _) => modify (set_jobs (delete i js))
  | None => raise JobLookupError
  end.

Definition add_job (j : job) : M unit :=
  js <- get jobs ;;
  match get_job (job_id j) js with
  | Some (i, _) => modify (set_jobs (<[i := j]> js))
  | None => modify (set_jobs (js ++ [j]))
  end.

Definition daily_poll_job_id (guild_id : Z) : string :=
  "daily_poll_" +:+ pretty guild_id.

Definition schedule_guild_poll (guild_id : Z) (cfg : config) : M unit :=
  try_except
    ((* Get timezone (default to UTC) *)
     let timezone_str := default "UTC" (cfg_timezone cfg) in
     timezone <- pytz_timezone timezone_str ;;
     (* Get poll time (default to 20:00) *)
     let poll_hour := default 20 (cfg_poll_hour cfg) in
     let poll_minute := default 0 (cfg_poll_minute cfg) in
     (* Create cron trigger for daily execution *)
     trigger <- CronTrigger poll_hour poll_minute timezone ;;
     (* Schedule the job *)
     let id := daily_poll_job_id guild_id in
     (* Remove existing job if it exists *)
     js <- get jobs ;;
     (if decide (is_Some (get_job id js)) then remove_job id else ret tt) ;;
     (* Add new job *)
     add_job (mkJob id guild_id trigger.1.1 trigger.1.2 trigger.2) ;;
     logger INFO "Scheduled daily poll for guild")
    (λ e, logger ERROR "Failed to schedule poll for guild").

Definition unschedule_guild_poll (guild_id : Z) : M unit :=
  let id := daily_poll_job_id guild_id in
  js <- get jobs ;;
  if decide (is_Some (get_job id js))
  then remove_job id ;; logger INFO "Unscheduled daily poll for guild"
  else ret tt.

Definition schedule_all_guilds : M unit :=
  cs <- get_all_configs ;;
  for_each (map_to_list cs)
           (λ gc, if default false (cfg_enabled gc.2)
                  then schedule_guild_poll gc.1 gc.2 else ret tt).

Definition tomorrow_prefix : string := "—É—Ç—Ä–µ ".

(** *** The chat platform's operations *)

Definition set_messages (m : gmap Z message) (p : platform) : platform :=
  mkPlatform (guilds p) (members p) (bot_user p) m (next_message_id p)
             (send_raises p) (delete_raises p) (react_raises p) (edit_raises p)
             (tomorrow_label p) (clock p).
Definition set_next_message_id (n : Z) (p : platform) : platform :=
  mkPlatform (guilds p) (members p) (bot_user p) (messages p) n
             (send_raises p) (delete_raises p) (react_raises p) (edit_raises p)
             (tomorrow_label p) (clock p).
Definition set_clock (t : Z) (p : platform) : platform :=
  mkPlatform (guilds p) (members p) (bot_user p) (messages p) (next_message_id p)
             (send_raises p) (delete_raises p) (react_raises p) (edit_raises p)
             (tomorrow_label p) t.

Definition modify_discord (f : platform → platform) : M unit :=
  modify (λ w, set_discord (f (discord w)) w).

(** Reactions of a message: adding and removing one user's reaction. *)
Fixpoint react (emoji : string) (u : Z) (rs : list (string * list Z))
  : list (string * list Z) :=
  match rs with
  | [] => [(emoji, [u])]
  | (e, us) :: rs' =>
      if decide (e = emoji)
      then (e, if decide (u ∈ us) then us else us ++ [u]) :: rs'
      else (e, us) :: react emoji u rs'
  end.

Fixpoint unreact (emoji : string) (u : Z) (rs : list (string * list Z))
  : list (string * list Z) :=
  match rs with
  | [] => []
  | (e, us) :: rs' =>
      if decide (e = emoji)
      then match filter (λ v, v ≠ u) us with
           | [] => rs'
           | us' => (e, us') :: rs'
           end
      else (e, us) :: unreact emoji u rs'
  end.

Definition set_reactions (rs : list (string * list Z)) (m : message) : message :=
  mkMessage (msg_channel m) rs (msg_options_text m).
Definition set_options_text (s : string) (m : message) : message :=
  mkMessage (msg_channel m) (msg_reactions m) s.

(** [channel.fetch_message(id)] *)
Definition fetch_message (channel id : Z) : M message :=
  p <- get discord ;;
  match messages p !! id with
  | Some m => if decide (msg_channel m = channel) then ret m else raise NotFound
  | None => raise NotFound
  end.

(** [message.delete()] *)
Definition message_delete (id : Z) : M unit :=
  p <- get discord ;;
  match delete_raises p with
  | Some e => raise e
  | None => modify_discord (λ p, set_messages (delete id (messages p)) p)
  end.

(** [channel.send(embed=embed)] *)
Definition channel_send (channel : Z) (options_text : string) : M Z :=
  p <- get discord ;;
  match send_raises p with
  | Some e => raise e
  | None =>
      let id := next_message_id p in
      modify_discord (λ p, set_next_message_id (id + 1)
                             (set_messages (<[id := mkMessage channel [] options_text]>
                                              (messages p)) p)) ;;
      ret id
  end.

(** [message.add_reaction(emoji)] *)
Definition add_reaction (id : Z) (emoji : string) : M unit :=
  p <- get discord ;;
  match react_raises p !! emoji with
  | Some e => raise e
  | None =>
      modify_discord (λ p,
        set_messages (alter (λ m, set_reactions (react emoji (bot_user p) (msg_reactions m)) m)
                            id (messages p)) p)
  end.

(** [message.edit(embed=embed)] *)
Definition message_edit (id : Z) (options_text : string) : M unit :=
  p <- get discord ;;
  match edit_raises p with
  | Some e => raise e
  | None =>
      match messages p !! id with
      | Some m => modify_discord
                    (λ p, set_messages (<[id := set_options_text options_text m]>
                                          (messages p)) p)
      | None => raise NotFound
      end
  end.

(** *** Publishing *)

Definition set_poll_history (h : list Z) (c : config) : config :=
  mkConfig (cfg_enabled c) (cfg_channel_id c) (cfg_poll_hour c) (cfg_poll_minute c)
           (cfg_timezone c) (cfg_poll_options c) (cfg_poll_emojis c) (Some h).

(** The option lines of a freshly published poll. *)
Definition build_options_text (option_texts : list string) : M string :=
  fold_enumerate 0 (take 7 option_texts) ""
    (λ i option options_text,
       emoji <- index poll_emojis i ;;
       ret (options_text +:+ emoji +:+ " " +:+ option +:+ newline)).

(** [for i, _ in enumerate(poll_options[:7]): try: add_reaction ...] *)
Definition add_reactions (msg : Z) (option_texts : list string) : M unit :=
  fold_enumerate 0 (take 7 option_texts) tt
    (λ i _ _,
       emoji <- index poll_emojis i ;;
       try_except (add_reaction msg emoji)
         (λ e, if is_HTTPException e
               then logger WARNING "Failed to add reaction"
               else raise e)).

(** Clean up old polls (keep only last 2): returns the history the rest of
    the publish goes on with.  [poll_history] is the very list stored in
    the guild's configuration, so [pop(0)] already changes
    [config_manager.configs] before anything is saved. *)
Definition cleanup_poll_history (guild_id channel : Z) (cfg : config) : M (list Z) :=
  let poll_history := default [] (cfg_poll_history cfg) in
  if decide (2 ≤ length poll_history)%nat then
    match poll_history with
    | oldest_poll_id :: rest =>
        try_except
          (fetch_message channel oldest_poll_id ;;
           message_delete oldest_poll_id ;;
           logger INFO "Deleted old poll message")
          (λ e, if decide (e = NotFound)
                then logger INFO "Old poll message already deleted"
                else if is_HTTPException e
                then logger WARNING "Failed to delete old poll"
                else raise e) ;;
        (* Remove from history *)
        modify (λ w, set_configs (<[guild_id := set_poll_history rest cfg]> (configs w)) w) ;;
        ret rest
    | [] => ret poll_history
    end
  else ret poll_history.

Definition post_daily_poll (guild_id : Z) : M unit :=
  try_except
    ((* Get guild and config *)
     p <- get discord ;;
     match guilds p !! guild_id with
     | None => logger ERROR "Guild not found"
     | Some channels =>
         cfg <- get_guild_config guild_id ;;
         if negb (default false (cfg_enabled cfg))
         then logger INFO "Polls disabled for guild"
         else
           (* Get channel *)
           match cfg_channel_id cfg with
           | None => logger ERROR "No channel configured for guild"
           | Some channel_id =>
               if decide (channel_id ∈ channels) then
                 formatted_date <- get (λ w, tomorrow_label (discord w)) ;;
                 (* Add poll options *)
                 let option_texts :=
                   default default_poll_options (cfg_poll_options cfg) in
                 options_text <- build_options_text option_texts ;;
                 (* Clean up old polls (keep only last 2) *)
                 poll_history <- cleanup_poll_history guild_id channel_id cfg ;;
                 (* Send the poll *)
                 msg <- channel_send channel_id options_text ;;
                 (* Add reactions *)
                 add_reactions msg option_texts ;;
                 (* Store poll info for reaction tracking *)
                 let info :=
                   mkPollInfo msg msg channel_id guild_id (take 7 option_texts)
                              (take 7 poll_emojis) None
                              (tomorrow_prefix +:+ formatted_date) in
                 (* Add new poll to history *)
                 let poll_history := poll_history ++ [msg] in
                 (* Save updated config *)
                 modify (λ w, set_configs
                                (<[guild_id := set_poll_history poll_history cfg]>
                                   (configs w)) w) ;;
                 save_configs ;;
                 (* Create poll record in database *)
                 poll_db_id <- create_poll guild_id channel_id msg formatted_date false ;;
                 modify (λ w, set_active_polls (<[msg := info]> (active_polls w)) w) ;;
                 logger INFO "Posted daily poll in guild" ;;
                 logger INFO "Created poll record in database"
               else logger ERROR "Channel not found in guild"
           end
     end)
    (λ e, if decide (e = Forbidden)
          then logger ERROR "No permission to send messages in guild"
          else logger ERROR "Failed to post daily poll for guild").

(** [post_test_poll(channel, config)]; [guild_id] is [channel.guild.id]. *)
Definition post_test_poll (guild_id channel_id : Z) (cfg : config) : M Z :=
  try_except
    (formatted_date <- get (λ w, tomorrow_label (discord w)) ;;
     (* Add poll options *)
     let option_texts := default default_poll_options (cfg_poll_options cfg) in
     options_text <- build_options_text option_texts ;;
     (* Send the poll *)
     msg <- channel_send channel_id options_text ;;
     (* Add reactions *)
     add_reactions msg option_texts ;;
     (* Store poll info for reaction tracking *)
     let info :=
       mkPollInfo msg msg channel_id guild_id (take 7 option_texts)
                  (take 7 poll_emojis) (Some true)
                  (tomorrow_prefix +:+ formatted_date) in
     (* Create poll record in database *)
     poll_db_id <- create_poll guild_id channel_id msg formatted_date true ;;
     modify (λ w, set_active_polls (<[msg := info]> (active_polls w)) w) ;;
     logger INFO "Created test poll record in database" ;;
     ret msg)
    (λ e, logger ERROR "Failed to post test poll" ;; raise e).

(** ** main.py: [AvailabilityBot] *)

(** The users of [reaction.users()] for the first reaction of the message
    whose emoji is the given one (the inner [for ... break] loop). *)
Definition reaction_users (rs : list (string * list Z)) (emoji : string)
  : option (list Z) :=
  (λ r, r.2.2) <$> list_find (λ r, r.1 = emoji) rs.

Definition message_reactions (w : world) (msg : Z) : list (string * list Z) :=
  default [] (msg_reactions <$> messages (discord w) !! msg).

(** [async for user in reaction.users(): if not user.bot: save_vote(...)] *)
Definition sync_reaction (poll_message : Z) (emoji : string) (users : list Z) : M unit :=
  for_each users
    (λ uid,
       user <- get (λ w, members (discord w) uid) ;;
       if member_bot user then ret tt
       else save_vote poll_message uid (member_name user)
                      (member_display_name user) emoji).

(** One line of the rendered poll: the option and, under it, its voters. *)
Definition option_line (emoji option : string) (voters : list string) : string :=
  emoji +:+ " " +:+ option
    +:+ match voters with
        | [] => ""
        | _ => newline +:+ "    → " +:+ String.concat ", " voters
        end
    +:+ newline.

Definition update_poll_results (poll_message : Z) (info : poll_info) : M unit :=
  try_except
    ((* Get votes from database *)
     vote_results <- get_poll_votes poll_message ;;
     (* Also check Discord reactions to sync any missing data *)
     reactions <- get (λ w, message_reactions w poll_message) ;;
     for_each (pi_emojis info)
       (λ emoji,
          match reaction_users reactions emoji with
          | Some users => sync_reaction poll_message emoji users
          | None => ret tt
          end) ;;
     (* Get updated vote results from database *)
     vote_results <- get_poll_votes poll_message ;;
     (* Add poll options with votes shown directly under each option *)
     options_text <-
       fold_enumerate 0 (pi_poll_options info) ""
         (λ i option options_text,
            emoji <- index (pi_emojis info) i ;;
            let voters := default [] (vote_results !! emoji) in
            ret (options_text +:+ option_line emoji option voters)) ;;
     (* Update the poll message *)
     message_edit poll_message options_text)
    (λ e, logger ERROR "Failed to update poll results").

(** [active_polls] is created empty where the handlers find it missing, so
    it is a map that is always there. *)
Definition on_reaction_add (message_id user_id : Z) : M unit :=
  user <- get (λ w, members (discord w) user_id) ;;
  (* Ignore bot reactions *)
  if member_bot user then ret tt
  else
    aps <- get active_polls ;;
    match aps !! message_id with
    | Some info =>
        (* Remove vote from database *)
        remove_vote message_id user_id ;;
        update_poll_results message_id info
    | None => ret tt
    end.

Definition on_reaction_remove (message_id user_id : Z) : M unit :=
  user <- get (λ w, members (discord w) user_id) ;;
  (* Ignore bot reactions *)
  if member_bot user then ret tt
  else
    aps <- get active_polls ;;
    match aps !! message_id with
    | Some info =>
        (* Remove vote from database *)
        remove_vote message_id user_id ;;
        update_poll_results message_id info
    | None => ret tt
    end.

(** *** Reaction events as the platform delivers them

    The platform first records the change on the message, then calls the
    matching handler with the message as it now is. *)
Inductive reaction_event : Type :=
  | ReactionAdd (message_id user_id : Z) (emoji : string)
  | ReactionRemove (message_id user_id : Z) (emoji : string).

Definition event_message (ev : reaction_event) : Z :=
  match ev with ReactionAdd m _ _ | ReactionRemove m _ _ => m end.
Definition event_user (ev : reaction_event) : Z :=
  match ev with ReactionAdd _ u _ | ReactionRemove _ u _ => u end.

Definition apply_reaction (ev : reaction_event) (p : platform) : platform :=
  let change :=
    match ev with
    | ReactionAdd _ u emoji => react emoji u
    | ReactionRemove _ u emoji => unreact emoji u
    end in
  set_messages (alter (λ m, set_reactions (change (msg_reactions m)) m)
                      (event_message ev) (messages p)) p.

Definition deliver (ev : reaction_event) : M unit :=
  modify_discord (apply_reaction ev) ;;
  match ev with
  | ReactionAdd m u _ => on_reaction_add m u
  | ReactionRemove m u _ => on_reaction_remove m u
  end.

(** ** Running a computation *)

Definition run {A} (m : M A) (w : world) : world := (m w).2.
Definition result {A} (m : M A) (w : world) : outcome A := (m w).1.

(** ** What the store holds for one poll *)

(** At most one vote per (poll, voter). *)
Definition vote_key (v : Vote) : Z * Z := (vote_poll_id v, vote_user_id v).

Definition one_vote_per_voter (d : database) : Prop :=
  NoDup (vote_key <$> votes d).

(** The vote rows of a poll, as [get_poll_votes] selects them. *)
Definition poll_votes (pid : Z) (d : database) : list Vote :=
  filter (λ v, vote_poll_id v = pid) (votes d).

(** The stored vote of a user on a poll, if any. *)
Definition stored_vote (pid user_id : Z) (d : database) : option Vote :=
  snd <$> query_vote pid user_id d.

(** A tally's group for an emoji; a key that is absent is an empty group. *)
Definition tally_group (t : gmap string (list string)) (emoji : string) : list string :=
  default [] (t !! emoji).

(** ** The live reaction state and the choice it amounts to *)

Definition reacted (rs : list (string * list Z)) (emoji : string) (u : Z) : Prop :=
  match reaction_users rs emoji with
  | Some us => u ∈ us
  | None => False
  end.

#[global] Instance reacted_dec rs emoji u : Decision (reacted rs emoji u).
Proof. unfold reacted. destruct (reaction_users rs emoji); apply _. Defined.

(** A user's net choice: of the poll's emojis the user has live on the
    message, the one enumerated last. *)
Definition net_choice (emojis : list string) (rs : list (string * list Z)) (u : Z)
  : option string :=
  last (filter (λ e, reacted rs e u) emojis).

(** Everyone with a reaction on the message. *)
Definition reactors (rs : list (string * list Z)) : list Z :=
  remove_dups (mjoin (snd <$> rs)).

(** Grouping the net choices: the display names of the non-bot users whose
    net choice is the given emoji. *)
Definition net_tally (p : platform) (emojis : list string)
    (rs : list (string * list Z)) (emoji : string) : list string :=
  (λ u, member_display_name (members p u))
    <$> filter (λ u, member_bot (members p u) = false
                     ∧ net_choice emojis rs u = Some emoji)
               (reactors rs).

(** ** Calls into the store

    The public methods of [DatabaseManager] as the rest of the bot calls
    them, together with what the environment does to the store between two
    calls: the engine going away or coming back, and time passing.  A caller
    that catches what a call raises goes on with the next one. *)
Inductive store_call : Type :=
  | SaveServerConfig (guild_id : Z) (cfg : config)
  | CreatePoll (guild_id channel_id message_id : Z) (date : string) (is_test : bool)
  | SaveVote (message_id user_id : Z) (username display_name emoji : string)
  | RemoveVote (message_id user_id : Z)
  | GetPollVotes (message_id : Z)
  | Outage (up : bool)
  | Tick (now : Z).

Definition set_available (b : bool) (d : database) : database :=
  mkDatabase (server_configs d) (poll_options d) (polls d) (votes d)
             (next_server_config_id d) (next_poll_option_id d) (next_poll_id d)
             (next_vote_id d) b.

Definition swallow {A} (m : M A) : M unit :=
  try_except (m ;; ret tt) (λ _, ret tt).

Definition perform (c : store_call) : M unit :=
  match c with
  | SaveServerConfig g cfg => swallow (save_server_config g cfg)
  | CreatePoll g ch m date t => swallow (create_poll g ch m date t)
  | SaveVote m u n dn e => swallow (save_vote m u n dn e)
  | RemoveVote m u => swallow (remove_vote m u)
  | GetPollVotes m => swallow (get_poll_votes m)
  | Outage up => modify_db (set_available up)
  | Tick now => modify_discord (set_clock now)
  end.

(** ** The triggers of a guild *)

Definition triggers (guild_id : Z) (js : list job) : list job :=
  filter (λ j, job_id j = daily_poll_job_id guild_id) js.

(** ** The stored options of a guild: the option rows of its server row *)

Definition stored_options (guild_id : Z) (d : database) : list PollOption :=
  match query_server guild_id d with
  | Some (_, server) =>
      filter (λ o, po_server_config_id o = sc_id server) (poll_options d)
  | None => []
  end.

(** ** Postconditions

    [ensures m w Q]: running [m] from [w] ends, returning or raising, in an
    outcome and a world that satisfy [Q]. *)
Definition ensures {A} (m : M A) (w : world) (Q : outcome A → world → Prop) : Prop :=
  Q (m w).1 (m w).2.

(** What attaching reactions to message [msg] leaves alone: everything but
    that message and the log, which only grows. *)
Definition only_touches_message (msg : Z) (w w' : world) : Prop :=
  db w' = db w
  ∧ configs w' = configs w
  ∧ config_file w' = config_file w
  ∧ file_writable w' = file_writable w
  ∧ active_polls w' = active_polls w
  ∧ react_raises (discord w') = react_raises (discord w)
  ∧ (∀ m, m ≠ msg → messages (discord w') !! m = messages (discord w) !! m)
  ∧ (is_Some (messages (discord w) !! msg) → is_Some (messages (discord w') !! msg))
  ∧ log w `prefix_of` log w'.

(** What a call into the store leaves alone. *)
Definition only_touches_store (w w' : world) : Prop :=
  configs w' = configs w
  ∧ config_file w' = config_file w
  ∧ active_polls w' = active_polls w
  ∧ discord w' = discord w
  ∧ available (db w') = available (db w)
  ∧ log w `prefix_of` log w'.

(** The live messages once the retention step has tried to delete message
    [oldest] through channel [channel]: the message goes when it is found
    in that channel and the platform accepts the deletion. *)
Definition messages_after_cleanup (channel oldest : Z) (p : platform) : gmap Z message :=
  match messages p !! oldest with
  | Some m =>
      if decide (msg_channel m = channel)
      then match delete_raises p with
           | None => delete oldest (messages p)
           | Some _ => messages p
           end
      else messages p
  | None => messages p
  end.

(** The line the retention step logs about it. *)
Definition cleanup_log_line (channel oldest : Z) (p : platform) : log_line :=
  match messages p !! oldest with
  | Some m =>
      if decide (msg_channel m = channel)
      then match delete_raises p with
           | None => (INFO, "Deleted old poll message")
           | Some e => if decide (e = NotFound)
                       then (INFO, "Old poll message already deleted")
                       else (WARNING, "Failed to delete old poll")
           end
      else (INFO, "Old poll message already deleted")
  | None => (INFO, "Old poll message already deleted")
  end.

(** ** The store against the live reactions *)

(** What the store holds as a user's choice on a poll: emoji and display
    name of the user's vote row. *)
Definition stored_choice (pid : Z) (d : database) (u : Z) : option (string * string) :=
  (λ v, (vote_emoji v, vote_display_name v)) <$> stored_vote pid u d.

(** The store agrees with the live reactions of the poll's message: every
    non-bot user with a net choice has it stored under the user's display
    name, and nobody else has a vote. *)
Definition in_sync (pid message_id : Z) (emojis : list string) (w : world) : Prop :=
  ∀ u, stored_choice pid (db w) u
       = if member_bot (members (discord w) u) then None
         else (λ e, (e, member_display_name (members (discord w) u)))
                <$> net_choice emojis (message_reactions w message_id) u.

(** What handling a reaction event leaves alone. *)
Definition same_setting (w w' : world) : Prop :=
  available (db w') = available (db w)
  ∧ polls (db w') = polls (db w)
  ∧ active_polls w' = active_polls w
  ∧ members (discord w') = members (discord w)
  ∧ (∀ m, message_reactions w' m = message_reactions w m).

(** What saving and removing votes leave alone, and what they keep. *)
Definition vote_step (w w' : world) : Prop :=
  available (db w') = available (db w)
  ∧ polls (db w') = polls (db w)
  ∧ active_polls w' = active_polls w
  ∧ discord w' = discord w
  ∧ (one_vote_per_voter (db w) → one_vote_per_voter (db w')).

(** A tracked poll in a consistent state: the store is up, the poll row of
    the message exists, the message is in the active-poll index, no voter
    has two rows, the message has one reaction entry per emoji, and the
    store agrees with the live reactions. *)
Definition poll_tracked (message_id : Z) (i : nat) (poll : Poll) (info : poll_info)
    (w : world) : Prop :=
  available (db w) = true
  ∧ query_poll message_id (db w) = Some (i, poll)
  ∧ active_polls w !! message_id = Some info
  ∧ one_vote_per_voter (db w)
  ∧ NoDup (fst <$> message_reactions w message_id)
  ∧ in_sync (poll_id poll) message_id (pi_emojis info) w.

(** ** Invariants of computations *)

(** [m] keeps [I], however it ends. *)
Definition preserves {A} (I : world → Prop) (m : M A) : Prop :=
  ∀ w, I w → I (run m w).

(** The polls and the active-poll index are those of [w0], and no vote row
    of poll [pid] carries the emoji. *)
Definition emoji_unused (pid : Z) (emoji : string) (w0 w : world) : Prop :=
  polls (db w) = polls (db w0)
  ∧ active_polls w = active_polls w0
  ∧ Forall (λ v, vote_poll_id v = pid → vote_emoji v ≠ emoji) (votes (db w)).

(** The emojis of a poll's option snapshot: the poll's options are paired
    by position with its emoji list (the option lines and the reactions the
    publish adds take [emojis[i]] for the [i]-th option), so these are the
    first emojis of the list, as many as the poll has options. *)
Definition snapshot_emojis (info : poll_info) : list string :=
  take (length (pi_poll_options info)) (pi_emojis info).

(** ** A small guild to run things on

    Guild 7 with channels 70 and 71, the bot (user 1) and two members; the
    guild's stored configuration offers two options. *)

Definition sample_members (u : Z) : member :=
  if decide (u = 1) then mkMember "pollbot" "Poll Bot" true
  else if decide (u = 10) then mkMember "alice" "Alice" false
  else if decide (u = 11) then mkMember "bob" "Bobby" false
  else mkMember "guest" "Guest" false.

Definition sample_platform : platform :=
  {| guilds := {[ 7 := [70; 71] ]};
     members := sample_members;
     bot_user := 1;
     messages := ∅;
     next_message_id := 100;
     send_raises := None;
     delete_raises := None;
     react_raises := ∅;
     edit_raises := None;
     tomorrow_label := "Monday";
     clock := 5000 |}.

Definition sample_config : config :=
  {| cfg_enabled := Some true;
     cfg_channel_id := Some 70;
     cfg_poll_hour := Some 8;
     cfg_poll_minute := Some 0;
     cfg_timezone := Some "UTC";
     cfg_poll_options := Some ["Free all day"; "Busy"];
     cfg_poll_emojis := None;
     cfg_poll_history := Some [] |}.

Definition sample_database : database :=
  set_next_server_config_id 2
    (set_server_configs [mkServerConfig 1 7 true (Some 70) 8 0 "UTC" 0 0]
                        empty_database).

Definition sample_world : world :=
  {| all_timezones := ["UTC"; "Europe/Sofia"; "America/New_York"];
     db := sample_database;
     configs := {[ 7 := sample_config ]};
     config_file := {[ 7 := sample_config ]};
     file_writable := true;
     jobs := [];
     active_polls := ∅;
     discord := sample_platform;
     log := [] |}.

(** The guild after one daily publish (message 100), and after Alice and
    Bob have voted on it. *)
Definition sample_published : world := run (post_daily_poll 7) sample_world.

Definition first_emoji : string := default "" (head poll_emojis).
Definition last_emoji : string := default "" (last poll_emojis).

Definition sample_events : list reaction_event :=
  [ReactionAdd 100 10 first_emoji; ReactionAdd 100 11 first_emoji;
   ReactionRemove 100 10 first_emoji; ReactionAdd 100 10 last_emoji].

Definition sample_voted : world := run (for_each sample_events deliver) sample_published.

(** A configuration whose timezone no zone database knows. *)
Definition sample_config_bad_timezone : config :=
  {| cfg_enabled := Some true;
     cfg_channel_id := Some 70;
     cfg_poll_hour := Some 8;
     cfg_poll_minute := Some 0;
     cfg_timezone := Some "Mars/Olympus_Mons";
     cfg_poll_options := Some ["Free all day"; "Busy"];
     cfg_poll_emojis := None;
     cfg_poll_history := Some [] |}.

(** The guild with its daily poll scheduled. *)
Definition sample_scheduled : world := run (schedule_guild_poll 7 sample_config) sample_world.

(** A configuration to save with two options and an empty emoji list. *)
Definition sample_config_no_emojis : config :=
  {| cfg_enabled := Some true;
     cfg_channel_id := Some 70;
     cfg_poll_hour := Some 8;
     cfg_poll_minute := Some 0;
     cfg_timezone := Some "UTC";
     cfg_poll_options := Some ["Free all day"; "Busy"];
     cfg_poll_emojis := Some [];
     cfg_poll_history := Some [] |}.

(** The guild with two polls in its history (messages 90 and 95, both still
    in channel 70), and the same guild on a day the platform answers every
    send with a server error. *)
Definition sample_history_config : config := set_poll_history [90; 95] sample_config.

Definition sample_two_polls : world :=
  set_discord
    (set_messages {[ 90 := mkMessage 70 [] ""; 95 := mkMessage 70 [] "" ]} sample_platform)
    (set_configs {[ 7 := sample_history_config ]} sample_world).

Definition set_send_raises (e : option exn) (p : platform) : platform :=
  mkPlatform (guilds p) (members p) (bot_user p) (messages p) (next_message_id p)
             e (delete_raises p) (react_raises p) (edit_raises p)
             (tomorrow_label p) (clock p).

Definition sample_send_fails : world :=
  set_discord (set_send_raises (Some HTTPException) sample_platform) sample_world.

(** What the daily publish registered for message 100. *)
Definition sample_poll : Poll := mkPoll 1 1 7 70 100 "Monday" false 5000.

Definition sample_poll_info : poll_info :=
  {| pi_poll_message_id := 100;
     pi_vote_message_id := 100;
     pi_channel_id := 70;
     pi_guild_id := 7;
     pi_poll_options := ["Free all day"; "Busy"];
     pi_emojis := poll_emojis;
     pi_is_test := None;
     pi_poll_date := tomorrow_prefix +:+ "Monday" |}.

(** The same votes cast in another order. *)
Definition sample_events_reordered : list reaction_event :=
  [ReactionAdd 100 10 last_emoji; ReactionAdd 100 10 first_emoji;
   ReactionAdd 100 11 first_emoji; ReactionRemove 100 10 first_emoji].

(** Alice reacts with an emoji the poll does not know, Bob votes. *)
Definition party_emoji : string := "🎉".

Definition sample_events_off_palette : list reaction_event :=
  [ReactionAdd 100 10 party_emoji; ReactionAdd 100 11 first_emoji].

(** Alice reacts with the last emoji of the palette, then with the first,
    and keeps both. *)
Definition sample_events_two_live : list reaction_event :=
  [ReactionAdd 100 10 last_emoji; ReactionAdd 100 10 first_emoji].

(** ** Keys of the store

    [id] is the primary key of [polls], handed out by a serial counter;
    [votes.poll_id] is a foreign key into [polls]. *)

Definition poll_ids_fresh (d : database) : Prop :=
  NoDup (poll_id <$> polls d) ∧ Forall (λ p, poll_id p < next_poll_id d) (polls d).

Definition votes_have_polls (d : database) : Prop :=
  Forall (λ v, vote_poll_id v ∈ poll_id <$> polls d) (votes d).

(** The poll rows of one server. *)
Definition server_polls (sid : Z) (d : database) : list Poll :=
  filter (λ p, poll_server_config_id p = sid) (polls d).

(** How many of the server's polls among [ps] are newer than [p]: the
    position of [p] in [order_by(Poll.created_at.desc())]. *)
Definition rank (sid : Z) (ps : list Poll) (p : Poll) : nat :=
  length (filter (λ q, poll_server_config_id q = sid ∧ newer q p) ps).

(** No stored poll row is ahead of the clock. *)
Definition polls_not_ahead (now : Z) (d : database) : Prop :=
  Forall (λ p, poll_created_at p ≤ now) (polls d).

(** The sample guild after three more polls went into the store, each a
    tick later than the one before. *)
Definition sample_more_polls : world :=
  run (for_each [Tick 5001; CreatePoll 7 70 101 "Tuesday" false;
                 Tick 5002; CreatePoll 7 70 102 "Wednesday" true;
                 Tick 5003]
                perform)
      sample_voted.

(** ** database/database_manager.py: reading back and cleaning up *)

(** [order_by(PollOption.order_index)]: rows in ascending order of their
    index, rows with equal indices in the order the engine holds them. *)
Fixpoint insert_by_index (o : PollOption) (l : list PollOption) : list PollOption :=
  match l with
  | [] => [o]
  | o' :: l' =>
      if decide (po_order_index o ≤ po_order_index o')%nat
      then o :: l
      else o' :: insert_by_index o l'
  end.

Definition order_by_index (l : list PollOption) : list PollOption :=
  foldr insert_by_index [] l.

(** Rows that already come in ascending order of their index. *)
Fixpoint ordered_by_index (l : list PollOption) : Prop :=
  match l with
  | [] => True
  | o :: l' =>
      match l' with
      | [] => True
      | o' :: _ => (po_order_index o ≤ po_order_index o')%nat
      end ∧ ordered_by_index l'
  end.

Definition get_server_config (guild_id : Z) : M (option config) :=
  try_except
    (execute ;;
     d <- get db ;;
     match query_server guild_id d with
     | None => ret None
     | Some (_, server) =>
         (* Get poll options *)
         execute ;;
         let options :=
           order_by_index
             (filter (λ o, po_server_config_id o = sc_id server) (poll_options d)) in
         ret (Some {| cfg_enabled := Some (sc_enabled server);
                      cfg_channel_id := sc_channel_id server;
                      cfg_poll_hour := Some (sc_poll_hour server);
                      cfg_poll_minute := Some (sc_poll_minute server);
                      cfg_timezone := Some (sc_timezone server);
                      cfg_poll_options := Some (po_text <$> options);
                      cfg_poll_emojis := Some (po_emoji <$> options);
                      cfg_poll_history := Some [] |})
     end)
    (λ e, logger ERROR "Failed to get server config" ;; ret None).

Definition get_enabled_servers : M (list Z) :=
  try_except
    (execute ;;
     d <- get db ;;
     let servers := filter (λ s, sc_enabled s = true) (server_configs d) in
     ret (sc_guild_id <$> servers))
    (λ e, logger ERROR "Failed to get enabled servers" ;; ret []).

(** Dates and durations, with the clock read as whole seconds since
    1970-01-01 00:00:00.  A [timedelta] holds at most 999999999 days either
    way, and a [datetime] lies between 0001-01-01 00:00:00 and 9999-12-31
    23:59:59; building a duration or a date outside raises
    [OverflowError]. *)
Definition timedelta_max_days : Z := 999999999.
Definition datetime_min : Z := -62135596800.
Definition datetime_max : Z := 253402300799.

(** [timedelta(days=days)] *)
Definition timedelta_days (days : Z) : M Z :=
  if decide (- timedelta_max_days ≤ days ≤ timedelta_max_days)
  then ret (days * 86400)
  else raise OverflowError.

(** [date - delta] *)
Definition datetime_sub (date delta : Z) : M Z :=
  if decide (datetime_min ≤ date - delta ≤ datetime_max)
  then ret (date - delta)
  else raise OverflowError.

Definition cleanup_old_data (days : Z) : M unit :=
  committed <- get db ;;
  try_except
    (now <- utcnow ;;
     delta <- timedelta_days days ;;
     cutoff_date <- datetime_sub now delta ;;
     (* Delete old polls (and their votes will cascade) *)
     execute ;;
     d <- get db ;;
     let old_polls := filter (λ p, poll_created_at p < cutoff_date) (polls d) in
     modify_db (λ d0, foldl (λ d p, delete_poll p d) d0 old_polls) ;;
     execute ;;
     logger INFO "Cleaned up old polls and their votes")
    (λ e, rollback committed ;;
          logger ERROR "Failed to cleanup old data").

(** The cutoff [cleanup_old_data] can compute: the number of days fits a
    [timedelta] and the date that many days back is a [datetime]. *)
Definition cutoff_in_range (now days : Z) : Prop :=
  (- timedelta_max_days ≤ days ≤ timedelta_max_days)
  ∧ datetime_min ≤ now - days * 86400 ≤ datetime_max.

#[global] Instance cutoff_in_range_dec now days : Decision (cutoff_in_range now days).
Proof. unfold cutoff_in_range. apply _. Defined.

(** What a configuration reads as once it has been through the store:
    missing keys take the defaults of [save_server_config], and the poll
    history is not kept. *)
Definition stored_settings (cfg : config) (option_texts emojis : list string) : config :=
  {| cfg_enabled := Some (default false (cfg_enabled cfg));
     cfg_channel_id := cfg_channel_id cfg;
     cfg_poll_hour := Some (default 5 (cfg_poll_hour cfg));
     cfg_poll_minute := Some (default 0 (cfg_poll_minute cfg));
     cfg_timezone := Some (default "UTC" (cfg_timezone cfg));
     cfg_poll_options := Some option_texts;
     cfg_poll_emojis := Some emojis;
     cfg_poll_history := Some [] |}.

(** The sample guild's configuration saved to the store, and the store
    thirty days after the last poll of [sample_more_polls] was created. *)
Definition sample_saved : world := run (save_server_config 7 sample_config) sample_world.

Definition sample_month_later : world :=
  run (for_each [SaveVote 101 10 "alice" "Alice" first_emoji;
                 SaveVote 102 11 "bob" "Bobby" last_emoji;
                 Tick 2597002]
                perform)
      sample_more_polls.

(** ** The job store's key: no two jobs share an id *)

Definition job_ids_unique (js : list job) : Prop := NoDup (job_id <$> js).

(** The trigger [schedule_guild_poll] builds from a configuration. *)
Definition configured_trigger (guild_id : Z) (cfg : config) : job :=
  mkJob (daily_poll_job_id guild_id) guild_id
        (default 20 (cfg_poll_hour cfg)) (default 0 (cfg_poll_minute cfg))
        (default "UTC" (cfg_timezone cfg)).

(** A configuration [schedule_guild_poll] can build a trigger from: its
    timezone is a known zone and its time a time of day. *)
Definition schedulable (zones : list string) (cfg : config) : Prop :=
  default "UTC" (cfg_timezone cfg) ∈ zones
  ∧ 0 ≤ default 20 (cfg_poll_hour cfg) ≤ 23
  ∧ 0 ≤ default 0 (cfg_poll_minute cfg) ≤ 59.

#[global] Instance schedulable_dec zones cfg : Decision (schedulable zones cfg).
Proof. unfold schedulable. apply _. Defined.

(** Three guilds at start-up: guild 7 as before, guild 8 enabled with a
    timezone nobody knows, guild 9 configured but disabled. *)
Definition sample_config_disabled : config :=
  {| cfg_enabled := Some false;
     cfg_channel_id := Some 90;
     cfg_poll_hour := Some 21;
     cfg_poll_minute := Some 30;
     cfg_timezone := Some "Europe/Sofia";
     cfg_poll_options := None;
     cfg_poll_emojis := None;
     cfg_poll_history := None |}.

Definition sample_three_guilds : world :=
  set_configs {[ 7 := sample_config; 8 := sample_config_bad_timezone;
                 9 := sample_config_disabled ]} sample_world.

(** Calls into the scheduler, as the commands and the start-up make them. *)
Inductive schedule_call : Type :=
  | Schedule (guild_id : Z) (cfg : config)
  | Unschedule (guild_id : Z)
  | ScheduleAll.

Definition perform_schedule (c : schedule_call) : M unit :=
  match c with
  | Schedule g cfg => schedule_guild_poll g cfg
  | Unschedule g => unschedule_guild_poll g
  | ScheduleAll => schedule_all_guilds
  end.

(** ** Calls into the configuration manager *)

Inductive config_call : Type :=
  | InitializeGuild (guild_id : Z)
  | GetGuildConfig (guild_id : Z)
  | SaveGuildConfig (guild_id : Z) (cfg : config)
  | RemoveGuild (guild_id : Z).

Definition perform_config (c : config_call) : M unit :=
  match c with
  | InitializeGuild g => initialize_guild g
  | GetGuildConfig g => get_guild_config g ;; ret tt
  | SaveGuildConfig g cfg => save_guild_config g cfg
  | RemoveGuild g => remove_guild g
  end.

(** ** main.py: leaving a guild *)

Definition on_guild_remove (guild_id : Z) : M unit :=
  logger INFO "Removed from guild" ;;
  (* Clean up guild configuration *)
  remove_guild guild_id.

(** The sample guild on a disk that cannot be written. *)
Definition sample_read_only : world :=
  mkWorld (all_timezones sample_world) (db sample_world) (configs sample_world)
          (config_file sample_world) false (jobs sample_world)
          (active_polls sample_world) (discord sample_world) (log sample_world).

(** The scheduled sample guild once the bot has been removed from it: the
    platform no longer lists the guild. *)
Definition sample_left_guild : world :=
  set_discord (mkPlatform ∅ sample_members 1 ∅ 100 None None ∅ None "Monday" 5000)
              sample_scheduled.

(** ** What publishing a test poll leaves alone

    The configuration in memory and on disk, and the job store. *)
Definition same_configuration (w0 w : world) : Prop :=
  configs w = configs w0
  ∧ config_file w = config_file w0
  ∧ file_writable w = file_writable w0
  ∧ jobs w = jobs w0
  ∧ all_timezones w = all_timezones w0.

(** The store is the given one. *)
Definition store_is (d : database) (w : world) : Prop := db w = d.

(** ** A freshly published poll *)

(** Every reaction in the list is by the one account. *)
Definition reactions_by (a : Z) (rs : list (string * list Z)) : Prop :=
  Forall (λ r, Forall (λ u, u = a) r.2) rs.

(** The platform apart from its messages: the same guilds, users and bot
    account, the same answers to sends, deletions, reactions and edits, the
    same clock and date. *)
Definition same_platform (p p' : platform) : Prop :=
  guilds p' = guilds p
  ∧ members p' = members p
  ∧ bot_user p' = bot_user p
  ∧ send_raises p' = send_raises p
  ∧ delete_raises p' = delete_raises p
  ∧ react_raises p' = react_raises p
  ∧ edit_raises p' = edit_raises p
  ∧ tomorrow_label p' = tomorrow_label p
  ∧ clock p' = clock p.

(** What a step of a publish leaves alone besides: the store, the
    active-poll index and the id the next message will get. *)
Definition publish_step (w w' : world) : Prop :=
  db w' = db w
  ∧ active_polls w' = active_polls w
  ∧ next_message_id (discord w') = next_message_id (discord w)
  ∧ same_platform (discord w) (discord w').

(** What the publish puts into the active-poll index for its message. *)
Definition published_info (msg channel_id guild_id : Z) (cfg : config)
    (is_test : option bool) (label : string) : poll_info :=
  mkPollInfo msg msg channel_id guild_id
             (take 7 (default default_poll_options (cfg_poll_options cfg)))
             (take 7 poll_emojis) is_test (tomorrow_prefix +:+ label).

(** The publish can go through: the platform takes the message, refuses a
    deletion or a reaction only with a delivery error, and the bot's own
    account is marked as a bot. *)
Definition platform_accepts (p : platform) : Prop :=
  send_raises p = None
  ∧ (∀ e, delete_raises p = Some e → is_HTTPException e = true)
  ∧ (∀ emoji e, react_raises p !! emoji = Some e → is_HTTPException e = true)
  ∧ member_bot (members p (bot_user p)) = true.

(** The store can take the poll of a new message [msg] for the guild: it is
    up, the guild has a server row, its keys hold, and no row is dated ahead
    of the clock. *)
Definition store_accepts (guild_id msg now : Z) (d : database) : Prop :=
  available d = true
  ∧ is_Some (query_server guild_id d)
  ∧ query_poll msg d = None
  ∧ poll_ids_fresh d
  ∧ votes_have_polls d
  ∧ polls_not_ahead now d
  ∧ one_vote_per_voter d.

(** The sample guild with a store that has no server row for it. *)
Definition sample_no_server_row : world := set_db empty_database sample_world.

(** ** bot/scheduler.py: the next run of a guild's trigger *)

(** [get_next_poll_time]: the job's next run time, which the trigger
    library derives from the time of day and zone of the job; [None] when
    the guild has no job. *)
Definition get_next_poll_time (guild_id : Z) : M (option (Z * Z * string)) :=
  js <- get jobs ;;
  ret ((λ ij, (job_hour ij.2, job_minute ij.2, job_timezone ij.2))
         <$> get_job (daily_poll_job_id guild_id) js).

(** ** bot/commands.py: the commands that change a guild's settings

    A command runs in a guild and a channel ([ctx.guild], [ctx.channel]).
    [ctx.send(embed=embed)] answers in that channel; of the answer its title
    is kept, where a poll message keeps its option lines.  The permission
    decorators are checked by the command framework before a body runs and
    are not part of the bodies below. *)

Definition ctx_send (ctx_channel : Z) (title : string) : M unit :=
  channel_send ctx_channel title ;; ret tt.

Definition set_poll_time (hour minute : Z) (c : config) : config :=
  mkConfig (cfg_enabled c) (cfg_channel_id c) (Some hour) (Some minute)
           (cfg_timezone c) (cfg_poll_options c) (cfg_poll_emojis c) (cfg_poll_history c).

Definition set_timezone (timezone_name : string) (c : config) : config :=
  mkConfig (cfg_enabled c) (cfg_channel_id c) (cfg_poll_hour c) (cfg_poll_minute c)
           (Some timezone_name) (cfg_poll_options c) (cfg_poll_emojis c)
           (cfg_poll_history c).

Definition set_enabled (enabled : bool) (c : config) : config :=
  mkConfig (Some enabled) (cfg_channel_id c) (cfg_poll_hour c) (cfg_poll_minute c)
           (cfg_timezone c) (cfg_poll_options c) (cfg_poll_emojis c) (cfg_poll_history c).

Definition time_command (guild_id ctx_channel hour minute : Z) : M unit :=
  if negb (bool_decide (0 ≤ hour ≤ 23)) then ctx_send ctx_channel "❌ Invalid Hour"
  else if negb (bool_decide (0 ≤ minute ≤ 59)) then ctx_send ctx_channel "❌ Invalid Minute"
  else
    cfg <- get_guild_config guild_id ;;
    let cfg := set_poll_time hour minute cfg in
    save_guild_config guild_id cfg ;;
    (* Reschedule if polls are enabled *)
    (if default false (cfg_enabled cfg)
     then schedule_guild_poll guild_id cfg else ret tt) ;;
    ctx_send ctx_channel "✅ Time Updated".

Definition timezone_command (guild_id ctx_channel : Z) (timezone_name : string)
  : M unit :=
  valid <- try_except
             ((* Validate timezone *)
              pytz_timezone timezone_name ;; ret true)
             (λ e, if decide (e = UnknownTimeZoneError)
                   then ctx_send ctx_channel "❌ Invalid Timezone" ;; ret false
                   else raise e) ;;
  if negb valid then ret tt
  else
    cfg <- get_guild_config guild_id ;;
    let cfg := set_timezone timezone_name cfg in
    save_guild_config guild_id cfg ;;
    (* Reschedule if polls are enabled *)
    (if default false (cfg_enabled cfg)
     then schedule_guild_poll guild_id cfg else ret tt) ;;
    ctx_send ctx_channel "✅ Timezone Updated".

(** [if not config.get('channel_id')]: a channel id, once set, is the
    non-empty string [str(channel.id)]. *)
Definition enable_command (guild_id ctx_channel : Z) : M unit :=
  cfg <- get_guild_config guild_id ;;
  (* Check if channel is set *)
  match cfg_channel_id cfg with
  | None => ctx_send ctx_channel "❌ No Channel Set"
  | Some _ =>
      let cfg := set_enabled true cfg in
      save_guild_config guild_id cfg ;;
      (* Schedule the daily poll *)
      schedule_guild_poll guild_id cfg ;;
      (* Show next poll time *)
      next_time <- get_next_poll_time guild_id ;;
      ctx_send ctx_channel "✅ Polls Enabled"
  end.

Definition disable_command (guild_id ctx_channel : Z) : M unit :=
  cfg <- get_guild_config guild_id ;;
  let cfg := set_enabled false cfg in
  save_guild_config guild_id cfg ;;
  (* Unschedule the daily poll *)
  unschedule_guild_poll guild_id ;;
  ctx_send ctx_channel "✅ Polls Disabled".

(** ** What a poll message shows

    The option lines of a poll with its votes: each option after its emoji
    and, under it, the voters the tally has for that emoji. *)
Definition rendered_lines (options emojis : list string)
    (tally : gmap string (list string)) : string :=
  foldl (λ text oe, text +:+ option_line oe.2 oe.1 (tally_group tally oe.2))
        "" (zip options emojis).

(** The poll message of the sample guild once Alice and Bob have voted. *)
Definition sample_voted_message : message :=
  default (mkMessage 0 [] "") (messages (discord sample_voted) !! 100).

(** ** database/database_manager.py: [migrate_from_json]

    What opening and parsing the JSON file gave: no file, a file that
    cannot be read or parsed, or the guild configurations it holds, keyed
    by guild id as everywhere else.  The loop takes the guilds in the order
    of [map_to_list]; nothing proved below depends on that order. *)
Inductive json_file : Type :=
  | FileNotFound
  | Unreadable
  | Parsed (json_data : gmap Z config).

(** The option texts a migrated guild gets when its configuration has
    none. *)
Definition migrated_default_options : list string :=
  ["✅ Свободен цял ден";
   "🌅 Свободен сутрин (9:00 - 12:00)";
   "☀️ Свободен следобед (12:00 - 18:00)";
   "🌙 Свободен вечер (18:00 - 23:00)";
   "🌃 Свободен късно вечер (23:00+)";
   "🤔 Не съм сигурен";
   "❌ Не съм свободен"].

(** [for i, option_text in enumerate(poll_options[:7])]: one option row
    each, with the built-in emoji at its position. *)
Definition migrate_options (sid : Z) (option_texts : list string) : M unit :=
  fold_enumerate 0 (take 7 option_texts) tt
    (λ i option_text _,
       emoji <- index default_emojis i ;;
       now <- utcnow ;;
       modify_db (λ d,
         set_next_poll_option_id (next_poll_option_id d + 1)
           (set_poll_options
              (poll_options d
                 ++ [mkPollOption (next_poll_option_id d) sid emoji option_text i now])
              d))).

(** The server row a guild's configuration is migrated to. *)
Definition migrated_server (id guild_id now : Z) (cfg : config) : ServerConfig :=
  mkServerConfig id guild_id
                 (default false (cfg_enabled cfg))
                 (cfg_channel_id cfg)
                 (default 5 (cfg_poll_hour cfg))
                 (default 0 (cfg_poll_minute cfg))
                 (default "UTC" (cfg_timezone cfg))
                 now now.

(** One turn of the loop over the guilds of the file. *)
Definition migrate_guild (guild_id : Z) (cfg : config) : M unit :=
  (* Check if server already exists *)
  execute ;;
  d <- get db ;;
  match query_server guild_id d with
  | Some _ => logger INFO "Server already exists in database, skipping"
  | None =>
      (* Create server config *)
      now <- utcnow ;;
      let server := migrated_server (next_server_config_id d) guild_id now cfg in
      modify_db (λ d, set_next_server_config_id (next_server_config_id d + 1)
                        (set_server_configs (server_configs d ++ [server]) d)) ;;
      execute ;;
      (* Add poll options *)
      let option_texts := default migrated_default_options (cfg_poll_options cfg) in
      migrate_options (sc_id server) option_texts ;;
      logger INFO "Migrated server to database"
  end.

Definition migrate_from_json (file : json_file) : M unit :=
  try_except
    (match file with
     | FileNotFound => logger INFO "No existing JSON file found, starting fresh"
     | Unreadable => logger ERROR "Failed to load JSON file"
     | Parsed json_data =>
         logger INFO "Loaded JSON data" ;;
         committed <- get db ;;
         try_except
           ((* Migrate each server configuration *)
            for_each (map_to_list json_data) (λ gc, migrate_guild gc.1 gc.2) ;;
            execute ;;
            logger INFO "JSON migration completed successfully")
           (λ e, rollback committed ;;
                 logger ERROR "Failed to migrate JSON data" ;;
                 raise e)
     end)
    (λ e, logger ERROR "Migration failed" ;; raise e).

(** A start-up file with the sample guild and two more. *)
Definition sample_json : gmap Z config :=
  {[ 7 := sample_config_disabled; 8 := sample_config_bad_timezone;
     9 := sample_config_disabled ]}.

(** * Verified properties *)

Ltac unfold_M :=
  unfold run, result, swallow, logger, utcnow, rollback, modify_db,
    modify_discord, execute in *;
  unfold bind, try_except, ret, raise, get, modify in *.

(** ** The store *)

Section store.
Implicit Types (w : world) (d : database).

(** What [save_vote] does to the vote table: nothing, an update in place,
    or one row appended. *)
Lemma save_vote_votes message_id user_id username display_name emoji w :
  let vs := votes (db w) in
  let vs' := votes (db (run (save_vote message_id user_id username
                                       display_name emoji) w)) in
  vs' = vs
  ∨ (∃ i poll j existing,
        query_poll message_id (db w) = Some (i, poll)
        ∧ query_vote (poll_id poll) user_id (db w) = Some (j, existing)
        ∧ vs' = <[j := updated_vote existing display_name emoji
                                    (clock (discord w))]> vs)
  ∨ (∃ i poll,
        query_poll message_id (db w) = Some (i, poll)
        ∧ query_vote (poll_id poll) user_id (db w) = None
        ∧ vs' = vs ++ [mkVote (next_vote_id (db w)) (poll_id poll) user_id
                              username display_name emoji
                              (clock (discord w)) (clock (discord w))]).
Proof.
  unfold save_vote. unfold_M.
  destruct (available (db w)) eqn:Hav; simpl; [|by left].
  destruct (query_poll message_id (db w)) as [[i poll]|] eqn:Hq; simpl; [|by left].
  rewrite Hav.
  destruct (query_vote (poll_id poll) user_id (db w)) as [[j existing]|] eqn:Hv;
    simpl; rewrite Hav; simpl.
  - right; left. by exists i, poll, j, existing.
  - right; right. by exists i, poll.
Qed.

Lemma remove_vote_votes message_id user_id w :
  let vs := votes (db w) in
  let vs' := votes (db (run (remove_vote message_id user_id) w)) in
  vs' = vs
  ∨ (∃ i poll j vote,
        query_poll message_id (db w) = Some (i, poll)
        ∧ query_vote (poll_id poll) user_id (db w) = Some (j, vote)
        ∧ vs' = delete j vs).
Proof.
  unfold remove_vote. unfold_M.
  destruct (available (db w)) eqn:Hav; simpl; [|by left].
  destruct (query_poll message_id (db w)) as [[i poll]|] eqn:Hq; simpl; [|by left].
  rewrite Hav.
  destruct (query_vote (poll_id poll) user_id (db w)) as [[j vote]|] eqn:Hv;
    simpl; [|by left].
  rewrite Hav; simpl. right. by exists i, poll, j, vote.
Qed.

Lemma query_vote_Some pid user_id d j v :
  query_vote pid user_id d = Some (j, v) →
  votes d !! j = Some v ∧ vote_key v = (pid, user_id).
Proof.
  unfold query_vote. intros [Hj [[Hp Hu] _]]%list_find_Some.
  split; [done|]. unfold vote_key. by rewrite Hp, Hu.
Qed.

Lemma query_vote_None pid user_id d :
  query_vote pid user_id d = None → (pid, user_id) ∉ vote_key <$> votes d.
Proof.
  unfold query_vote. intros Hn%list_find_None.
  intros (v & Hk & Hv)%list_elem_of_fmap.
  rewrite Forall_forall in Hn. apply (Hn v Hv).
  unfold vote_key in Hk. by inversion Hk.
Qed.

Lemma save_vote_one_vote message_id user_id username display_name emoji w :
  one_vote_per_voter (db w) →
  one_vote_per_voter
    (db (run (save_vote message_id user_id username display_name emoji) w)).
Proof.
  unfold one_vote_per_voter. intros Hnd.
  destruct (save_vote_votes message_id user_id username display_name emoji w)
    as [-> | [(i & poll & j & ex & _ & Hv & ->) | (i & poll & _ & Hv & ->)]].
  - done.
  - apply query_vote_Some in Hv as [Hj Hk].
    rewrite list_fmap_insert.
    replace (vote_key (updated_vote ex display_name emoji (clock (discord w))))
      with (vote_key ex) by done.
    rewrite list_insert_id; [done|]. by rewrite list_lookup_fmap, Hj.
  - apply query_vote_None in Hv.
    rewrite fmap_app. apply NoDup_app. split_and!; [done| |].
    + intros k Hk [->|[]%elem_of_nil]%elem_of_cons. done.
    + apply NoDup_singleton.
Qed.

Lemma remove_vote_one_vote message_id user_id w :
  one_vote_per_voter (db w) →
  one_vote_per_voter (db (run (remove_vote message_id user_id) w)).
Proof.
  unfold one_vote_per_voter. intros Hnd.
  destruct (remove_vote_votes message_id user_id w)
    as [-> | (i & poll & j & v & _ & _ & ->)]; [done|].
  rewrite list_fmap_delete. eapply sublist_NoDup; [done|apply sublist_delete].
Qed.

Lemma get_poll_votes_db message_id w :
  db (run (get_poll_votes message_id) w) = db w.
Proof.
  unfold get_poll_votes. unfold_M.
  destruct (available (db w)) eqn:Hav; simpl; [|done].
  destruct (query_poll message_id (db w)) as [[i poll]|]; simpl; [|done].
  by rewrite Hav.
Qed.

Lemma save_server_config_votes guild_id cfg w :
  votes (db (run (save_server_config guild_id cfg) w)) = votes (db w).
Proof.
  unfold save_server_config. unfold_M.
  destruct (available (db w)) eqn:Hav; simpl; [|done].
  destruct (query_server guild_id (db w)) as [[i server]|];
    destruct (cfg_poll_options cfg); repeat (simpl; rewrite ?Hav); done.
Qed.

Lemma delete_polls_votes ps d :
  votes (foldl (λ d p, delete_poll p d) d ps) `sublist_of` votes d.
Proof.
  revert d. induction ps as [|p ps IH]; intros d; simpl; [done|].
  etrans; [apply IH|]. simpl. apply sublist_filter.
Qed.

Lemma delete_polls_available ps d :
  available (foldl (λ d p, delete_poll p d) d ps) = available d.
Proof.
  revert d. induction ps as [|p ps IH]; intros d; simpl; [done|]. by rewrite IH.
Qed.

Lemma create_poll_votes guild_id channel_id message_id date is_test w :
  votes (db (run (create_poll guild_id channel_id message_id date is_test) w))
    `sublist_of` votes (db w).
Proof.
  unfold create_poll, create_poll_failed. unfold_M.
  destruct (available (db w)) eqn:Hav; simpl; [|done].
  destruct (query_server guild_id (db w)) as [[i server]|]; simpl; [|done].
  destruct (decide (is_Some (query_poll message_id (db w)))); simpl; [done|].
  repeat (simpl; rewrite ?Hav).
  rewrite delete_polls_available. repeat (simpl; rewrite ?Hav).
  apply (delete_polls_votes _ (set_next_poll_id _ (set_polls _ (db w)))).
Qed.

Lemma swallow_run {A} (m : M A) w : run (swallow m) w = run m w.
Proof. unfold_M. by destruct (m w) as [[a|e] w']. Qed.

Lemma swallow_returns {A} (m : M A) w : result (swallow m) w = Returned tt.
Proof. unfold_M. by destruct (m w) as [[a|e] w']. Qed.

Lemma perform_one_vote c w :
  one_vote_per_voter (db w) → one_vote_per_voter (db (run (perform c) w)).
Proof.
  intros Hnd. destruct c; simpl; rewrite ?swallow_run.
  - unfold one_vote_per_voter. by rewrite save_server_config_votes.
  - unfold one_vote_per_voter in *. eapply sublist_NoDup; [done|].
    apply fmap_sublist, create_poll_votes.
  - by apply save_vote_one_vote.
  - by apply remove_vote_one_vote.
  - by rewrite get_poll_votes_db.
  - done.
  - done.
Qed.

Lemma perform_returns c w : result (perform c) w = Returned tt.
Proof. destruct c; simpl; try apply swallow_returns; done. Qed.

Lemma for_each_perform_one_vote cs w :
  one_vote_per_voter (db w) →
  one_vote_per_voter (db (run (for_each cs perform) w)).
Proof.
  revert w. induction cs as [|c cs IH]; intros w Hnd; [done|].
  simpl. unfold run, bind.
  pose proof (perform_returns c w) as Hr.
  pose proof (perform_one_vote c w Hnd) as Hw.
  unfold result, run in Hr, Hw. destruct (perform c w) as [[[]|e] w']; [|done].
  by apply IH.
Qed.

(** Deleting the only row with a key leaves no row with that key. *)
Lemma delete_unique_key (vs : list Vote) j v :
  NoDup (vote_key <$> vs) → vs !! j = Some v →
  vote_key v ∉ vote_key <$> delete j vs.
Proof.
  intros Hnd Hj.
  rewrite <- (take_drop_middle vs j v Hj) in Hnd.
  rewrite delete_take_drop.
  rewrite fmap_app, fmap_cons in Hnd. rewrite fmap_app.
  apply NoDup_app in Hnd as (_ & Hdisj & Hnd).
  apply NoDup_cons in Hnd as [Hv _].
  intros [Hin|Hin]%elem_of_app; [|done].
  apply (Hdisj _ Hin). by left.
Qed.

Lemma query_vote_delete pid user_id d j v :
  one_vote_per_voter d →
  query_vote pid user_id d = Some (j, v) →
  query_vote pid user_id (set_votes (delete j (votes d)) d) = None.
Proof.
  intros Hnd [Hj Hk]%query_vote_Some.
  unfold query_vote. simpl. apply list_find_None, Forall_forall.
  intros x Hx [Hp Hu].
  apply (delete_unique_key _ _ _ Hnd Hj). rewrite Hk.
  apply list_elem_of_fmap. exists x. split; [|done].
  unfold vote_key. by rewrite Hp, Hu.
Qed.
End store.

(** C2.  At most one vote row exists per (poll, voter) at all times: the
    property holds after any sequence of calls into the store that starts
    where it holds, and [save_vote] keeps it.  When the store is up and the
    poll of the message exists, [save_vote] for a voter who already has a
    row overwrites that row in place: the row keeps its position, its id,
    poll, user, username and [voted_at], and carries the new emoji, the new
    display name and the current time as [updated_at]; every other row is
    as it was and the table keeps its length.  For a voter without a row it
    appends exactly one row, with the given fields and the current time as
    [voted_at] and [updated_at], and leaves the rows before it alone.
    Either way the voter's stored row afterwards is that row. *)
Theorem save_vote_upsert (calls : list store_call) (w0 : world)
    (message_id user_id : Z) (username display_name emoji : string) :
  one_vote_per_voter (db w0) →
  let w := run (for_each calls perform) w0 in
  let w' := run (save_vote message_id user_id username display_name emoji) w in
  one_vote_per_voter (db w)
  ∧ one_vote_per_voter (db w')
  ∧ ∀ i poll,
      available (db w) = true →
      query_poll message_id (db w) = Some (i, poll) →
      match query_vote (poll_id poll) user_id (db w) with
      | Some (j, existing) =>
          votes (db w') !! j
          = Some (mkVote (vote_id existing) (poll_id poll) user_id
                         (vote_username existing) display_name emoji
                         (vote_voted_at existing) (clock (discord w)))
          ∧ (∀ k, k ≠ j → votes (db w') !! k = votes (db w) !! k)
          ∧ length (votes (db w')) = length (votes (db w))
          ∧ stored_vote (poll_id poll) user_id (db w')
            = Some (mkVote (vote_id existing) (poll_id poll) user_id
                           (vote_username existing) display_name emoji
                           (vote_voted_at existing) (clock (discord w)))
      | None =>
          votes (db w')
          = votes (db w)
              ++ [mkVote (next_vote_id (db w)) (poll_id poll) user_id username
                         display_name emoji (clock (discord w)) (clock (discord w))]
          ∧ stored_vote (poll_id poll) user_id (db w')
            = Some (mkVote (next_vote_id (db w)) (poll_id poll) user_id username
                           display_name emoji (clock (discord w)) (clock (discord w)))
      end.
Proof.
  intros Hnd w w'.
  assert (one_vote_per_voter (db w)) as Hw by by apply for_each_perform_one_vote.
  split_and!; [done|by apply save_vote_one_vote|].
  intros i poll Hav Hq.
  assert (match query_vote (poll_id poll) user_id (db w) with
          | Some (j, existing) =>
              votes (db w')
              = <[j := updated_vote existing display_name emoji (clock (discord w))]>
                  (votes (db w))
          | None =>
              votes (db w')
              = votes (db w)
                  ++ [mkVote (next_vote_id (db w)) (poll_id poll) user_id username
                             display_name emoji (clock (discord w)) (clock (discord w))]
          end) as Hvotes.
  { subst w'. unfold save_vote. unfold_M.
    rewrite Hav. simpl. rewrite Hq. simpl. rewrite Hav.
    by destruct (query_vote (poll_id poll) user_id (db w)) as [[j existing]|];
      simpl; rewrite Hav. }
  clearbody w'.
  destruct (query_vote (poll_id poll) user_id (db w)) as [[j existing]|] eqn:Hv.
  - unfold query_vote in Hv.
    apply list_find_Some in Hv as (Hj & [Hp Hu] & Hfirst).
    assert (j < length (votes (db w)))%nat as Hlt by by eapply lookup_lt_Some.
    unfold updated_vote in Hvotes. rewrite Hp, Hu in Hvotes.
    split_and!.
    + rewrite Hvotes. by apply list_lookup_insert_eq.
    + intros k Hk. rewrite Hvotes. by apply list_lookup_insert_ne.
    + by rewrite Hvotes, length_insert.
    + unfold stored_vote, query_vote. rewrite Hvotes.
      erewrite (proj2 (list_find_Some _ _ j _)); [done|].
      split; [by apply list_lookup_insert_eq|]. split; [done|].
      intros k y Hy Hk. rewrite list_lookup_insert_ne in Hy by lia.
      by apply (Hfirst k).
  - split; [done|]. unfold stored_vote, query_vote. rewrite Hvotes.
    unfold query_vote in Hv. apply list_find_None in Hv.
    erewrite (proj2 (list_find_Some _ _ (length (votes (db w))) _)); [done|].
    split; [by rewrite lookup_app_r, Nat.sub_diag|]. split; [done|].
    intros k y Hy Hk. rewrite lookup_app_l in Hy by done.
    rewrite Forall_forall in Hv. apply Hv. by eapply list_elem_of_lookup_2.
Qed.

Lemma save_vote_upsert_witness :
  one_vote_per_voter (db sample_published)
  ∧ votes (db (run (for_each [SaveVote 100 10 "alice" "Al" first_emoji; Tick 6000]
                             perform) sample_published))
    = [mkVote 1 1 10 "alice" "Al" first_emoji 5000 5000]
  ∧ votes (db (run (save_vote 100 10 "alice" "Alice" last_emoji)
                   (run (for_each [SaveVote 100 10 "alice" "Al" first_emoji; Tick 6000]
                                  perform) sample_published)))
    !! 0%nat
    = Some (mkVote 1 1 10 "alice" "Alice" last_emoji 5000 6000)
  ∧ length (votes (db (run (save_vote 100 10 "alice" "Alice" last_emoji)
                           (run (for_each [SaveVote 100 10 "alice" "Al" first_emoji;
                                           Tick 6000]
                                          perform) sample_published))))
    = 1%nat.
Proof.
  split; [vm_compute; constructor|]. split; [by vm_compute|].
  pose proof (save_vote_upsert [SaveVote 100 10 "alice" "Al" first_emoji; Tick 6000]
                sample_published 100 10 "alice" "Alice" last_emoji) as H.
  destruct H as (_ & _ & H); [vm_compute; constructor|].
  specialize (H 0%nat (mkPoll 1 1 7 70 100 "Monday" false 5000)).
  assert (query_vote 1 10
            (db (run (for_each [SaveVote 100 10 "alice" "Al" first_emoji; Tick 6000]
                               perform) sample_published))
          = Some (0%nat, mkVote 1 1 10 "alice" "Al" first_emoji 5000 5000)) as Hv
    by by vm_compute.
  cbn [poll_id] in H. rewrite Hv in H.
  destruct H as (Hrow & _ & Hlen & _); [by vm_compute..|].
  split; [|by rewrite Hlen; vm_compute].
  rewrite Hrow. by vm_compute.
Defined.

(** C10.  [remove_vote] never raises.  When no poll row exists for the
    message, or the poll exists and the user has no stored vote, it changes
    nothing that is stored (and, the store being up, nothing at all).  When
    the store fails, the failure is logged and the call still returns, with
    the store as it was, where [save_vote] raises.  Where each voter has at
    most one row, calling it a second time changes nothing more. *)
Theorem remove_vote_total (message_id user_id : Z) (w : world) :
  let w' := run (remove_vote message_id user_id) w in
  result (remove_vote message_id user_id) w = Returned tt
  ∧ (query_poll message_id (db w) = None →
       db w' = db w ∧ (available (db w) = true → w' = w))
  ∧ (∀ i poll, query_poll message_id (db w) = Some (i, poll) →
       query_vote (poll_id poll) user_id (db w) = None →
       db w' = db w ∧ (available (db w) = true → w' = w))
  ∧ (available (db w) = false →
       db w' = db w
       ∧ log w' = log w ++ [(ERROR, "Failed to remove vote")]
       ∧ ∀ username display_name emoji,
           result (save_vote message_id user_id username display_name emoji) w
           = Raised SQLAlchemyError)
  ∧ (one_vote_per_voter (db w) →
       db (run (remove_vote message_id user_id) w') = db w').
Proof.
  cbv zeta. split_and!.
  - unfold remove_vote. unfold_M.
    destruct (available (db w)) eqn:Hav; simpl; [|done].
    destruct (query_poll message_id (db w)) as [[i poll]|]; simpl; [|done].
    rewrite Hav.
    destruct (query_vote (poll_id poll) user_id (db w)) as [[j v]|]; simpl; [|done].
    by rewrite Hav.
  - intros Hq. unfold remove_vote. unfold_M.
    destruct (available (db w)) eqn:Hav; simpl; [|done].
    by rewrite Hq.
  - intros i poll Hq Hv. unfold remove_vote. unfold_M.
    destruct (available (db w)) eqn:Hav; simpl; [|done].
    rewrite Hq. simpl. by rewrite Hav, Hv.
  - intros Hav. split_and!.
    + unfold remove_vote. unfold_M. by rewrite Hav.
    + unfold remove_vote. unfold_M. by rewrite Hav.
    + intros. unfold save_vote. unfold_M. by rewrite Hav.
  - intros Hnd. unfold remove_vote. unfold_M.
    destruct (available (db w)) eqn:Hav; simpl; [|by rewrite Hav].
    destruct (query_poll message_id (db w)) as [[i poll]|] eqn:Hq; simpl;
      [|by rewrite Hav, Hq].
    rewrite Hav.
    destruct (query_vote (poll_id poll) user_id (db w)) as [[j v]|] eqn:Hv; simpl.
    + rewrite Hav. simpl. rewrite Hav. simpl.
      unfold query_poll in *. simpl. rewrite Hq. simpl. rewrite Hav.
      by rewrite (query_vote_delete _ _ _ _ _ Hnd Hv).
    + rewrite Hav, Hq. simpl. by rewrite Hav, Hv.
Qed.

Lemma remove_vote_total_witness :
  one_vote_per_voter (db sample_voted)
  ∧ db (run (remove_vote 100 10) (run (remove_vote 100 10) sample_voted))
    = db (run (remove_vote 100 10) sample_voted)
  ∧ result (remove_vote 100 12) sample_voted = Returned tt.
Proof.
  split; [by apply (bool_decide_unpack _); vm_compute|].
  pose proof (remove_vote_total 100 10 sample_voted) as (_ & _ & _ & _ & H).
  pose proof (remove_vote_total 100 12 sample_voted) as (H12 & _).
  split; [|exact H12].
  apply H. by apply (bool_decide_unpack _); vm_compute.
Defined.

(** ** The scheduler *)

Section scheduler.
Implicit Types (w : world) (js : list job) (id : string).

Lemma get_job_None id js :
  get_job id js = None ↔ filter (λ j, job_id j = id) js = [].
Proof.
  unfold get_job. rewrite list_find_None.
  split.
  - intros H. induction H as [|j js Hj _ IH]; [done|].
    by rewrite filter_cons_False.
  - intros H. apply Forall_forall. intros j Hj Hid.
    assert (j ∈ filter (λ j, job_id j = id) js) as Hin
      by by apply list_elem_of_filter.
    rewrite H in Hin. by apply elem_of_nil in Hin.
Qed.

(** Removing the job [get_job] found removes one job with that id. *)
Lemma filter_delete_found id js i j :
  get_job id js = Some (i, j) →
  length (filter (λ j, job_id j = id) js)
  = S (length (filter (λ j, job_id j = id) (delete i js))).
Proof.
  unfold get_job. intros (Hi & Hj & _)%list_find_Some.
  rewrite <- (take_drop_middle js i j Hi) at 1.
  rewrite delete_take_drop, !filter_app, filter_cons_True by done.
  rewrite !length_app. simpl. lia.
Qed.

Lemma schedule_guild_poll_unknown_zone guild_id cfg w :
  default "UTC" (cfg_timezone cfg) ∉ all_timezones w →
  schedule_guild_poll guild_id cfg w
  = (Returned tt, set_log (log w ++ [(ERROR, "Failed to schedule poll for guild")]) w).
Proof.
  intros Hz. unfold schedule_guild_poll, pytz_timezone. unfold_M.
  by rewrite decide_False.
Qed.

Lemma schedule_guild_poll_bad_time guild_id cfg w :
  ¬ (0 ≤ default 20 (cfg_poll_hour cfg) ≤ 23
     ∧ 0 ≤ default 0 (cfg_poll_minute cfg) ≤ 59) →
  jobs (run (schedule_guild_poll guild_id cfg) w) = jobs w.
Proof.
  intros Ht. unfold schedule_guild_poll, pytz_timezone, CronTrigger. unfold_M.
  destruct (decide (_ ∈ _)); simpl; [|done].
  by rewrite decide_False.
Qed.

(** A successful call leaves the jobs of the guild's id removed once, if
    there was one, and the new job appended. *)
Lemma schedule_guild_poll_jobs guild_id cfg w :
  default "UTC" (cfg_timezone cfg) ∈ all_timezones w →
  0 ≤ default 20 (cfg_poll_hour cfg) ≤ 23 ∧ 0 ≤ default 0 (cfg_poll_minute cfg) ≤ 59 →
  let id := daily_poll_job_id guild_id in
  let new := mkJob id guild_id (default 20 (cfg_poll_hour cfg))
                   (default 0 (cfg_poll_minute cfg))
                   (default "UTC" (cfg_timezone cfg)) in
  jobs (run (schedule_guild_poll guild_id cfg) w)
  = match get_job id (jobs w) with
    | Some (i, _) =>
        match get_job id (delete i (jobs w)) with
        | Some (k, _) => <[k := new]> (delete i (jobs w))
        | None => delete i (jobs w) ++ [new]
        end
    | None => jobs w ++ [new]
    end.
Proof.
  intros Hz Ht id new.
  unfold schedule_guild_poll, pytz_timezone, CronTrigger, remove_job, add_job.
  unfold_M. rewrite decide_True by done. simpl. rewrite decide_True by done. simpl.
  fold id. destruct (get_job id (jobs w)) as [[i j]|] eqn:Hg; simpl.
  - rewrite Hg. simpl.
    by destruct (get_job id (delete i (jobs w))) as [[k j']|].
  - by rewrite Hg.
Qed.
Lemma schedule_guild_poll_timezones guild_id cfg w :
  all_timezones (run (schedule_guild_poll guild_id cfg) w) = all_timezones w.
Proof.
  unfold schedule_guild_poll, pytz_timezone, CronTrigger, remove_job, add_job.
  unfold_M.
  destruct (decide (_ ∈ _)); simpl; [|done].
  destruct (decide (_ ∧ _)); simpl; [|done].
  destruct (get_job _ (jobs w)) as [[i j]|] eqn:Hg; simpl; rewrite ?Hg; simpl.
  - by destruct (get_job _ (delete i (jobs w))) as [[k j']|].
  - done.
Qed.

(** A guild without a trigger gets exactly one. *)
Lemma schedule_guild_poll_first_trigger guild_id cfg w :
  default "UTC" (cfg_timezone cfg) ∈ all_timezones w →
  0 ≤ default 20 (cfg_poll_hour cfg) ≤ 23 ∧ 0 ≤ default 0 (cfg_poll_minute cfg) ≤ 59 →
  triggers guild_id (jobs w) = [] →
  length (triggers guild_id (jobs (run (schedule_guild_poll guild_id cfg) w))) = 1%nat.
Proof.
  intros Hz Ht Hnone. rewrite (schedule_guild_poll_jobs _ _ _ Hz Ht).
  unfold triggers in *. rewrite (proj2 (get_job_None _ _) Hnone).
  by rewrite filter_app, Hnone, filter_cons_True.
Qed.
End scheduler.

(** C4.  With a valid timezone, [schedule_guild_poll] for a guild that
    already has a trigger leaves exactly one trigger for that guild, and so
    does calling it a second time; when the configured time is a time of day,
    that trigger is the newly configured one. *)
Theorem schedule_guild_poll_one_trigger (guild_id : Z) (cfg1 cfg2 : config) (w : world) :
  default "UTC" (cfg_timezone cfg1) ∈ all_timezones w →
  default "UTC" (cfg_timezone cfg2) ∈ all_timezones w →
  length (triggers guild_id (jobs w)) = 1%nat →
  let w1 := run (schedule_guild_poll guild_id cfg1) w in
  let w2 := run (schedule_guild_poll guild_id cfg2) w1 in
  length (triggers guild_id (jobs w1)) = 1%nat
  ∧ length (triggers guild_id (jobs w2)) = 1%nat
  ∧ (0 ≤ default 20 (cfg_poll_hour cfg1) ≤ 23
     ∧ 0 ≤ default 0 (cfg_poll_minute cfg1) ≤ 59 →
     triggers guild_id (jobs w1)
     = [mkJob (daily_poll_job_id guild_id) guild_id
              (default 20 (cfg_poll_hour cfg1)) (default 0 (cfg_poll_minute cfg1))
              (default "UTC" (cfg_timezone cfg1))]).
Proof.
  assert (∀ cfg w,
    default "UTC" (cfg_timezone cfg) ∈ all_timezones w →
    length (triggers guild_id (jobs w)) = 1%nat →
    length (triggers guild_id (jobs (run (schedule_guild_poll guild_id cfg) w))) = 1%nat
    ∧ (0 ≤ default 20 (cfg_poll_hour cfg) ≤ 23
       ∧ 0 ≤ default 0 (cfg_poll_minute cfg) ≤ 59 →
       triggers guild_id (jobs (run (schedule_guild_poll guild_id cfg) w))
       = [mkJob (daily_poll_job_id guild_id) guild_id
                (default 20 (cfg_poll_hour cfg)) (default 0 (cfg_poll_minute cfg))
                (default "UTC" (cfg_timezone cfg))])) as Hstep.
  { intros cfg w' Hz Hone.
    destruct (decide (0 ≤ default 20 (cfg_poll_hour cfg) ≤ 23
                      ∧ 0 ≤ default 0 (cfg_poll_minute cfg) ≤ 59)) as [Ht|Ht];
      [|by rewrite schedule_guild_poll_bad_time].
    rewrite (schedule_guild_poll_jobs _ _ _ Hz Ht).
    unfold triggers in *.
    destruct (get_job _ (jobs w')) as [[i j]|] eqn:Hg.
    - rewrite (filter_delete_found _ _ _ _ Hg) in Hone.
      assert (filter (λ j, job_id j = daily_poll_job_id guild_id) (delete i (jobs w'))
              = []) as Hnil by (apply length_zero_iff_nil; lia).
      rewrite (proj2 (get_job_None _ _) Hnil).
      rewrite filter_app, Hnil, filter_cons_True by done. done.
    - apply get_job_None in Hg. by rewrite Hg in Hone. }
  intros Hz1 Hz2 Hone w1 w2.
  destruct (Hstep cfg1 w Hz1 Hone) as [H1 Hnew].
  split_and!; [done| |done].
  apply Hstep; [|done].
  subst w1. by rewrite schedule_guild_poll_timezones.
Qed.

Lemma schedule_guild_poll_one_trigger_witness :
  default "UTC" (cfg_timezone sample_config) ∈ all_timezones sample_scheduled
  ∧ length (triggers 7 (jobs sample_scheduled)) = 1%nat
  ∧ length (triggers 7 (jobs (run (schedule_guild_poll 7 sample_config)
                                  (run (schedule_guild_poll 7 sample_config)
                                       sample_scheduled)))) = 1%nat.
Proof.
  assert (default "UTC" (cfg_timezone sample_config) ∈ all_timezones sample_scheduled)
    as Hz by by apply (bool_decide_unpack _); vm_compute.
  split_and!; [done|by vm_compute|].
  eapply (schedule_guild_poll_one_trigger 7 sample_config sample_config
            sample_scheduled Hz Hz); by vm_compute.
Defined.

(** C5, as the code has it.  For a configuration whose timezone is not a
    known zone, [schedule_guild_poll] logs the failure and returns to its
    caller without raising; the guild's triggers, like every other job, are
    left as they were. *)
Theorem schedule_guild_poll_invalid_timezone (guild_id : Z) (cfg : config) (w : world) :
  default "UTC" (cfg_timezone cfg) ∉ all_timezones w →
  result (schedule_guild_poll guild_id cfg) w = Returned tt
  ∧ jobs (run (schedule_guild_poll guild_id cfg) w) = jobs w
  ∧ log (run (schedule_guild_poll guild_id cfg) w)
    = log w ++ [(ERROR, "Failed to schedule poll for guild")].
Proof.
  intros Hz. unfold run, result.
  by rewrite (schedule_guild_poll_unknown_zone _ _ _ Hz).
Qed.

Lemma schedule_guild_poll_invalid_timezone_witness :
  (default "UTC" (cfg_timezone sample_config_bad_timezone)
     ∉ all_timezones sample_scheduled)
  ∧ jobs (run (schedule_guild_poll 7 sample_config_bad_timezone) sample_scheduled)
    = jobs sample_scheduled.
Proof.
  assert (default "UTC" (cfg_timezone sample_config_bad_timezone)
            ∉ all_timezones sample_scheduled) as Hz
    by by apply (bool_decide_unpack _); vm_compute.
  split; [done|].
  by destruct (schedule_guild_poll_invalid_timezone 7 sample_config_bad_timezone
                 sample_scheduled Hz) as (_ & H & _).
Defined.

(** C5, as the specification has it, fails: with a timezone that is not a
    known zone the call returns normally, so no error reaches the caller. *)
Lemma schedule_guild_poll_invalid_timezone_not_raised :
  (default "UTC" (cfg_timezone sample_config_bad_timezone)
     ∉ all_timezones sample_scheduled)
  ∧ result (schedule_guild_poll 7 sample_config_bad_timezone) sample_scheduled
    = Returned tt
  ∧ ¬ ∃ e, result (schedule_guild_poll 7 sample_config_bad_timezone) sample_scheduled
           = Raised e.
Proof.
  split; [by apply (bool_decide_unpack _); vm_compute|].
  split; [by vm_compute|].
  intros [e He]. vm_compute in He. discriminate He.
Qed.

(** ** The configuration manager *)

Section config_manager.
Implicit Types (w : world) (cfg : config).

Lemma get_guild_config_known guild_id cfg w :
  configs w !! guild_id = Some cfg →
  get_guild_config guild_id w = (Returned cfg, w).
Proof.
  intros Hc. unfold get_guild_config. unfold_M. rewrite Hc. simpl. by rewrite Hc.
Qed.

Lemma get_guild_config_unknown guild_id w :
  configs w !! guild_id = None →
  get_guild_config guild_id w
  = (Returned get_default_config,
     let w1 := set_configs (<[guild_id := get_default_config]> (configs w)) w in
     let w2 := if file_writable w
               then set_log (log w ++ [(DEBUG, "Configurations saved successfully")])
                            (set_config_file (configs w1) w1)
               else set_log (log w ++ [(ERROR, "Failed to save configurations")]) w1 in
     set_log (log w2 ++ [(INFO, "Initialized configuration for guild")]) w2).
Proof.
  intros Hc. unfold get_guild_config, initialize_guild, save_configs. unfold_M.
  repeat (simpl; rewrite ?Hc).
  destruct (file_writable w); simpl; by rewrite lookup_insert_eq.
Qed.
End config_manager.

(** C8.  The first [get_guild_config] for a guild without a configuration
    stores the default configuration for it (disabled, no channel, 08:00,
    UTC, the seven built-in options, an empty history), writes the
    configurations to the file when the file can be written, and returns
    that configuration; a later [get_guild_config] returns what is stored
    and changes nothing. *)
Theorem get_guild_config_default (guild_id : Z) (w : world) :
  configs w !! guild_id = None →
  let w1 := run (get_guild_config guild_id) w in
  result (get_guild_config guild_id) w = Returned get_default_config
  ∧ configs w1 = <[guild_id := get_default_config]> (configs w)
  ∧ (file_writable w = true → config_file w1 = configs w1)
  ∧ (cfg_enabled get_default_config = Some false
     ∧ cfg_channel_id get_default_config = None
     ∧ cfg_poll_hour get_default_config = Some 8
     ∧ cfg_poll_minute get_default_config = Some 0
     ∧ cfg_timezone get_default_config = Some "UTC"
     ∧ cfg_poll_options get_default_config = Some default_config_options
     ∧ length default_config_options = 7%nat)
  ∧ get_guild_config guild_id w1 = (Returned get_default_config, w1)
  ∧ (∀ w' cfg, configs w' !! guild_id = Some cfg →
               get_guild_config guild_id w' = (Returned cfg, w')).
Proof.
  intros Hc w1. subst w1. unfold run, result.
  rewrite (get_guild_config_unknown _ _ Hc). cbv zeta.
  split_and!; try done.
  - by destruct (file_writable w).
  - by intros ->.
  - apply get_guild_config_known.
    destruct (file_writable w); simpl; by rewrite lookup_insert_eq.
  - intros w' cfg. apply get_guild_config_known.
Qed.

Lemma get_guild_config_default_witness :
  configs sample_world !! 8 = None
  ∧ result (get_guild_config 8) sample_world = Returned get_default_config
  ∧ config_file (run (get_guild_config 8) sample_world) !! 8 = Some get_default_config.
Proof.
  assert (configs sample_world !! 8 = None) as Hc by by vm_compute.
  split; [done|].
  destruct (get_guild_config_default 8 sample_world Hc) as (Hr & Hcs & Hf & _).
  split; [done|].
  rewrite Hf, Hcs by done. apply lookup_insert_eq.
Defined.

(** ** Saving a guild's options *)

Section options.
Implicit Types (w : world) (d : database) (emojis texts : list string).

Lemma new_poll_options_server first_id sid now emojis texts :
  Forall (λ o, po_server_config_id o = sid)
         (new_poll_options first_id sid now emojis texts).
Proof.
  apply Forall_forall. intros o (i & Hi)%list_elem_of_lookup.
  unfold new_poll_options in Hi. rewrite list_lookup_imap in Hi.
  destruct (take 7 texts !! i); by simplify_eq/=.
Qed.

Lemma new_poll_options_texts first_id sid now emojis texts :
  po_text <$> new_poll_options first_id sid now emojis texts = take 7 texts.
Proof.
  unfold new_poll_options. rewrite fmap_imap.
  rewrite (imap_ext _ (const id)) by done.
  by rewrite imap_const, list_fmap_id.
Qed.

Lemma new_poll_options_emojis first_id sid now emojis texts :
  po_emoji <$> new_poll_options first_id sid now emojis texts
  = imap (λ i _, default placeholder_emoji (emojis !! i)) (take 7 texts).
Proof. unfold new_poll_options. by rewrite fmap_imap. Qed.

(** While the emoji list is long enough, the emojis given out are a prefix
    of it. *)
Lemma assigned_emojis_prefix emojis texts :
  (length texts ≤ length emojis)%nat →
  imap (λ i _, default placeholder_emoji (emojis !! i)) texts
  = take (length texts) emojis.
Proof.
  revert emojis. induction texts as [|t texts IH]; intros emojis Hlen; [done|].
  destruct emojis as [|e emojis]; simpl in Hlen; [lia|].
  rewrite imap_cons. simpl. f_equal. rewrite <- IH by lia. done.
Qed.

Lemma filter_own_options sid (old new : list PollOption) :
  Forall (λ o, po_server_config_id o = sid) new →
  filter (λ o, po_server_config_id o = sid)
         (filter (λ o, po_server_config_id o ≠ sid) old ++ new) = new.
Proof.
  intros Hnew. rewrite filter_app.
  replace (filter (λ o, po_server_config_id o = sid)
                  (filter (λ o, po_server_config_id o ≠ sid) old)) with (@nil PollOption).
  - simpl. induction Hnew as [|o new Ho _ IH]; [done|].
    by rewrite filter_cons_True, IH.
  - symmetry. induction old as [|o old IH]; [done|].
    destruct (decide (po_server_config_id o = sid)) as [Ho|Ho].
    + by rewrite (filter_cons_False _ o old) by (by intros ?).
    + rewrite (filter_cons_True _ o old) by done.
      by rewrite filter_cons_False.
Qed.

Lemma query_server_insert guild_id d i server server' :
  query_server guild_id d = Some (i, server) →
  sc_guild_id server' = sc_guild_id server →
  list_find (λ s, sc_guild_id s = guild_id) (<[i := server']> (server_configs d))
  = Some (i, server').
Proof.
  unfold query_server. intros (Hi & Hs & Hbefore)%list_find_Some Hg.
  apply list_find_Some. split_and!; [|congruence|].
  - apply list_lookup_insert_eq. by eapply lookup_lt_Some.
  - intros j y Hj Hlt. rewrite list_lookup_insert_ne in Hj by lia. by eapply Hbefore.
Qed.

Lemma query_server_append guild_id d server server' :
  query_server guild_id d = None →
  sc_guild_id server' = guild_id →
  list_find (λ s, sc_guild_id s = guild_id)
            (<[length (server_configs d) := server']> (server_configs d ++ [server]))
  = Some (length (server_configs d), server').
Proof.
  unfold query_server. intros Hnone Hg.
  rewrite insert_app_r_alt, Nat.sub_diag by done. simpl.
  rewrite list_find_app_r by done. simpl.
  rewrite decide_True by done. done.
Qed.

(** The stored options of the guild after a save that provides options. *)
Lemma save_server_config_stored guild_id cfg texts w :
  available (db w) = true →
  cfg_poll_options cfg = Some texts →
  ∃ first_id sid,
    stored_options guild_id (db (run (save_server_config guild_id cfg) w))
    = new_poll_options first_id sid (clock (discord w))
                       (default default_emojis (cfg_poll_emojis cfg)) texts.
Proof.
  intros Hav Ho. unfold save_server_config, stored_options. unfold_M.
  rewrite Ho. repeat (simpl; rewrite ?Hav).
  destruct (query_server guild_id (db w)) as [[i server]|] eqn:Hq;
    repeat (simpl; rewrite ?Hav); unfold query_server at 1; simpl.
  - erewrite query_server_insert by done.
    eexists _, _. simpl. apply filter_own_options, new_poll_options_server.
  - erewrite query_server_append by done.
    eexists _, _. simpl. apply filter_own_options, new_poll_options_server.
Qed.
End options.

(** C9, as the code has it.  After [save_server_config] with options
    provided, the guild's stored options are the first seven provided, each
    with the emoji at its position in the emoji list in effect, or the
    placeholder beyond the end of that list; there are at most seven of
    them, no more than there are built-in emojis.  Their emojis are
    pairwise distinct when the emoji list in effect is pairwise distinct and
    as long as the stored options, in particular when no emoji list is
    given. *)
Theorem save_server_config_options (guild_id : Z) (cfg : config)
    (texts : list string) (w : world) :
  available (db w) = true →
  cfg_poll_options cfg = Some texts →
  let emojis := default default_emojis (cfg_poll_emojis cfg) in
  let stored :=
    stored_options guild_id (db (run (save_server_config guild_id cfg) w)) in
  po_text <$> stored = take 7 texts
  ∧ po_emoji <$> stored
    = imap (λ i _, default placeholder_emoji (emojis !! i)) (take 7 texts)
  ∧ (length stored ≤ 7)%nat
  ∧ (length stored ≤ length default_emojis)%nat
  ∧ (NoDup emojis → (length (take 7 texts) ≤ length emojis)%nat →
     NoDup (po_emoji <$> stored))
  ∧ (cfg_poll_emojis cfg = None → NoDup (po_emoji <$> stored)).
Proof.
  intros Hav Ho emojis stored.
  destruct (save_server_config_stored guild_id cfg texts w Hav Ho)
    as (first_id & sid & Hst).
  subst stored. rewrite Hst. clear Hst.
  rewrite new_poll_options_texts, new_poll_options_emojis.
  assert (length (new_poll_options first_id sid (clock (discord w))
                    (default default_emojis (cfg_poll_emojis cfg)) texts) ≤ 7)%nat
    as Hlen.
  { rewrite <- (length_fmap po_text), new_poll_options_texts, length_take. lia. }
  assert (∀ es, NoDup es → (length (take 7 texts) ≤ length es)%nat →
                NoDup (imap (λ i _, default placeholder_emoji (es !! i))
                            (take 7 texts))) as Hnd.
  { intros es Hes Hle. rewrite assigned_emojis_prefix by done.
    eapply sublist_NoDup; [done|apply sublist_take]. }
  split_and!; try done.
  - intros Hes Hle. by apply Hnd.
  - intros Hnone. subst emojis. rewrite Hnone. simpl. apply Hnd.
    + by apply (bool_decide_unpack _); vm_compute.
    + rewrite length_take. assert (length default_emojis = 7%nat) by done. lia.
Qed.

Lemma save_server_config_options_witness :
  available (db sample_world) = true
  ∧ cfg_poll_options sample_config = Some ["Free all day"; "Busy"]
  ∧ NoDup (po_emoji <$> stored_options 7
             (db (run (save_server_config 7 sample_config) sample_world))).
Proof.
  split_and!; [done..|].
  by apply (save_server_config_options 7 sample_config ["Free all day"; "Busy"]
              sample_world).
Defined.

(** C9, as the specification has it, fails: saving two options with an
    empty emoji list stores the placeholder emoji twice. *)
Lemma save_server_config_repeats_placeholder :
  po_emoji <$> stored_options 7
     (db (run (save_server_config 7 sample_config_no_emojis) sample_world))
  = [placeholder_emoji; placeholder_emoji]
  ∧ ¬ NoDup (po_emoji <$> stored_options 7
               (db (run (save_server_config 7 sample_config_no_emojis) sample_world))).
Proof.
  assert (po_emoji <$> stored_options 7
            (db (run (save_server_config 7 sample_config_no_emojis) sample_world))
          = [placeholder_emoji; placeholder_emoji]) as H by by vm_compute.
  split; [done|]. rewrite H.
  intros Hnd. apply NoDup_cons in Hnd as [Hnotin _]. apply Hnotin. by left.
Qed.

(** ** Publishing *)

Section ensures.
Context {A B : Type}.
Implicit Types (w : world).

Lemma ensures_eq (m : M A) w o w' (Q : outcome A → world → Prop) :
  m w = (o, w') → Q o w' → ensures m w Q.
Proof. unfold ensures. by intros ->. Qed.

Lemma ensures_mono (m : M A) w (Q Q' : outcome A → world → Prop) :
  ensures m w Q → (∀ o w', Q o w' → Q' o w') → ensures m w Q'.
Proof. unfold ensures. auto. Qed.

Lemma ensures_bind (m : M A) (k : A → M B) w (Q : outcome B → world → Prop) :
  ensures m w (λ o w', match o with
                       | Returned a => ensures (k a) w' Q
                       | Raised e => Q (Raised e) w'
                       end) →
  ensures (bind m k) w Q.
Proof. unfold ensures, bind. by destruct (m w) as [[a|e] w']. Qed.

Lemma ensures_try (body : M A) (h : exn → M A) w (Q : outcome A → world → Prop) :
  ensures body w (λ o w', match o with
                          | Returned a => Q (Returned a) w'
                          | Raised e => ensures (h e) w' Q
                          end) →
  ensures (try_except body h) w Q.
Proof. unfold ensures, try_except. by destruct (body w) as [[a|e] w']. Qed.

Lemma ensures_run_result (m : M A) w (Q : outcome A → world → Prop) :
  ensures m w Q → Q (result m w) (run m w).
Proof. done. Qed.
End ensures.

(** One step of a computation whose first action is a primitive. *)
Ltac ens_prim :=
  first [ apply ensures_try | apply ensures_bind | idtac ];
  lazymatch goal with
  | |- ensures (get _) _ _ => eapply ensures_eq; [reflexivity|]; cbv beta iota
  | |- ensures (modify _) _ _ => eapply ensures_eq; [reflexivity|]; cbv beta iota
  | |- ensures (logger _ _) _ _ => eapply ensures_eq; [reflexivity|]; cbv beta iota
  | |- ensures (ret _) _ _ => eapply ensures_eq; [reflexivity|]; cbv beta iota
  | |- ensures (raise _) _ _ => eapply ensures_eq; [reflexivity|]; cbv beta iota
  | |- ensures (utcnow) _ _ => eapply ensures_eq; [reflexivity|]; cbv beta iota
  end.

Section publish_steps.
Implicit Types (w : world) (cfg : config).

Lemma index_poll_emojis i :
  (i < 7)%nat → ∃ emoji, poll_emojis !! i = Some emoji.
Proof.
  intros Hi. apply lookup_lt_is_Some_2.
  assert (length poll_emojis = 7%nat) by done. lia.
Qed.

Lemma option_lines_return (l : list string) i acc w :
  (i + length l ≤ 7)%nat →
  ∃ s, fold_enumerate i l acc
         (λ i option options_text,
            emoji <- index poll_emojis i ;;
            ret (options_text +:+ emoji +:+ " " +:+ option +:+ newline)) w
       = (Returned s, w).
Proof.
  revert acc i. induction l as [|t l IH]; intros acc i Hlen.
  - by eexists.
  - simpl in *. destruct (index_poll_emojis i) as [emoji He]; [lia|].
    unfold bind at 1. unfold index, bind, ret. rewrite He.
    apply IH. lia.
Qed.

Lemma build_options_text_returns texts w :
  ∃ s, build_options_text texts w = (Returned s, w).
Proof. apply option_lines_return. rewrite length_take. lia. Qed.

Lemma only_touches_message_refl msg w : only_touches_message msg w w.
Proof. by repeat split. Qed.

Lemma only_touches_message_trans msg w1 w2 w3 :
  only_touches_message msg w1 w2 → only_touches_message msg w2 w3 →
  only_touches_message msg w1 w3.
Proof.
  intros (?&?&?&?&?&?&Hm&Hs&?) (?&?&?&?&?&?&Hm'&Hs'&?).
  repeat split; try congruence; [|auto|by etrans].
  intros m Hne. by rewrite Hm', Hm.
Qed.

(** One reaction attached, or refused with a delivery error that is only
    logged. *)
Lemma add_reaction_logged msg emoji w :
  (∀ emoji e, react_raises (discord w) !! emoji = Some e → is_HTTPException e = true) →
  ∃ w', try_except (add_reaction msg emoji)
          (λ e, if is_HTTPException e
                then logger WARNING "Failed to add reaction"
                else raise e) w = (Returned tt, w')
        ∧ only_touches_message msg w w'.
Proof.
  intros Hhttp. unfold add_reaction. unfold_M.
  destruct (react_raises (discord w) !! emoji) as [e|] eqn:He; simpl.
  - rewrite (Hhttp _ _ He). eexists. split; [done|].
    repeat split; simpl; try done. by apply prefix_app_r.
  - eexists. split; [done|].
    repeat split; simpl; try done.
    + intros m Hne. by rewrite lookup_alter_ne.
    + intros [m Hm]. rewrite lookup_alter_eq, Hm. by eexists.
Qed.

Lemma add_reactions_from msg (l : list string) i w :
  (i + length l ≤ 7)%nat →
  (∀ emoji e, react_raises (discord w) !! emoji = Some e → is_HTTPException e = true) →
  ∃ w', fold_enumerate i l tt
          (λ i _ _,
             emoji <- index poll_emojis i ;;
             try_except (add_reaction msg emoji)
               (λ e, if is_HTTPException e
                     then logger WARNING "Failed to add reaction"
                     else raise e)) w = (Returned tt, w')
        ∧ only_touches_message msg w w'.
Proof.
  revert i w. induction l as [|t l IH]; intros i w Hlen Hhttp.
  - eexists. split; [done|apply only_touches_message_refl].
  - simpl in *. destruct (index_poll_emojis i) as [emoji He]; [lia|].
    unfold bind at 1. unfold index at 1. rewrite He. unfold bind at 1, ret at 1.
    destruct (add_reaction_logged msg emoji w Hhttp) as (w1 & -> & Hf1).
    destruct (IH (S i) w1) as (w2 & Hw2 & Hf2); [lia| |].
    { destruct Hf1 as (_&_&_&_&_&Hr&_). by rewrite Hr. }
    exists w2. split; [done|]. by eapply only_touches_message_trans.
Qed.

Lemma add_reactions_returns msg texts w :
  (∀ emoji e, react_raises (discord w) !! emoji = Some e → is_HTTPException e = true) →
  ∃ w', add_reactions msg texts w = (Returned tt, w')
        ∧ only_touches_message msg w w'.
Proof. apply add_reactions_from. rewrite length_take. lia. Qed.
End publish_steps.

Section retention.
Implicit Types (w : world) (cfg : config).

Lemma cleanup_poll_history_pops guild_id channel cfg oldest rest w :
  cfg_poll_history cfg = Some (oldest :: rest) →
  rest ≠ [] →
  (∀ e, delete_raises (discord w) = Some e → is_HTTPException e = true) →
  ∃ w', cleanup_poll_history guild_id channel cfg w = (Returned rest, w')
        ∧ configs w' = <[guild_id := set_poll_history rest cfg]> (configs w)
        ∧ db w' = db w
        ∧ config_file w' = config_file w
        ∧ file_writable w' = file_writable w
        ∧ active_polls w' = active_polls w
        ∧ send_raises (discord w') = send_raises (discord w)
        ∧ react_raises (discord w') = react_raises (discord w)
        ∧ next_message_id (discord w') = next_message_id (discord w)
        ∧ tomorrow_label (discord w') = tomorrow_label (discord w)
        ∧ messages (discord w') = messages_after_cleanup channel oldest (discord w)
        ∧ log w' = log w ++ [cleanup_log_line channel oldest (discord w)].
Proof.
  intros Hh Hrest Hhttp.
  unfold cleanup_poll_history, messages_after_cleanup, cleanup_log_line.
  rewrite Hh. simpl.
  rewrite decide_True by (destruct rest; simpl; [done|lia]).
  unfold fetch_message, message_delete. unfold_M. simpl.
  destruct (messages (discord w) !! oldest) as [m|] eqn:Hm; simpl;
    [|eexists; by split_and!].
  destruct (decide (msg_channel m = channel)); simpl; [|eexists; by split_and!].
  destruct (delete_raises (discord w)) as [ex|] eqn:He; simpl;
    [|eexists; by split_and!].
  destruct (decide (ex = NotFound)); simpl; [eexists; by split_and!|].
  rewrite (Hhttp ex eq_refl). eexists; by split_and!.
Qed.

(** The retention step never touches the store, whatever the platform
    answers. *)
Lemma cleanup_poll_history_db guild_id channel cfg w :
  db (run (cleanup_poll_history guild_id channel cfg) w) = db w.
Proof.
  unfold cleanup_poll_history.
  destruct (decide _); [|done].
  destruct (default [] (cfg_poll_history cfg)) as [|oldest rest]; [done|].
  unfold fetch_message, message_delete. unfold_M. simpl.
  destruct (messages (discord w) !! oldest) as [m|]; simpl; [|done].
  destruct (decide (msg_channel m = channel)); simpl; [|done].
  destruct (delete_raises (discord w)) as [ex|]; simpl; [|done].
  destruct (decide (ex = NotFound)); simpl; [done|].
  by destruct (is_HTTPException ex).
Qed.

Lemma cleanup_poll_history_send_raises guild_id channel cfg w :
  send_raises (discord (run (cleanup_poll_history guild_id channel cfg) w))
  = send_raises (discord w).
Proof.
  unfold cleanup_poll_history.
  destruct (decide _); [|done].
  destruct (default [] (cfg_poll_history cfg)) as [|oldest rest]; [done|].
  unfold fetch_message, message_delete. unfold_M. simpl.
  destruct (messages (discord w) !! oldest) as [m|]; simpl; [|done].
  destruct (decide (msg_channel m = channel)); simpl; [|done].
  destruct (delete_raises (discord w)) as [ex|]; simpl; [|done].
  destruct (decide (ex = NotFound)); simpl; [done|].
  by destruct (is_HTTPException ex).
Qed.

Lemma save_configs_returns w :
  ∃ w', save_configs w = (Returned tt, w')
        ∧ configs w' = configs w
        ∧ db w' = db w
        ∧ active_polls w' = active_polls w
        ∧ discord w' = discord w
        ∧ (file_writable w = true → config_file w' = configs w)
        ∧ log w `prefix_of` log w'.
Proof.
  unfold save_configs. unfold_M. simpl.
  destruct (file_writable w); simpl; eexists; split_and!; try done;
    by apply prefix_app_r.
Qed.

Lemma create_poll_frame guild_id channel_id message_id date is_test w :
  only_touches_store w (run (create_poll guild_id channel_id message_id date is_test) w).
Proof.
  unfold only_touches_store, create_poll, create_poll_failed. unfold_M.
  destruct (available (db w)) eqn:Hav; simpl;
    [|split_and!; try done; by apply prefix_app_r].
  destruct (query_server guild_id (db w)) as [[i server]|]; simpl;
    [|split_and!; try done; by apply prefix_app_r].
  destruct (decide (is_Some (query_poll message_id (db w)))); simpl;
    [split_and!; try done; by apply prefix_app_r|].
  repeat (simpl; rewrite ?Hav).
  rewrite delete_polls_available. repeat (simpl; rewrite ?Hav).
  split_and!; try done.
  - by rewrite delete_polls_available.
  - by apply prefix_app_r.
Qed.
End retention.

(** A daily publish that gets through: what it returns and leaves behind. *)
Lemma post_daily_poll_published (guild_id channel_id : Z) (channels : list Z)
    (cfg : config) (oldest : Z) (rest : list Z) (w : world) :
  guilds (discord w) !! guild_id = Some channels →
  configs w !! guild_id = Some cfg →
  cfg_enabled cfg = Some true →
  cfg_channel_id cfg = Some channel_id →
  channel_id ∈ channels →
  cfg_poll_history cfg = Some (oldest :: rest) →
  rest ≠ [] →
  send_raises (discord w) = None →
  (∀ e, delete_raises (discord w) = Some e → is_HTTPException e = true) →
  (∀ emoji e, react_raises (discord w) !! emoji = Some e → is_HTTPException e = true) →
  ensures (post_daily_poll guild_id) w
    (λ o w',
       let new := next_message_id (discord w) in
       o = Returned tt
       ∧ configs w' = <[guild_id := set_poll_history (rest ++ [new]) cfg]>
                        (<[guild_id := set_poll_history rest cfg]> (configs w))
       ∧ (∀ m, m ≠ new →
               messages (discord w') !! m
               = messages_after_cleanup channel_id oldest (discord w) !! m)
       ∧ is_Some (messages (discord w') !! new)
       ∧ cleanup_log_line channel_id oldest (discord w) ∈ log w'
       ∧ (file_writable w = true → config_file w' = configs w')).
Proof.
  intros Hg Hc Hen Hch Hin Hh Hrest Hsend Hdel Hreact.
  unfold post_daily_poll.
  apply ensures_try, ensures_bind.
  eapply ensures_eq; [reflexivity|]. cbv beta iota. rewrite Hg.
  apply ensures_bind.
  eapply ensures_eq; [by apply get_guild_config_known|]. cbv beta iota.
  rewrite Hen. simpl negb. cbv iota. rewrite Hch. rewrite decide_True by done.
  apply ensures_bind. eapply ensures_eq; [reflexivity|]. cbv beta iota.
  destruct (build_options_text_returns
              (default default_poll_options (cfg_poll_options cfg)) w) as [text Htext].
  apply ensures_bind. eapply ensures_eq; [exact Htext|]. cbv beta iota.
  destruct (cleanup_poll_history_pops guild_id channel_id cfg oldest rest w Hh Hrest Hdel)
    as (w1 & Hw1 & Hc1 & Hdb1 & Hcf1 & Hfw1 & Hap1 & Hs1 & Hr1 & Hn1 & Ht1 & Hm1 & Hl1).
  apply ensures_bind. eapply ensures_eq; [exact Hw1|]. cbv beta iota.
  apply ensures_bind. eapply ensures_eq.
  { unfold channel_send. unfold_M. rewrite Hs1, Hsend. reflexivity. }
  cbv beta iota.
  set (new := next_message_id (discord w1)).
  set (ws := set_discord _ w1).
  destruct (add_reactions_returns new
              (default default_poll_options (cfg_poll_options cfg)) ws)
    as (w2 & Hw2 & Hdb2 & Hc2 & Hcf2 & Hfw2 & Hap2 & Hr2 & Hm2 & Hs2 & Hl2).
  { subst ws. simpl. by rewrite Hr1. }
  apply ensures_bind. eapply ensures_eq; [exact Hw2|]. cbv beta iota.
  apply ensures_bind. eapply ensures_eq; [reflexivity|]. cbv beta iota.
  set (w3 := set_configs _ w2).
  destruct (save_configs_returns w3) as (w4 & Hw4 & Hc4 & Hdb4 & Hap4 & Hd4 & Hf4 & Hl4).
  apply ensures_bind. eapply ensures_eq; [exact Hw4|]. cbv beta iota.
  pose proof (create_poll_frame guild_id channel_id new (tomorrow_label (discord w))
                false w4) as (Hc5 & Hcf5 & Hap5 & Hd5 & _ & Hl5).
  unfold run in *. apply ensures_bind. unfold ensures at 1.
  destruct (create_poll guild_id channel_id new (tomorrow_label (discord w)) false w4)
    as [o w5]. cbn [fst snd] in *.
  assert (configs w5 = <[guild_id := set_poll_history (rest ++ [next_message_id (discord w)]) cfg]>
                         (<[guild_id := set_poll_history rest cfg]> (configs w))
          ∧ (∀ m, m ≠ next_message_id (discord w) →
                  messages (discord w5) !! m
                  = messages_after_cleanup channel_id oldest (discord w) !! m)
          ∧ is_Some (messages (discord w5) !! next_message_id (discord w))
          ∧ cleanup_log_line channel_id oldest (discord w) ∈ log w5
          ∧ (file_writable w = true → config_file w5 = configs w5))
    as (F1 & F2 & F3 & F4 & F5).
  { subst new w3 ws. simpl in *. rewrite Hn1 in *. split_and!.
    - by rewrite Hc5, Hc4, Hc2, <- Hc1.
    - intros m Hm. rewrite Hd5, Hd4, Hm2 by done.
      rewrite lookup_insert_ne by done. by rewrite Hm1.
    - rewrite Hd5, Hd4. apply Hs2. rewrite lookup_insert_eq. by eexists.
    - eapply elem_of_prefix; [|exact Hl5].
      eapply elem_of_prefix; [|exact Hl4].
      eapply elem_of_prefix; [|exact Hl2].
      rewrite Hl1. apply elem_of_app. right. by left.
    - intros Hfw. rewrite Hcf5, Hc5, Hc4. apply Hf4. by rewrite Hfw2, Hfw1. }
  destruct o as [id|e].
  - apply ensures_bind. eapply ensures_eq; [reflexivity|]. cbv beta iota.
    apply ensures_bind. eapply ensures_eq; [reflexivity|]. cbv beta iota.
    eapply ensures_eq; [reflexivity|]. simpl.
    split_and!; try done.
    rewrite <- app_assoc. apply elem_of_app. by left.
  - destruct (decide (e = Forbidden));
      (eapply ensures_eq; [reflexivity|]; simpl; split_and!; try done;
       apply elem_of_app; by left).
Qed.

(** C3.  A daily publish for a guild whose history holds two or more
    message handles, in a guild that is enabled with a channel the bot can
    send to, whatever delivery error the deletion of the old message meets:
    the publish returns; the guild's history afterwards is the old one
    without its first (oldest) entry and with the new message handle at the
    end, so its length is unchanged and a history of two still has two; the
    only message deleted is the oldest entry's (when it is found in the
    channel and the platform accepts the deletion), a not-found or other
    delivery error being logged instead; the new message exists; and the
    configuration file holds the new history when it can be written. *)
Theorem post_daily_poll_retention (guild_id channel_id : Z) (channels : list Z)
    (cfg : config) (oldest : Z) (rest : list Z) (w : world) :
  guilds (discord w) !! guild_id = Some channels →
  configs w !! guild_id = Some cfg →
  cfg_enabled cfg = Some true →
  cfg_channel_id cfg = Some channel_id →
  channel_id ∈ channels →
  cfg_poll_history cfg = Some (oldest :: rest) →
  rest ≠ [] →
  send_raises (discord w) = None →
  (∀ e, delete_raises (discord w) = Some e → is_HTTPException e = true) →
  (∀ emoji e, react_raises (discord w) !! emoji = Some e → is_HTTPException e = true) →
  let w' := run (post_daily_poll guild_id) w in
  let new := next_message_id (discord w) in
  result (post_daily_poll guild_id) w = Returned tt
  ∧ cfg_poll_history <$> configs w' !! guild_id = Some (Some (rest ++ [new]))
  ∧ length (rest ++ [new]) = length (oldest :: rest)
  ∧ (length (oldest :: rest) = 2%nat → length (rest ++ [new]) = 2%nat)
  ∧ (∀ m, m ≠ new → m ≠ oldest →
          messages (discord w') !! m = messages (discord w) !! m)
  ∧ (oldest ≠ new →
     messages (discord w') !! oldest
     = match messages (discord w) !! oldest with
       | Some m0 => if decide (msg_channel m0 = channel_id)
                    then match delete_raises (discord w) with
                         | None => None
                         | Some _ => Some m0
                         end
                    else Some m0
       | None => None
       end)
  ∧ is_Some (messages (discord w') !! new)
  ∧ cleanup_log_line channel_id oldest (discord w) ∈ log w'
  ∧ (file_writable w = true → config_file w' = configs w').
Proof.
  intros Hg Hc Hen Hch Hin Hh Hrest Hsend Hdel Hreact w' new.
  pose proof (post_daily_poll_published guild_id channel_id channels cfg oldest rest w
                Hg Hc Hen Hch Hin Hh Hrest Hsend Hdel Hreact) as H.
  apply ensures_run_result in H. cbv zeta in H.
  destruct H as (Hr & Hcs & Hms & Hnew & Hlog & Hfile).
  assert (∀ m, messages_after_cleanup channel_id oldest (discord w) !! m
               = if decide (m = oldest)
                 then match messages (discord w) !! oldest with
                      | Some m0 => if decide (msg_channel m0 = channel_id)
                                   then match delete_raises (discord w) with
                                        | None => None
                                        | Some _ => Some m0
                                        end
                                   else Some m0
                      | None => None
                      end
                 else messages (discord w) !! m) as Hafter.
  { intros m. unfold messages_after_cleanup.
    destruct (decide (m = oldest)) as [->|Hne].
    - destruct (messages (discord w) !! oldest) as [m0|] eqn:Hm0; [|done].
      destruct (decide (msg_channel m0 = channel_id)); [|done].
      destruct (delete_raises (discord w)); [done|]. apply lookup_delete_eq.
    - destruct (messages (discord w) !! oldest) as [m0|]; [|done].
      destruct (decide (msg_channel m0 = channel_id)); [|done].
      destruct (delete_raises (discord w)); [done|]. by apply lookup_delete_ne. }
  split_and!; try done.
  - subst w'. rewrite Hcs, lookup_insert_eq. done.
  - rewrite length_app. simpl. lia.
  - rewrite length_app. simpl. lia.
  - intros m Hn Ho. subst w'. rewrite Hms, Hafter by done. by rewrite decide_False.
  - intros Hne. subst w'. rewrite Hms, Hafter by done. by rewrite decide_True.
Qed.

Lemma post_daily_poll_retention_witness :
  cfg_poll_history sample_history_config = Some [90; 95]
  ∧ cfg_poll_history <$> configs (run (post_daily_poll 7) sample_two_polls) !! 7
    = Some (Some [95; 100])
  ∧ messages (discord (run (post_daily_poll 7) sample_two_polls)) !! 90 = None
  ∧ messages (discord (run (post_daily_poll 7) sample_two_polls)) !! 95
    = Some (mkMessage 70 [] "").
Proof.
  split; [done|].
  destruct (post_daily_poll_retention 7 70 [70; 71] sample_history_config 90 [95]
              sample_two_polls) as (_ & Hh & _ & _ & Hother & Hold & _);
    [solve [ done
           | by apply (bool_decide_unpack _); vm_compute
           | intros ? ? He; by vm_compute in He ]..|].
  split_and!.
  - exact Hh.
  - rewrite Hold by done. by vm_compute.
  - rewrite Hother by done. by vm_compute.
Defined.

Section send_failure.
Implicit Types (w : world) (cfg : config) (e : exn).

(** Whatever happens inside, the daily publish returns to its caller: both
    of its handlers only log. *)
Lemma post_daily_poll_returns guild_id w :
  result (post_daily_poll guild_id) w = Returned tt.
Proof.
  unfold post_daily_poll, result, try_except.
  match goal with |- context [let (_, _) := ?body w in _] =>
    destruct (body w) as [[[]|e] w'] end; [done|].
  by destruct (decide (e = Forbidden)).
Qed.

Lemma get_guild_config_frame guild_id w :
  ∃ cfg w', get_guild_config guild_id w = (Returned cfg, w')
            ∧ db w' = db w
            ∧ send_raises (discord w') = send_raises (discord w).
Proof.
  destruct (configs w !! guild_id) as [cfg|] eqn:Hc.
  - exists cfg, w. by rewrite (get_guild_config_known _ _ _ Hc).
  - eexists _, _. rewrite (get_guild_config_unknown _ _ Hc).
    split; [done|]. by destruct (file_writable w).
Qed.

(** When the platform refuses the send, the daily publish writes nothing to
    the store. *)
Lemma post_daily_poll_send_fails_db guild_id e w :
  send_raises (discord w) = Some e →
  db (run (post_daily_poll guild_id) w) = db w.
Proof.
  intros Hsend.
  apply (ensures_run_result (post_daily_poll guild_id) w (λ _ w', db w' = db w)).
  unfold post_daily_poll.
  apply ensures_try, ensures_bind.
  eapply ensures_eq; [reflexivity|]. cbv beta iota.
  destruct (guilds (discord w) !! guild_id) as [channels|];
    [|by eapply ensures_eq; [reflexivity|]].
  destruct (get_guild_config_frame guild_id w) as (cfg & w0 & Hcfg & Hdb0 & Hs0).
  apply ensures_bind. eapply ensures_eq; [exact Hcfg|]. cbv beta iota.
  destruct (negb (default false (cfg_enabled cfg)));
    [by eapply ensures_eq; [reflexivity|]|].
  destruct (cfg_channel_id cfg) as [channel_id|];
    [|by eapply ensures_eq; [reflexivity|]].
  destruct (decide (channel_id ∈ channels));
    [|by eapply ensures_eq; [reflexivity|]].
  apply ensures_bind. eapply ensures_eq; [reflexivity|]. cbv beta iota.
  destruct (build_options_text_returns
              (default default_poll_options (cfg_poll_options cfg)) w0) as [text Htext].
  apply ensures_bind. eapply ensures_eq; [exact Htext|]. cbv beta iota.
  pose proof (cleanup_poll_history_db guild_id channel_id cfg w0) as Hdb1.
  pose proof (cleanup_poll_history_send_raises guild_id channel_id cfg w0) as Hs1.
  unfold run in Hdb1, Hs1.
  apply ensures_bind. unfold ensures at 1.
  destruct (cleanup_poll_history guild_id channel_id cfg w0) as [[history|e1] w1];
    cbn [fst snd] in *.
  - apply ensures_bind. eapply ensures_eq.
    { unfold channel_send. unfold_M. rewrite Hs1, Hs0, Hsend. reflexivity. }
    cbv beta iota.
    destruct (decide (e = Forbidden));
      (eapply ensures_eq; [reflexivity|]; simpl; congruence).
  - destruct (decide (e1 = Forbidden));
      (eapply ensures_eq; [reflexivity|]; simpl; congruence).
Qed.

(** The test publish hands the same failure to its caller. *)
Lemma post_test_poll_send_fails guild_id channel_id cfg e w :
  send_raises (discord w) = Some e →
  post_test_poll guild_id channel_id cfg w
  = (Raised e, set_log (log w ++ [(ERROR, "Failed to post test poll")]) w).
Proof.
  intros Hsend. unfold post_test_poll.
  destruct (build_options_text_returns
              (default default_poll_options (cfg_poll_options cfg)) w) as [text Htext].
  unfold try_except, bind at 1, get. unfold bind at 1. rewrite Htext.
  unfold bind at 1, channel_send. unfold_M. by rewrite Hsend.
Qed.
End send_failure.

(** C6, on the code.  When [channel.send] raises, whatever it raises: the
    test publish logs the error and raises it to its caller, with nothing
    written to the store; the daily publish writes nothing to the store
    either, but returns normally to its caller, so that no error of the
    daily publish ever reaches the caller. *)
Theorem publish_send_failure (guild_id channel_id : Z) (cfg : config) (e : exn)
    (w : world) :
  send_raises (discord w) = Some e →
  (result (post_test_poll guild_id channel_id cfg) w = Raised e
   ∧ db (run (post_test_poll guild_id channel_id cfg) w) = db w
   ∧ log (run (post_test_poll guild_id channel_id cfg) w)
     = log w ++ [(ERROR, "Failed to post test poll")])
  ∧ (result (post_daily_poll guild_id) w = Returned tt
     ∧ db (run (post_daily_poll guild_id) w) = db w).
Proof.
  intros Hsend. split.
  - unfold result, run. by rewrite (post_test_poll_send_fails _ _ _ _ _ Hsend).
  - split; [apply post_daily_poll_returns|by eapply post_daily_poll_send_fails_db].
Qed.

Lemma publish_send_failure_witness :
  send_raises (discord sample_send_fails) = Some HTTPException
  ∧ result (post_test_poll 7 70 sample_config) sample_send_fails = Raised HTTPException
  ∧ result (post_daily_poll 7) sample_send_fails = Returned tt
  ∧ polls (db (run (post_daily_poll 7) sample_send_fails)) = []
  ∧ log (run (post_daily_poll 7) sample_send_fails)
    = [(ERROR, "Failed to post daily poll for guild")].
Proof.
  split; [done|].
  destruct (publish_send_failure 7 70 sample_config HTTPException sample_send_fails)
    as ((Ht & _) & Hd & Hdb); [done|].
  split_and!; [exact Ht|exact Hd|by rewrite Hdb|by vm_compute].
Defined.

(** ** Reconciling votes with reactions *)

Section first_match.
Context {A : Type} (P : A → Prop) `{!∀ x, Decision (P x)}.
Implicit Types (l : list A) (x y : A).

(** [.first()] is the head of the matching rows. *)
Lemma list_find_head l : snd <$> list_find P l = head (filter P l).
Proof.
  induction l as [|x l IH]; [done|]. simpl.
  destruct (decide (P x)) as [Hx|Hx].
  - by rewrite filter_cons_True.
  - rewrite filter_cons_False by done. rewrite <- IH.
    by destruct (list_find P l) as [[j y]|].
Qed.

Lemma filter_none l : Forall (λ z, ¬ P z) l → filter P l = [].
Proof.
  induction 1 as [|z l Hz _ IH]; [done|]. by rewrite filter_cons_False.
Qed.

Lemma filter_insert_other l j x y :
  l !! j = Some x → ¬ P x → ¬ P y → filter P (<[j := y]> l) = filter P l.
Proof.
  intros Hj Hx Hy.
  rewrite insert_take_drop by (by eapply lookup_lt_Some).
  rewrite <- (take_drop_middle l j x Hj) at 3.
  by rewrite !filter_app, !filter_cons_False.
Qed.

Lemma filter_delete_other l j x :
  l !! j = Some x → ¬ P x → filter P (delete j l) = filter P l.
Proof.
  intros Hj Hx. rewrite delete_take_drop.
  rewrite <- (take_drop_middle l j x Hj) at 3.
  by rewrite !filter_app, filter_cons_False.
Qed.

Lemma filter_insert_found l j x y :
  list_find P l = Some (j, x) → P y → head (filter P (<[j := y]> l)) = Some y.
Proof.
  intros (Hj & _ & Hbefore)%list_find_Some Hy.
  rewrite insert_take_drop by (by eapply lookup_lt_Some).
  rewrite filter_app, filter_cons_True by done.
  rewrite (filter_none (take j l)); [done|]. apply Forall_forall.
  intros z (k & Hk)%list_elem_of_lookup.
  apply lookup_take_Some in Hk as [Hk Hlt]. by eapply Hbefore.
Qed.

Lemma filter_app_new l y :
  list_find P l = None → P y → head (filter P (l ++ [y])) = Some y.
Proof.
  intros Hnone%list_find_None Hy.
  rewrite filter_app, filter_cons_True by done.
  by rewrite (filter_none l Hnone).
Qed.
End first_match.

Section vote_steps.
Implicit Types (w : world) (d : database).

Lemma stored_vote_head pid u d :
  stored_vote pid u d
  = head (filter (λ v, vote_poll_id v = pid ∧ vote_user_id v = u) (votes d)).
Proof. unfold stored_vote, query_vote. apply list_find_head. Qed.

Lemma save_vote_update message_id user_id username display_name emoji w i poll j existing :
  available (db w) = true →
  query_poll message_id (db w) = Some (i, poll) →
  query_vote (poll_id poll) user_id (db w) = Some (j, existing) →
  save_vote message_id user_id username display_name emoji w
  = (Returned tt,
     set_log (log w ++ [(DEBUG, "Updated vote")])
       (set_db (set_votes
                  (<[j := updated_vote existing display_name emoji (clock (discord w))]>
                     (votes (db w)))
                  (db w)) w)).
Proof.
  intros Hav Hq Hv. unfold save_vote. unfold_M.
  repeat (simpl; rewrite ?Hav, ?Hq, ?Hv). done.
Qed.

Lemma save_vote_insert message_id user_id username display_name emoji w i poll :
  available (db w) = true →
  query_poll message_id (db w) = Some (i, poll) →
  query_vote (poll_id poll) user_id (db w) = None →
  save_vote message_id user_id username display_name emoji w
  = (Returned tt,
     set_log (log w ++ [(DEBUG, "Created new vote")])
       (set_db (set_next_vote_id (next_vote_id (db w) + 1)
                  (set_votes (votes (db w) ++
                       [mkVote (next_vote_id (db w)) (poll_id poll) user_id username
                               display_name emoji (clock (discord w))
                               (clock (discord w))])
                     (db w))) w)).
Proof.
  intros Hav Hq Hv. unfold save_vote. unfold_M.
  repeat (simpl; rewrite ?Hav, ?Hq, ?Hv). done.
Qed.

(** [save_vote] on the poll of a tracked message sets the voter's stored
    choice and nobody else's. *)
Lemma save_vote_choice message_id i poll user_id username display_name emoji w :
  available (db w) = true →
  query_poll message_id (db w) = Some (i, poll) →
  ∃ w', save_vote message_id user_id username display_name emoji w = (Returned tt, w')
        ∧ available (db w') = true
        ∧ polls (db w') = polls (db w)
        ∧ active_polls w' = active_polls w
        ∧ discord w' = discord w
        ∧ (one_vote_per_voter (db w) → one_vote_per_voter (db w'))
        ∧ ∀ u, stored_choice (poll_id poll) (db w') u
               = if decide (u = user_id) then Some (emoji, display_name)
                 else stored_choice (poll_id poll) (db w) u.
Proof.
  intros Hav Hq.
  pose proof (save_vote_one_vote message_id user_id username display_name emoji w)
    as Hone. unfold run in Hone.
  destruct (query_vote (poll_id poll) user_id (db w)) as [[j existing]|] eqn:Hv.
  - rewrite (save_vote_update _ _ _ _ _ _ _ _ _ _ Hav Hq Hv) in *.
    eexists. split; [done|]. split_and!; try done.
    intros u. unfold stored_choice. rewrite !stored_vote_head. simpl.
    pose proof Hv as [Hj Hk]%query_vote_Some. unfold vote_key in Hk.
    destruct (decide (u = user_id)) as [->|Hne].
    + erewrite filter_insert_found; [done|exact Hv|]. simpl. by simplify_eq.
    + erewrite filter_insert_other; [done|exact Hj|..]; simpl;
        intros [_ Hu]; simplify_eq.
  - rewrite (save_vote_insert _ _ _ _ _ _ _ _ Hav Hq Hv) in *.
    eexists. split; [done|]. split_and!; try done.
    intros u. unfold stored_choice. rewrite !stored_vote_head. simpl.
    destruct (decide (u = user_id)) as [->|Hne].
    + rewrite filter_app_new; [done|exact Hv|done].
    + rewrite filter_app, filter_cons_False by (by intros [_ Hu]).
      by rewrite filter_nil, app_nil_r.
Qed.

(** [remove_vote] clears the actor's stored choice and nobody else's. *)
Lemma remove_vote_choice message_id i poll user_id w :
  available (db w) = true →
  query_poll message_id (db w) = Some (i, poll) →
  one_vote_per_voter (db w) →
  ∃ w', remove_vote message_id user_id w = (Returned tt, w')
        ∧ available (db w') = true
        ∧ polls (db w') = polls (db w)
        ∧ active_polls w' = active_polls w
        ∧ discord w' = discord w
        ∧ one_vote_per_voter (db w')
        ∧ ∀ u, stored_choice (poll_id poll) (db w') u
               = if decide (u = user_id) then None
                 else stored_choice (poll_id poll) (db w) u.
Proof.
  intros Hav Hq Hone.
  pose proof (remove_vote_one_vote message_id user_id w Hone) as Hone'.
  unfold run in Hone'. revert Hone'.
  unfold remove_vote. unfold_M. repeat (simpl; rewrite ?Hav, ?Hq).
  destruct (query_vote (poll_id poll) user_id (db w)) as [[j v]|] eqn:Hv;
    repeat (simpl; rewrite ?Hav); intros Hone'.
  - eexists. split; [done|]. split_and!; try done.
    intros u. unfold stored_choice.
    destruct (decide (u = user_id)) as [->|Hne].
    + unfold stored_vote. simpl. by rewrite (query_vote_delete _ _ _ _ _ Hone Hv).
    + rewrite !stored_vote_head. simpl.
      pose proof Hv as [Hj Hk]%query_vote_Some. unfold vote_key in Hk.
      erewrite filter_delete_other; [done|exact Hj|]. intros [_ Hu]. simplify_eq.
  - eexists. split; [done|]. split_and!; try done.
    intros u. destruct (decide (u = user_id)) as [->|Hne]; [|done].
    unfold stored_choice, stored_vote. by rewrite Hv.
Qed.
End vote_steps.

Section rescan.
Context (message_id : Z) (i : nat) (poll : Poll).
Implicit Types (w : world) (u : Z) (rs : list (string * list Z)).

Lemma vote_step_refl w : vote_step w w.
Proof. by repeat split. Qed.

Lemma vote_step_trans w1 w2 w3 :
  vote_step w1 w2 → vote_step w2 w3 → vote_step w1 w3.
Proof.
  intros (?&?&?&?&?) (?&?&?&?&?). repeat split; try congruence. auto.
Qed.

Lemma vote_step_tracked w w' :
  vote_step w w' →
  available (db w) = true → query_poll message_id (db w) = Some (i, poll) →
  available (db w') = true ∧ query_poll message_id (db w') = Some (i, poll).
Proof.
  intros (Hav & Hp & _) ? ?. split; [congruence|].
  unfold query_poll in *. by rewrite Hp.
Qed.

(** The inner loop: every non-bot user of the reaction gets the emoji. *)
Lemma sync_reaction_choice emoji users w :
  available (db w) = true →
  query_poll message_id (db w) = Some (i, poll) →
  ∃ w', sync_reaction message_id emoji users w = (Returned tt, w')
        ∧ vote_step w w'
        ∧ ∀ u, stored_choice (poll_id poll) (db w') u
               = if decide (u ∈ users ∧ member_bot (members (discord w) u) = false)
                 then Some (emoji, member_display_name (members (discord w) u))
                 else stored_choice (poll_id poll) (db w) u.
Proof.
  unfold sync_reaction.
  revert w. induction users as [|x users IH]; intros w Hav Hq.
  - exists w. split; [done|]. split; [apply vote_step_refl|].
    intros u. rewrite decide_False; [done|]. intros [[]%elem_of_nil _].
  - simpl. unfold bind at 1. unfold bind at 1, get.
    destruct (member_bot (members (discord w) x)) eqn:Hbot.
    + destruct (IH w Hav Hq) as (w' & Hrun & Hstep & Hch).
      unfold ret at 1. exists w'. split; [done|]. split; [done|].
      intros u. rewrite Hch.
      destruct (decide (u = x)) as [->|Hne].
      * rewrite !decide_False; [done|..]; intros [_ ?]; congruence.
      * apply decide_ext. rewrite elem_of_cons.
        split; intros [Hin Hb]; (split; [|done]);
          first [ by right | by destruct Hin as [?|?]; [congruence|] ].
    + destruct (save_vote_choice message_id i poll x
                  (member_name (members (discord w) x))
                  (member_display_name (members (discord w) x)) emoji w Hav Hq)
        as (w1 & -> & Hav1 & Hp1 & Hap1 & Hd1 & Hone1 & Hch1).
      assert (vote_step w w1) as Hstep1 by (repeat split; try done; congruence).
      destruct (vote_step_tracked w w1 Hstep1 Hav Hq) as [Hav1' Hq1].
      destruct (IH w1 Hav1' Hq1) as (w' & Hrun & Hstep & Hch).
      exists w'. split; [done|]. split; [by eapply vote_step_trans|].
      intros u. rewrite Hch, Hch1, Hd1.
      destruct (decide (u = x)) as [->|Hne].
      * rewrite (decide_True (P := x ∈ x :: users ∧ _));
          [|split; [by left|done]].
        by destruct (decide (x ∈ users ∧ _)).
      * apply decide_ext. rewrite elem_of_cons.
        split; intros [Hin Hb]; (split; [|done]);
          first [ by right | by destruct Hin as [?|?]; [congruence|] ].
Qed.

Lemma reacted_users rs emoji u :
  reacted rs emoji u ↔ ∃ users, reaction_users rs emoji = Some users ∧ u ∈ users.
Proof.
  unfold reacted. destruct (reaction_users rs emoji) as [users|].
  - split; [by exists users|]. by intros (? & [= <-] & ?).
  - split; [done|]. by intros (? & [=] & _).
Qed.

(** The outer loop: every non-bot user with one of the emojis live on the
    message gets the last such emoji. *)
Lemma rescan_choice rs emojis w :
  available (db w) = true →
  query_poll message_id (db w) = Some (i, poll) →
  ∃ w', for_each emojis
          (λ emoji, match reaction_users rs emoji with
                    | Some users => sync_reaction message_id emoji users
                    | None => ret tt
                    end) w = (Returned tt, w')
        ∧ vote_step w w'
        ∧ ∀ u, stored_choice (poll_id poll) (db w') u
               = match net_choice emojis rs u with
                 | Some emoji =>
                     if member_bot (members (discord w) u)
                     then stored_choice (poll_id poll) (db w) u
                     else Some (emoji, member_display_name (members (discord w) u))
                 | None => stored_choice (poll_id poll) (db w) u
                 end.
Proof.
  revert w. induction emojis as [|emoji emojis IH]; intros w Hav Hq.
  - exists w. split; [done|]. split; [apply vote_step_refl|done].
  - assert (∃ w1, match reaction_users rs emoji with
                  | Some users => sync_reaction message_id emoji users
                  | None => ret tt
                  end w = (Returned tt, w1)
                  ∧ vote_step w w1
                  ∧ ∀ u, stored_choice (poll_id poll) (db w1) u
                         = if decide (reacted rs emoji u
                                      ∧ member_bot (members (discord w) u) = false)
                           then Some (emoji, member_display_name (members (discord w) u))
                           else stored_choice (poll_id poll) (db w) u)
      as (w1 & Hrun1 & Hstep1 & Hch1).
    { destruct (reaction_users rs emoji) as [users|] eqn:Hru.
      - destruct (sync_reaction_choice emoji users w Hav Hq) as (w1 & ? & ? & Hch1).
        exists w1. split_and!; try done.
        intros u. rewrite Hch1. apply decide_ext.
        rewrite reacted_users, Hru. split.
        + intros [? ?]. split; [by exists users|done].
        + intros [(? & [= <-] & ?) ?]. done.
      - exists w. split; [done|]. split; [apply vote_step_refl|].
        intros u. rewrite decide_False; [done|].
        rewrite reacted_users, Hru. by intros [(? & [=] & _) _]. }
    destruct (vote_step_tracked w w1 Hstep1 Hav Hq) as [Hav1 Hq1].
    destruct (IH w1 Hav1 Hq1) as (w' & Hrun & Hstep & Hch).
    exists w'. split; [|split; [by eapply vote_step_trans|]].
    { simpl. unfold bind at 1. by rewrite Hrun1. }
    intros u. rewrite Hch, Hch1.
    destruct Hstep1 as (_ & _ & _ & -> & _).
    unfold net_choice.
    destruct (decide (reacted rs emoji u)) as [Hr|Hr].
    + rewrite filter_cons_True, last_cons by done.
      destruct (last (filter (λ e, reacted rs e u) emojis)) as [e'|];
        destruct (member_bot (members (discord w) u)); try done.
      * rewrite decide_False; [done|]. by intros [_ ?].
      * rewrite decide_False; [done|]. by intros [_ ?].
      * by rewrite decide_True.
    + rewrite filter_cons_False by done.
      rewrite decide_False; [done|]. by intros [? _].
Qed.
End rescan.

Section handlers.
Context (message_id : Z) (i : nat) (poll : Poll).
Implicit Types (w : world) (u : Z) (info : poll_info).

Lemma get_poll_votes_tracked w :
  available (db w) = true →
  query_poll message_id (db w) = Some (i, poll) →
  get_poll_votes message_id w
  = (Returned (foldl group_vote ∅ (poll_votes (poll_id poll) (db w))), w).
Proof.
  intros Hav Hq. unfold get_poll_votes. unfold_M.
  repeat (simpl; rewrite ?Hav, ?Hq). done.
Qed.

(** Rendering the option lines reads the tally and changes nothing. *)
Lemma render_lines_pure (vote_results : gmap string (list string)) info
    (l : list string) k acc w :
  ∃ o, fold_enumerate k l acc
         (λ i option options_text,
            emoji <- index (pi_emojis info) i ;;
            let voters := default [] (vote_results !! emoji) in
            ret (options_text +:+ option_line emoji option voters)) w
       = (o, w).
Proof.
  revert k acc. induction l as [|t l IH]; intros k acc; [by eexists|].
  simpl. unfold bind at 1. unfold index, bind, ret, raise.
  destruct (pi_emojis info !! k) as [emoji|]; [apply IH|by eexists].
Qed.

(** Editing the message keeps its reactions. *)
Lemma message_edit_setting msg text w :
  ∃ o w', message_edit msg text w = (o, w')
          ∧ db w' = db w
          ∧ same_setting w w'.
Proof.
  unfold message_edit. unfold_M.
  destruct (edit_raises (discord w)); simpl; [by eexists _, _|].
  destruct (messages (discord w) !! msg) as [m|] eqn:Hm; simpl;
    [|by eexists _, _].
  eexists _, _. split; [done|]. split; [done|].
  repeat split; try done. simpl.
  intros m'. unfold message_reactions. simpl.
  destruct (decide (m' = msg)) as [->|Hne].
  - by rewrite lookup_insert_eq, Hm.
  - by rewrite lookup_insert_ne.
Qed.

(** [update_poll_results] on a tracked message: the stored choices after
    the re-scan of the live reactions. *)
Lemma update_poll_results_choice info w :
  available (db w) = true →
  query_poll message_id (db w) = Some (i, poll) →
  ∃ w', update_poll_results message_id info w = (Returned tt, w')
        ∧ same_setting w w'
        ∧ (one_vote_per_voter (db w) → one_vote_per_voter (db w'))
        ∧ ∀ u, stored_choice (poll_id poll) (db w') u
               = match net_choice (pi_emojis info) (message_reactions w message_id) u with
                 | Some emoji =>
                     if member_bot (members (discord w) u)
                     then stored_choice (poll_id poll) (db w) u
                     else Some (emoji, member_display_name (members (discord w) u))
                 | None => stored_choice (poll_id poll) (db w) u
                 end.
Proof.
  intros Hav Hq.
  destruct (rescan_choice message_id i poll (message_reactions w message_id)
              (pi_emojis info) w Hav Hq) as (w1 & Hrun1 & Hstep1 & Hch1).
  destruct (vote_step_tracked message_id i poll w w1 Hstep1 Hav Hq) as [Hav1 Hq1].
  destruct Hstep1 as (Ha1 & Hp1 & Hap1 & Hd1 & Hone1).
  destruct (render_lines_pure
              (foldl group_vote ∅ (poll_votes (poll_id poll) (db w1))) info
              (pi_poll_options info) 0 "" w1) as [o Hrender].
  assert (∀ text, ∃ o' w', message_edit message_id text w1 = (o', w')
                           ∧ db w' = db w1 ∧ same_setting w1 w') as Hedit
    by (intros; apply message_edit_setting).
  assert (same_setting w w1) as Hs1.
  { repeat split; try done; try congruence.
    intros m. unfold message_reactions. by rewrite Hd1. }
  assert (∀ w', db w' = db w1 → same_setting w1 w' →
                same_setting w w'
                ∧ (one_vote_per_voter (db w) → one_vote_per_voter (db w'))
                ∧ ∀ u, stored_choice (poll_id poll) (db w') u
                       = match net_choice (pi_emojis info)
                                 (message_reactions w message_id) u with
                         | Some emoji =>
                             if member_bot (members (discord w) u)
                             then stored_choice (poll_id poll) (db w) u
                             else Some (emoji,
                                        member_display_name (members (discord w) u))
                         | None => stored_choice (poll_id poll) (db w) u
                         end) as Hfinal.
  { intros w' Hdb (Ha' & Hp' & Hap' & Hm' & Hr').
    split_and!.
    - destruct Hs1 as (?&?&?&?&Hr1).
      repeat split; first [congruence | intros m; by rewrite Hr', Hr1].
    - rewrite Hdb. exact Hone1.
    - intros u. rewrite Hdb. apply Hch1. }
  unfold update_poll_results.
  unfold try_except, bind at 1.
  rewrite (get_poll_votes_tracked w Hav Hq).
  unfold bind at 1, get at 1. unfold bind at 1. rewrite Hrun1.
  unfold bind at 1. rewrite (get_poll_votes_tracked w1 Hav1 Hq1).
  unfold bind at 1. cbv zeta in Hrender. rewrite Hrender.
  destruct o as [text|e].
  - destruct (Hedit text) as (o' & w' & -> & Hdb & Hset).
    destruct o' as [[]|e].
    + exists w'. split; [done|]. by apply Hfinal.
    + eexists. split; [reflexivity|]. apply Hfinal; [done|].
      destruct Hset as (?&?&?&?&?). by repeat split.
  - eexists. split; [reflexivity|]. apply Hfinal; [done|]. by repeat split.
Qed.
End handlers.

Section reactions.
Implicit Types (rs : list (string * list Z)) (u a : Z) (e emoji : string).

Lemma reaction_users_cons e' us rs e :
  reaction_users ((e', us) :: rs) e
  = if decide (e' = e) then Some us else reaction_users rs e.
Proof.
  unfold reaction_users. simpl.
  destruct (decide (e' = e)); [done|].
  by destruct (list_find (λ r, r.1 = e) rs) as [[j [e'' us']]|].
Qed.

Lemma reaction_users_absent rs e :
  e ∉ fst <$> rs → reaction_users rs e = None.
Proof.
  induction rs as [|[e' us] rs IH]; [done|].
  rewrite fmap_cons, not_elem_of_cons. simpl. intros [Hne Hnotin].
  rewrite reaction_users_cons, decide_False by done. by apply IH.
Qed.

Lemma reacted_cons e' us rs e u :
  reacted ((e', us) :: rs) e u ↔ if decide (e' = e) then u ∈ us else reacted rs e u.
Proof.
  unfold reacted. rewrite reaction_users_cons. by destruct (decide (e' = e)).
Qed.

(** Adding or removing one user's reaction changes nobody else's. *)
Lemma reacted_react emoji a rs e u :
  u ≠ a → reacted (react emoji a rs) e u ↔ reacted rs e u.
Proof.
  intros Hne. induction rs as [|[e' us] rs IH]; simpl.
  - rewrite reacted_cons. unfold reacted, reaction_users. simpl.
    destruct (decide (emoji = e)); [|done].
    rewrite list_elem_of_singleton. by split.
  - destruct (decide (e' = emoji)) as [->|He'].
    + rewrite !reacted_cons. destruct (decide (emoji = e)); [|done].
      destruct (decide (a ∈ us)); [done|].
      rewrite elem_of_app, list_elem_of_singleton. split; [|by left].
      by intros [?|?].
    + rewrite !reacted_cons. by destruct (decide (e' = e)).
Qed.

Lemma reacted_unreact emoji a rs e u :
  NoDup (fst <$> rs) →
  u ≠ a → reacted (unreact emoji a rs) e u ↔ reacted rs e u.
Proof.
  intros Hnd Hne. induction rs as [|[e' us] rs IH]; simpl; [done|].
  rewrite fmap_cons in Hnd. apply NoDup_cons in Hnd as [Hnotin Hnd]. simpl in *.
  destruct (decide (e' = emoji)) as [->|He'].
  - destruct (filter (λ v, v ≠ a) us) as [|x us'] eqn:Hf.
    + rewrite reacted_cons. destruct (decide (emoji = e)) as [<-|]; [|done].
      unfold reacted at 1. rewrite reaction_users_absent by done.
      split; [done|]. intros Hin.
      assert (u ∈ filter (λ v, v ≠ a) us) as Hin'
        by by apply list_elem_of_filter.
      rewrite Hf in Hin'. by apply elem_of_nil in Hin'.
    + rewrite !reacted_cons. destruct (decide (emoji = e)); [|done].
      rewrite <- Hf, list_elem_of_filter. split; [by intros [_ ?]|done].
  - rewrite !reacted_cons. destruct (decide (e' = e)); [done|by apply IH].
Qed.

Lemma react_emojis emoji a rs :
  fst <$> react emoji a rs
  = if decide (emoji ∈ fst <$> rs) then fst <$> rs else (fst <$> rs) ++ [emoji].
Proof.
  induction rs as [|[e' us] rs IH]; [done|]. simpl react.
  destruct (decide (e' = emoji)) as [->|He']; rewrite !fmap_cons; simpl fst.
  - rewrite decide_True; [done|by left].
  - rewrite IH. destruct (decide (emoji ∈ fst <$> rs)) as [Hin|Hin].
    + rewrite decide_True; [done|by right].
    + rewrite decide_False; [done|].
      rewrite not_elem_of_cons. by split.
Qed.

Lemma react_NoDup emoji a rs :
  NoDup (fst <$> rs) → NoDup (fst <$> react emoji a rs).
Proof.
  intros Hnd. rewrite react_emojis.
  destruct (decide (emoji ∈ fst <$> rs)); [done|].
  apply NoDup_app. split_and!; [done| |apply NoDup_singleton].
  intros x Hx ->%list_elem_of_singleton. done.
Qed.

Lemma unreact_emojis emoji a rs :
  fst <$> unreact emoji a rs `sublist_of` fst <$> rs.
Proof.
  induction rs as [|[e' us] rs IH]; [done|]. simpl unreact.
  destruct (decide (e' = emoji)) as [->|He'].
  - destruct (filter (λ v, v ≠ a) us); rewrite ?fmap_cons;
      [by apply sublist_cons|done].
  - rewrite !fmap_cons. by apply sublist_skip.
Qed.

Lemma unreact_NoDup emoji a rs :
  NoDup (fst <$> rs) → NoDup (fst <$> unreact emoji a rs).
Proof. intros Hnd. eapply sublist_NoDup; [done|apply unreact_emojis]. Qed.

(** The net choice only depends on which emojis the user has live. *)
Lemma net_choice_ext emojis rs rs' u :
  (∀ e, reacted rs' e u ↔ reacted rs e u) →
  net_choice emojis rs' u = net_choice emojis rs u.
Proof. intros H. unfold net_choice. f_equal. by apply list_filter_iff. Qed.

Lemma net_choice_reacted emojis rs u e :
  net_choice emojis rs u = Some e → reacted rs e u.
Proof.
  unfold net_choice. intros Hl%last_Some_elem_of.
  by apply list_elem_of_filter in Hl as [? _].
Qed.

Lemma reacted_reactor rs e u : reacted rs e u → u ∈ reactors rs.
Proof.
  intros (users & Hu & Hin)%reacted_users.
  unfold reactors. apply elem_of_remove_dups, list_elem_of_join.
  exists users. split; [done|].
  unfold reaction_users in Hu.
  destruct (list_find (λ r, r.1 = e) rs) as [[j [e' us]]|] eqn:Hf; [|done].
  simpl in Hu. simplify_eq.
  apply list_find_Some in Hf as (Hj & _ & _).
  apply list_elem_of_fmap. exists (e', users). split; [done|].
  by eapply list_elem_of_lookup_2.
Qed.
End reactions.

Section convergence.
Context (message_id : Z) (i : nat) (poll : Poll) (info : poll_info).
Implicit Types (w : world) (u : Z) (ev : reaction_event).

(** The reactions of the message once the platform has recorded an event
    on it. *)
Lemma apply_reaction_reactions ev w :
  event_message ev = message_id →
  let rs := message_reactions w message_id in
  let rs' := message_reactions (set_discord (apply_reaction ev (discord w)) w)
                               message_id in
  (NoDup (fst <$> rs) → NoDup (fst <$> rs'))
  ∧ (NoDup (fst <$> rs) →
     ∀ e u, u ≠ event_user ev → reacted rs' e u ↔ reacted rs e u).
Proof.
  intros Hm. unfold message_reactions, apply_reaction. simpl. rewrite Hm.
  rewrite lookup_alter_eq.
  destruct (messages (discord w) !! message_id) as [m|]; simpl; [|done].
  destruct ev as [m' a emoji|m' a emoji]; simpl.
  - split; [apply react_NoDup|]. intros _ e u Hne. by apply reacted_react.
  - split; [apply unreact_NoDup|]. intros Hnd e u Hne. by apply reacted_unreact.
Qed.

(** Handling one event on the tracked message keeps the poll consistent. *)
Lemma deliver_tracked ev w :
  event_message ev = message_id →
  poll_tracked message_id i poll info w →
  ∃ w', deliver ev w = (Returned tt, w')
        ∧ poll_tracked message_id i poll info w'
        ∧ members (discord w') = members (discord w).
Proof.
  intros Hm (Hav & Hq & Hap & Hone & Hnd & Hsync).
  destruct (apply_reaction_reactions ev w Hm) as [Hnd' Hsame].
  specialize (Hnd' Hnd). specialize (Hsame Hnd).
  set (wa := set_discord (apply_reaction ev (discord w)) w) in *.
  set (a := event_user ev) in *.
  assert (∀ u, u ≠ a →
               net_choice (pi_emojis info) (message_reactions wa message_id) u
               = net_choice (pi_emojis info) (message_reactions w message_id) u)
    as Hnet.
  { intros u Hne. apply net_choice_ext. intros e. by apply Hsame. }
  assert (members (discord wa) = members (discord w)) as Hmem by done.
  assert (deliver ev w
          = (if member_bot (members (discord w) a) then ret tt
             else remove_vote message_id a ;; update_poll_results message_id info) wa)
    as ->.
  { unfold deliver, on_reaction_add, on_reaction_remove. unfold bind at 1.
    unfold modify_discord, modify. fold wa.
    destruct ev as [m' a' emoji|m' a' emoji]; simpl in Hm; subst m' a;
      cbn [event_user] in *; unfold bind at 1, get at 1; rewrite Hmem;
      (destruct (member_bot (members (discord w) a')); [done|]);
      unfold bind at 1, get at 1;
      change (active_polls wa) with (active_polls w); by rewrite Hap. }
  destruct (member_bot (members (discord w) a)) eqn:Hbot.
  - exists wa. split; [done|]. split; [|done].
    repeat split; try done.
    intros u. rewrite Hmem. change (db wa) with (db w).
    destruct (decide (u = a)) as [->|Hne].
    + rewrite Hsync, Hbot. done.
    + rewrite Hsync, Hnet by done. done.
  - destruct (remove_vote_choice message_id i poll a wa Hav Hq Hone)
      as (w1 & Hrun1 & Hav1 & Hp1 & Hap1 & Hd1 & Hone1 & Hch1).
    assert (query_poll message_id (db w1) = Some (i, poll)) as Hq1
      by (unfold query_poll in *; by rewrite Hp1).
    destruct (update_poll_results_choice message_id i poll info w1 Hav1 Hq1)
      as (w' & Hrun' & (Hav' & Hp' & Hap' & Hmem' & Hrs') & Hone' & Hch').
    exists w'. split; [unfold bind; by rewrite Hrun1|].
    split; [|by rewrite Hmem', Hd1].
    assert (message_reactions w1 message_id = message_reactions wa message_id) as Hrs1
      by (unfold message_reactions; by rewrite Hd1).
    repeat split.
    + congruence.
    + unfold query_poll in *. by rewrite Hp'.
    + by rewrite Hap', Hap1.
    + by apply Hone'.
    + by rewrite Hrs', Hrs1.
    + intros u. rewrite Hch', Hch1, Hmem', Hrs', Hrs1, Hd1, Hmem.
      change (db wa) with (db w).
      destruct (decide (u = a)) as [->|Hne].
      * rewrite Hbot.
        by destruct (net_choice (pi_emojis info) (message_reactions wa message_id) a).
      * rewrite Hnet by done. rewrite Hsync.
        destruct (member_bot (members (discord w) u));
          by destruct (net_choice (pi_emojis info) (message_reactions w message_id) u).
Qed.

(** Any sequence of events on the tracked message keeps it consistent. *)
Lemma deliver_all_tracked (evs : list reaction_event) w :
  Forall (λ ev, event_message ev = message_id) evs →
  poll_tracked message_id i poll info w →
  ∃ w', for_each evs deliver w = (Returned tt, w')
        ∧ poll_tracked message_id i poll info w'
        ∧ members (discord w') = members (discord w).
Proof.
  intros Hevs. revert w. induction Hevs as [|ev evs Hev _ IH]; intros w Ht.
  - by exists w.
  - destruct (deliver_tracked ev w Hev Ht) as (w1 & Hrun1 & Ht1 & Hm1).
    destruct (IH w1 Ht1) as (w' & Hrun & Ht' & Hm').
    exists w'. split; [simpl; unfold bind; by rewrite Hrun1|].
    split; [done|congruence].
Qed.
End convergence.

Section tally.
Implicit Types (w : world) (u : Z) (vs : list Vote) (e emoji : string).

(** Grouping by emoji: each group lists, in row order, the display names
    of the rows with that emoji. *)
Lemma tally_group_fold vs (acc : gmap string (list string)) e :
  tally_group (foldl group_vote acc vs) e
  = tally_group acc e ++ (vote_display_name <$> filter (λ v, vote_emoji v = e) vs).
Proof.
  revert acc. induction vs as [|v vs IH]; intros acc; simpl.
  - by rewrite app_nil_r.
  - rewrite IH. unfold tally_group at 1, group_vote.
    destruct (decide (vote_emoji v = e)) as [He|He].
    + rewrite filter_cons_True by done. rewrite He, lookup_insert_eq. simpl.
      by rewrite <- app_assoc.
    + rewrite filter_cons_False by done. by rewrite lookup_insert_ne.
Qed.

Lemma NoDup_fmap_eq {A B} (f : A → B) (l : list A) x y :
  NoDup (f <$> l) → x ∈ l → y ∈ l → f x = f y → x = y.
Proof.
  induction l as [|z l IH]; [by intros _ ?%elem_of_nil|].
  rewrite fmap_cons, NoDup_cons, !elem_of_cons.
  intros [Hz Hnd] [->|Hx] [->|Hy] Hf; try done.
  - exfalso. apply Hz. rewrite Hf. apply list_elem_of_fmap. by exists y.
  - exfalso. apply Hz. rewrite <- Hf. apply list_elem_of_fmap. by exists x.
  - by apply IH.
Qed.

(** Where no voter has two rows, every row of a poll is its voter's stored
    vote. *)
Lemma stored_vote_row pid d v :
  one_vote_per_voter d → v ∈ votes d → vote_poll_id v = pid →
  stored_vote pid (vote_user_id v) d = Some v.
Proof.
  intros Hone Hv Hp. rewrite stored_vote_head.
  assert (v ∈ filter (λ v', vote_poll_id v' = pid ∧ vote_user_id v' = vote_user_id v)
                     (votes d)) as Hin by by apply list_elem_of_filter.
  destruct (filter _ (votes d)) as [|v' rest] eqn:Hf; [by apply elem_of_nil in Hin|].
  simpl. f_equal.
  assert (v' ∈ filter (λ v', vote_poll_id v' = pid ∧ vote_user_id v' = vote_user_id v)
                      (votes d)) as Hin' by (rewrite Hf; by left).
  apply list_elem_of_filter in Hin' as [[Hp' Hu'] Hv'].
  apply (NoDup_fmap_eq vote_key (votes d)); try done.
  unfold vote_key. by rewrite Hp, Hp', Hu'.
Qed.

Lemma stored_vote_Some pid u d v :
  stored_vote pid u d = Some v →
  v ∈ votes d ∧ vote_poll_id v = pid ∧ vote_user_id v = u.
Proof.
  unfold stored_vote. destruct (query_vote pid u d) as [[j v']|] eqn:Hq; [|done].
  simpl. intros [= ->]. apply query_vote_Some in Hq as [Hj Hk].
  unfold vote_key in Hk. simplify_eq.
  split; [by eapply list_elem_of_lookup_2|done].
Qed.

(** The rows of a consistent poll, grouped, against the net choices. *)
Lemma tracked_tally message_id i poll info w e :
  poll_tracked message_id i poll info w →
  vote_display_name <$> filter (λ v, vote_emoji v = e) (poll_votes (poll_id poll) (db w))
  ≡ₚ net_tally (discord w) (pi_emojis info) (message_reactions w message_id) e.
Proof.
  intros (Hav & Hq & Hap & Hone & Hnd & Hsync).
  set (pid := poll_id poll) in *.
  set (rs := message_reactions w message_id) in *.
  set (rows := filter (λ v, vote_emoji v = e) (poll_votes pid (db w))).
  assert (∀ v, v ∈ rows ↔ v ∈ votes (db w) ∧ vote_poll_id v = pid ∧ vote_emoji v = e)
    as Hrows.
  { intros v. unfold rows, poll_votes. rewrite !list_elem_of_filter. tauto. }
  assert (∀ v, v ∈ rows →
               member_bot (members (discord w) (vote_user_id v)) = false
               ∧ net_choice (pi_emojis info) rs (vote_user_id v) = Some e
               ∧ vote_display_name v
                 = member_display_name (members (discord w) (vote_user_id v)))
    as Hrow.
  { intros v (Hv & Hp & He)%Hrows.
    pose proof (Hsync (vote_user_id v)) as Hs.
    unfold stored_choice in Hs. rewrite (stored_vote_row pid _ v Hone Hv Hp) in Hs.
    simpl in Hs. destruct (member_bot (members (discord w) (vote_user_id v))); [done|].
    fold rs in Hs.
    destruct (net_choice (pi_emojis info) rs (vote_user_id v)) as [e'|]; [|done].
    simpl in Hs. by simplify_eq. }
  unfold net_tally.
  rewrite (list_fmap_ext vote_display_name
             ((λ u, member_display_name (members (discord w) u)) ∘ vote_user_id) rows)
    by (intros j v Hj; apply Hrow; by eapply list_elem_of_lookup_2).
  rewrite (list_fmap_compose vote_user_id
             (λ u, member_display_name (members (discord w) u)) rows).
  apply fmap_Permutation, NoDup_Permutation.
  - apply (NoDup_fmap_1 (λ u, (pid, u))). rewrite <- list_fmap_compose.
    rewrite (list_fmap_ext _ vote_key rows).
    + eapply sublist_NoDup; [exact Hone|]. apply fmap_sublist.
      unfold rows, poll_votes. etrans; apply sublist_filter.
    + intros j v Hj. simpl. unfold vote_key.
      apply list_elem_of_lookup_2, Hrows in Hj as (_ & <- & _). done.
  - apply NoDup_filter, NoDup_remove_dups.
  - intros u. rewrite list_elem_of_fmap, list_elem_of_filter. split.
    + intros (v & -> & Hv). destruct (Hrow v Hv) as (Hbot & Hnet & _).
      split; [done|]. eapply reacted_reactor, net_choice_reacted, Hnet.
    + intros [[Hbot Hnet] _].
      pose proof (Hsync u) as Hs. fold rs in Hs. rewrite Hbot, Hnet in Hs. simpl in Hs.
      unfold stored_choice in Hs.
      destruct (stored_vote pid u (db w)) as [v|] eqn:Hst; [|done].
      simpl in Hs. apply stored_vote_Some in Hst as (Hv & Hp & Hu).
      exists v. split; [done|]. apply Hrows. split_and!; try done. congruence.
Qed.

(** The grouping of net choices only depends on who has which emoji live. *)
Lemma net_tally_ext (p p' : platform) emojis rs rs' e :
  members p' = members p →
  (∀ e u, reacted rs' e u ↔ reacted rs e u) →
  net_tally p' emojis rs' e ≡ₚ net_tally p emojis rs e.
Proof.
  intros Hmem Hsame. unfold net_tally. rewrite Hmem.
  apply fmap_Permutation, NoDup_Permutation;
    try (apply NoDup_filter, NoDup_remove_dups).
  intros u. rewrite !list_elem_of_filter.
  rewrite (net_choice_ext emojis rs rs' u) by (intros e0; exact (Hsame e0 u)).
  split; intros [[Hbot Hnet] _]; (split; [done|]).
  - eapply reacted_reactor, net_choice_reacted, Hnet.
  - eapply reacted_reactor, Hsame, net_choice_reacted, Hnet.
Qed.
End tally.

Section fresh_poll.
Implicit Types (w : world).

Lemma reacted_entry rs e u :
  reacted rs e u → ∃ r, r ∈ rs ∧ u ∈ r.2.
Proof.
  intros (users & Hu & Hin)%reacted_users.
  unfold reaction_users in Hu.
  destruct (list_find (λ r, r.1 = e) rs) as [[j r]|] eqn:Hf; [|done].
  simpl in Hu. simplify_eq.
  apply list_find_Some in Hf as (Hj & _ & _).
  exists r. split; [by eapply list_elem_of_lookup_2|done].
Qed.

(** A poll nobody has voted on yet is consistent. *)
Lemma fresh_poll_tracked message_id i poll info w :
  available (db w) = true →
  query_poll message_id (db w) = Some (i, poll) →
  active_polls w !! message_id = Some info →
  one_vote_per_voter (db w) →
  poll_votes (poll_id poll) (db w) = [] →
  NoDup (fst <$> message_reactions w message_id) →
  Forall (λ r, Forall (λ u, member_bot (members (discord w) u) = true) r.2)
         (message_reactions w message_id) →
  poll_tracked message_id i poll info w.
Proof.
  intros Hav Hq Hap Hone Hno Hnd Hbots. repeat split; try done.
  intros u. unfold stored_choice.
  destruct (stored_vote (poll_id poll) u (db w)) as [v|] eqn:Hst.
  { apply stored_vote_Some in Hst as (Hv & Hp & _).
    assert (v ∈ poll_votes (poll_id poll) (db w)) as Hin
      by by apply list_elem_of_filter.
    rewrite Hno in Hin. by apply elem_of_nil in Hin. }
  simpl. destruct (member_bot (members (discord w) u)) eqn:Hbot; [done|].
  destruct (net_choice (pi_emojis info) (message_reactions w message_id) u)
    as [e|] eqn:Hnet; [|done].
  apply net_choice_reacted, reacted_entry in Hnet as (r & Hr & Hu).
  rewrite Forall_forall in Hbots. specialize (Hbots r Hr).
  rewrite Forall_forall in Hbots. rewrite (Hbots u Hu) in Hbot. done.
Qed.
End fresh_poll.



(** With two reactions live, the stored choice is the one the re-scan
    enumerates last, here the emoji Alice added first. *)
Remark two_live_reactions_last_enumerated :
  message_reactions (run (for_each sample_events_two_live deliver) sample_published) 100
  = [(first_emoji, [1; 10]); (default "" (poll_emojis !! 1%nat), [1]); (last_emoji, [10])]
  ∧ stored_choice 1 (db (run (for_each sample_events_two_live deliver) sample_published)) 10
    = Some (last_emoji, "Alice").
Proof. split; by vm_compute. Qed.

(** ** Emojis outside the poll's emoji list *)

Section preserves.
Context (I : world → Prop).

Lemma preserves_bind {A B} (m : M A) (k : A → M B) :
  preserves I m → (∀ a, preserves I (k a)) → preserves I (bind m k).
Proof.
  intros Hm Hk w Hw. specialize (Hm w Hw). unfold run, bind in *.
  destruct (m w) as [[a|e] w']; simpl in *; [by apply Hk|done].
Qed.

Lemma preserves_try {A} (body : M A) (h : exn → M A) :
  preserves I body → (∀ e, preserves I (h e)) → preserves I (try_except body h).
Proof.
  intros Hb Hh w Hw. specialize (Hb w Hw). unfold run, try_except in *.
  destruct (body w) as [[a|e] w']; simpl in *; [done|by apply Hh].
Qed.

Lemma preserves_pure {A} (m : M A) :
  (∀ w, (m w).2 = w) → preserves I m.
Proof. intros Hm w Hw. unfold run. by rewrite Hm. Qed.

Lemma preserves_for_each {A} (l : list A) (body : A → M unit) :
  (∀ x, x ∈ l → preserves I (body x)) → preserves I (for_each l body).
Proof.
  induction l as [|x l IH]; intros Hbody; [by apply preserves_pure|].
  simpl. apply preserves_bind.
  - apply Hbody. by left.
  - intros _. apply IH. intros y Hy. apply Hbody. by right.
Qed.

Lemma preserves_fold_enumerate {A B} (l : list A) (body : nat → A → B → M B) k acc :
  (∀ k x acc, preserves I (body k x acc)) →
  preserves I (fold_enumerate k l acc body).
Proof.
  intros Hbody. revert k acc.
  induction l as [|x l IH]; intros k acc; [by apply preserves_pure|].
  simpl. apply preserves_bind; [apply Hbody|]. intros acc'. apply IH.
Qed.
End preserves.

Section palette.
Context (message_id : Z) (poll : Poll) (info : poll_info)
        (emoji : string) (w0 : world).
Context (Hap0 : active_polls w0 !! message_id = Some info).
Context (Hoff : emoji ∉ pi_emojis info).

Lemma save_vote_frame user_id username display_name emoji' w :
  polls (db (run (save_vote message_id user_id username display_name emoji') w))
  = polls (db w)
  ∧ active_polls (run (save_vote message_id user_id username display_name emoji') w)
    = active_polls w.
Proof.
  unfold save_vote. unfold_M.
  destruct (available (db w)) eqn:Hav; simpl; [|done].
  destruct (query_poll message_id (db w)) as [[j p]|]; simpl; [|done].
  rewrite Hav.
  destruct (query_vote (poll_id p) user_id (db w)) as [[k ex]|];
    simpl; by rewrite Hav.
Qed.

Lemma remove_vote_frame user_id w :
  polls (db (run (remove_vote message_id user_id) w)) = polls (db w)
  ∧ active_polls (run (remove_vote message_id user_id) w) = active_polls w.
Proof.
  unfold remove_vote. unfold_M.
  destruct (available (db w)) eqn:Hav; simpl; [|done].
  destruct (query_poll message_id (db w)) as [[j p]|]; simpl; [|done].
  rewrite Hav.
  destruct (query_vote (poll_id p) user_id (db w)) as [[k ex]|]; simpl; [|done].
  by rewrite Hav.
Qed.

Lemma save_vote_unused user_id username display_name emoji' :
  emoji' ≠ emoji →
  preserves (emoji_unused (poll_id poll) emoji w0) (save_vote message_id user_id username display_name emoji').
Proof.
  intros Hne w (Hp & Hap & Hvs).
  destruct (save_vote_frame user_id username display_name emoji' w) as [Hp' Hap'].
  split; [congruence|]. split; [congruence|].
  destruct (save_vote_votes message_id user_id username display_name emoji' w)
    as [-> | [(j & p & k & ex & _ & _ & ->) | (j & p & _ & _ & ->)]].
  - done.
  - apply Forall_insert; [done|]. by intros _.
  - apply Forall_app. split; [done|]. apply Forall_singleton. by intros _.
Qed.

Lemma remove_vote_unused user_id :
  preserves (emoji_unused (poll_id poll) emoji w0) (remove_vote message_id user_id).
Proof.
  intros w (Hp & Hap & Hvs).
  destruct (remove_vote_frame user_id w) as [Hp' Hap'].
  split; [congruence|]. split; [congruence|].
  destruct (remove_vote_votes message_id user_id w)
    as [-> | (j & p & k & v & _ & _ & ->)]; [done|].
  by apply Forall_delete.
Qed.

Lemma get_poll_votes_unused : preserves (emoji_unused (poll_id poll) emoji w0) (get_poll_votes message_id).
Proof.
  intros w (Hp & Hap & Hvs).
  pose proof (get_poll_votes_db message_id w) as Hdb.
  assert (active_polls (run (get_poll_votes message_id) w) = active_polls w) as Hap'.
  { unfold get_poll_votes. unfold_M.
    destruct (available (db w)) eqn:Hav; simpl; [|done].
    destruct (query_poll message_id (db w)) as [[j p]|]; simpl; [|done].
    by rewrite Hav. }
  unfold emoji_unused. by rewrite Hdb, Hap'.
Qed.

Lemma message_edit_unused text : preserves (emoji_unused (poll_id poll) emoji w0) (message_edit message_id text).
Proof.
  intros w (Hp & Hap & Hvs).
  destruct (message_edit_setting message_id text w)
    as (o & w' & Heq & Hdb & (_ & _ & Hap' & _)).
  unfold run. rewrite Heq. simpl. unfold emoji_unused. by rewrite Hdb, Hap'.
Qed.

Lemma logger_unused l s : preserves (emoji_unused (poll_id poll) emoji w0) (logger l s).
Proof. by intros w Hw. Qed.

Lemma sync_reaction_unused emoji' users :
  emoji' ≠ emoji → preserves (emoji_unused (poll_id poll) emoji w0) (sync_reaction message_id emoji' users).
Proof.
  intros Hne. unfold sync_reaction. apply preserves_for_each. intros u _.
  apply preserves_bind; [by apply preserves_pure|]. intros user.
  destruct (member_bot user); [by apply preserves_pure|].
  by apply save_vote_unused.
Qed.

Lemma update_poll_results_unused :
  preserves (emoji_unused (poll_id poll) emoji w0) (update_poll_results message_id info).
Proof.
  unfold update_poll_results.
  apply preserves_try; [|intros e; apply logger_unused].
  apply preserves_bind; [apply get_poll_votes_unused|]. intros _.
  apply preserves_bind; [by apply preserves_pure|]. intros reactions.
  apply preserves_bind.
  { apply preserves_for_each. intros emoji' Hin.
    destruct (reaction_users reactions emoji') as [users|];
      [|by apply preserves_pure].
    apply sync_reaction_unused. by intros ->. }
  intros _. apply preserves_bind; [apply get_poll_votes_unused|]. intros tally.
  apply preserves_bind; [|intros text; apply message_edit_unused].
  apply preserves_fold_enumerate. intros k option acc.
  apply preserves_pure. intros w. unfold index, bind, ret, raise.
  by destruct (pi_emojis info !! k).
Qed.

Lemma handler_unused user_id :
  preserves (emoji_unused (poll_id poll) emoji w0) (on_reaction_add message_id user_id)
  ∧ preserves (emoji_unused (poll_id poll) emoji w0) (on_reaction_remove message_id user_id).
Proof.
  assert (preserves (emoji_unused (poll_id poll) emoji w0)
            (user <- get (λ w, members (discord w) user_id) ;;
             if member_bot user then ret tt
             else aps <- get active_polls ;;
                  match aps !! message_id with
                  | Some info =>
                      remove_vote message_id user_id ;;
                      update_poll_results message_id info
                  | None => ret tt
                  end)) as H; [|by split].
  apply preserves_bind; [by apply preserves_pure|]. intros user.
  destruct (member_bot user); [by apply preserves_pure|].
  intros w Hw. pose proof Hw as (_ & Hap & _).
  unfold run, bind at 1, get at 1. rewrite Hap, Hap0.
  apply (preserves_bind (emoji_unused (poll_id poll) emoji w0)); [apply remove_vote_unused| |done].
  intros _. apply update_poll_results_unused.
Qed.

Lemma deliver_unused ev :
  event_message ev = message_id → preserves (emoji_unused (poll_id poll) emoji w0) (deliver ev).
Proof.
  intros Hm. unfold deliver. apply preserves_bind.
  - by intros w Hw.
  - intros _. destruct ev as [m u e|m u e]; simpl in Hm; subst m;
      apply handler_unused.
Qed.
End palette.

Lemma tally_lookup_unused (vs : list Vote) (acc : gmap string (list string)) emoji :
  Forall (λ v, vote_emoji v ≠ emoji) vs →
  foldl group_vote acc vs !! emoji = acc !! emoji.
Proof.
  intros Hvs. revert acc. induction Hvs as [|v vs Hv _ IH]; intros acc; [done|].
  simpl. rewrite IH. unfold group_vote. by rewrite lookup_insert_ne.
Qed.

(** C7, as amended.  For a tracked poll, an emoji that is not in the emoji
    list registered for the poll in the active-poll index (the list the
    reconciliation enumerates: the whole seven-emoji palette, also when the
    poll offers fewer options) and that no vote row of the poll carries
    beforehand is never recorded by any sequence of reaction events on the
    poll's message: afterwards no vote row of the poll carries it and the
    tally [get_poll_votes] returns has no group for it. *)
Theorem off_palette_never_recorded (message_id : Z) (i : nat) (poll : Poll)
    (info : poll_info) (emoji : string) (evs : list reaction_event) (w0 : world) :
  query_poll message_id (db w0) = Some (i, poll) →
  active_polls w0 !! message_id = Some info →
  emoji ∉ pi_emojis info →
  Forall (λ v, vote_emoji v ≠ emoji) (poll_votes (poll_id poll) (db w0)) →
  Forall (λ ev, event_message ev = message_id) evs →
  let w := run (for_each evs deliver) w0 in
  Forall (λ v, vote_emoji v ≠ emoji) (poll_votes (poll_id poll) (db w))
  ∧ ∃ tally, result (get_poll_votes message_id) w = Returned tally
             ∧ tally !! emoji = None.
Proof.
  intros Hq Hap Hoff Hvs Hevs w.
  assert (emoji_unused (poll_id poll) emoji w0 w) as (Hp & _ & Hw).
  { apply preserves_for_each.
    - intros ev Hev. rewrite Forall_forall in Hevs.
      by apply (deliver_unused message_id poll info emoji w0 Hap Hoff), Hevs.
    - repeat split. apply Forall_forall. intros v Hv Hpid.
      rewrite Forall_forall in Hvs. apply Hvs. by apply list_elem_of_filter. }
  assert (Forall (λ v, vote_emoji v ≠ emoji) (poll_votes (poll_id poll) (db w)))
    as Hrows.
  { apply Forall_forall. intros v [Hpid Hv]%list_elem_of_filter.
    rewrite Forall_forall in Hw. by apply Hw. }
  split; [done|].
  unfold get_poll_votes, result. unfold_M.
  destruct (available (db w)) eqn:Hav; simpl; [|by eexists].
  unfold query_poll in *. rewrite Hp, Hq. simpl. rewrite Hav.
  eexists. split; [done|].
  rewrite (tally_lookup_unused _ _ _ Hrows). apply lookup_empty.
Qed.

Lemma off_palette_never_recorded_witness :
  query_poll 100 (db sample_published) = Some (0%nat, sample_poll)
  ∧ active_polls sample_published !! 100 = Some sample_poll_info
  ∧ (party_emoji ∉ pi_emojis sample_poll_info)
  ∧ vote_emoji <$> votes (db (run (for_each sample_events_off_palette deliver)
                                   sample_published)) = [first_emoji]
  ∧ Forall (λ v, vote_emoji v ≠ party_emoji)
           (poll_votes 1 (db (run (for_each sample_events_off_palette deliver)
                                  sample_published))).
Proof.
  assert (party_emoji ∉ pi_emojis sample_poll_info) as Hoff
    by by apply (bool_decide_unpack _); vm_compute.
  split_and!; [by vm_compute|by vm_compute|done|by vm_compute|].
  apply (off_palette_never_recorded 100 0 sample_poll sample_poll_info party_emoji
           sample_events_off_palette sample_published);
    first [ done | by vm_compute | by apply (bool_decide_unpack _); vm_compute ].
Defined.

(** C7, as the specification has it, fails: the emoji list a publish
    registers for a poll is the whole seven-emoji palette, also when the
    poll offers fewer options.  In the sample guild the poll offers two
    options, so the seventh emoji of the palette is not in its option
    snapshot; Alice's reaction with it is stored as her vote and has its
    group in the tally.  So the claim, read on the option snapshot, does not
    hold for every poll, emoji and sequence of events. *)
Lemma off_snapshot_emoji_recorded :
  query_poll 100 (db sample_published) = Some (0%nat, sample_poll)
  ∧ active_polls sample_published !! 100 = Some sample_poll_info
  ∧ length (pi_poll_options sample_poll_info) = 2%nat
  ∧ length (pi_emojis sample_poll_info) = 7%nat
  ∧ (last_emoji ∉ snapshot_emojis sample_poll_info)
  ∧ poll_votes 1 (db sample_published) = []
  ∧ poll_votes 1 (db (run (for_each [ReactionAdd 100 10 last_emoji] deliver)
                          sample_published))
    = [mkVote 1 1 10 "alice" "Alice" last_emoji 5000 5000]
  ∧ (∃ tally,
       result (get_poll_votes 100)
              (run (for_each [ReactionAdd 100 10 last_emoji] deliver) sample_published)
       = Returned tally
       ∧ tally !! last_emoji = Some ["Alice"])
  ∧ ¬ (∀ (message_id : Z) (i : nat) (poll : Poll) (info : poll_info) (emoji : string)
         (evs : list reaction_event) (w0 : world),
         query_poll message_id (db w0) = Some (i, poll) →
         active_polls w0 !! message_id = Some info →
         emoji ∉ snapshot_emojis info →
         Forall (λ v, vote_emoji v ≠ emoji) (poll_votes (poll_id poll) (db w0)) →
         Forall (λ ev, event_message ev = message_id) evs →
         Forall (λ v, vote_emoji v ≠ emoji)
                (poll_votes (poll_id poll) (db (run (for_each evs deliver) w0)))).
Proof.
  assert (last_emoji ∉ snapshot_emojis sample_poll_info) as Hoff
    by by apply (bool_decide_unpack _); vm_compute.
  assert (poll_votes 1 (db (run (for_each [ReactionAdd 100 10 last_emoji] deliver)
                                sample_published))
          = [mkVote 1 1 10 "alice" "Alice" last_emoji 5000 5000]) as Hrow
    by by vm_compute.
  assert (poll_votes 1 (db sample_published) = []) as Hnone by by vm_compute.
  split_and!; [by vm_compute..|done|done|done| |].
  - eexists. split; by vm_compute.
  - intros Hclaim.
    specialize (Hclaim 100 0%nat sample_poll sample_poll_info last_emoji
                       [ReactionAdd 100 10 last_emoji] sample_published).
    cbn [poll_id sample_poll] in Hclaim. rewrite Hrow in Hclaim.
    assert (Forall (λ v, vote_emoji v ≠ last_emoji)
                   [mkVote 1 1 10 "alice" "Alice" last_emoji 5000 5000]) as Hall.
    { apply Hclaim; [by vm_compute|by vm_compute|done| |].
      - rewrite Hnone. constructor.
      - by repeat constructor. }
    apply Forall_cons in Hall as [Hne _]. by apply Hne.
Qed.

(** ** Poll rows: creation and retention *)

Section filter_all.
Context {A : Type} (P : A → Prop) `{!∀ x, Decision (P x)}.

Lemma filter_all (l : list A) : Forall P l → filter P l = l.
Proof.
  induction 1 as [|x l Hx _ IH]; [done|]. by rewrite filter_cons_True, IH.
Qed.

Lemma filter_ext_in (Q : A → Prop) `{!∀ x, Decision (Q x)} (l : list A) :
  (∀ x, x ∈ l → P x ↔ Q x) → filter P l = filter Q l.
Proof.
  induction l as [|x l IH]; intros Hext; [done|].
  assert (filter P l = filter Q l) as IH'.
  { apply IH. intros y Hy. apply Hext. by right. }
  destruct (decide (P x)) as [Hx|Hx].
  - rewrite !filter_cons_True; [by rewrite IH'| |done]. apply Hext; [by left|done].
  - rewrite !filter_cons_False; [done| |done].
    intros HQ. apply Hx, Hext; [by left|done].
Qed.
End filter_all.

Section create_poll.
Implicit Types (w : world) (d : database) (ps : list Poll).

Lemma delete_polls_polls ps d :
  polls (foldl (λ d p, delete_poll p d) d ps)
  = filter (λ q, poll_id q ∉ poll_id <$> ps) (polls d).
Proof.
  revert d. induction ps as [|p ps IH]; intros d; simpl.
  - symmetry. apply filter_all, Forall_forall. intros q _. apply not_elem_of_nil.
  - rewrite IH. simpl. rewrite list_filter_filter. apply list_filter_iff.
    intros q. rewrite not_elem_of_cons. tauto.
Qed.

Lemma delete_polls_votes_rows ps d :
  votes (foldl (λ d p, delete_poll p d) d ps)
  = filter (λ v, vote_poll_id v ∉ poll_id <$> ps) (votes d).
Proof.
  revert d. induction ps as [|p ps IH]; intros d; simpl.
  - symmetry. apply filter_all, Forall_forall. intros q _. apply not_elem_of_nil.
  - rewrite IH. simpl. rewrite list_filter_filter. apply list_filter_iff.
    intros q. rewrite not_elem_of_cons. tauto.
Qed.

Lemma delete_polls_next_poll_id ps d :
  next_poll_id (foldl (λ d p, delete_poll p d) d ps) = next_poll_id d.
Proof.
  revert d. induction ps as [|p ps IH]; intros d; simpl; [done|]. by rewrite IH.
Qed.

Lemma delete_polls_servers ps d :
  server_configs (foldl (λ d p, delete_poll p d) d ps) = server_configs d
  ∧ poll_options (foldl (λ d p, delete_poll p d) d ps) = poll_options d.
Proof.
  revert d. induction ps as [|p ps IH]; intros d; simpl; [done|].
  destruct (IH (delete_poll p d)) as [-> ->]. done.
Qed.

(** The store a call leaves when the guild has a server row and the
    message has no poll row yet. *)
Lemma create_poll_created guild_id channel_id message_id date is_test w i server :
  available (db w) = true →
  query_server guild_id (db w) = Some (i, server) →
  query_poll message_id (db w) = None →
  let poll := mkPoll (next_poll_id (db w)) (sc_id server) guild_id channel_id
                     message_id date is_test (clock (discord w)) in
  let d1 := set_next_poll_id (next_poll_id (db w) + 1)
              (set_polls (polls (db w) ++ [poll]) (db w)) in
  create_poll guild_id channel_id message_id date is_test w
  = (Returned (next_poll_id (db w)),
     set_log (log w ++ [(INFO, "Created poll")])
       (set_db (foldl (λ d p, delete_poll p d) d1 (old_polls (sc_id server) d1)) w)).
Proof.
  intros Hav Hs Hq poll d1. unfold create_poll, create_poll_failed. unfold_M.
  repeat (simpl; rewrite ?Hav, ?Hs).
  rewrite decide_False by (rewrite Hq; by intros [? ?]).
  repeat (simpl; rewrite ?Hav).
  rewrite delete_polls_available. repeat (simpl; rewrite ?Hav). done.
Qed.
End create_poll.

Section retention_count.
Implicit Types (w : world) (d : database) (ps : list Poll) (p q r : Poll).

Lemma newer_trans r q p : newer r q → newer q p → newer r p.
Proof. unfold newer. lia. Qed.

Lemma newer_irrefl p : ¬ newer p p.
Proof. unfold newer. lia. Qed.

Lemma newer_total q p : poll_id q ≠ poll_id p → newer q p ∨ newer p q.
Proof. unfold newer. lia. Qed.

Lemma filter_length_lt {A} (P Q : A → Prop) `{!∀ x, Decision (P x)}
    `{!∀ x, Decision (Q x)} (l : list A) y :
  (∀ x, P x → Q x) → y ∈ l → Q y → ¬ P y →
  (length (filter P l) < length (filter Q l))%nat.
Proof.
  intros HPQ Hy HQ HP.
  assert (∀ l, length (filter P l) ≤ length (filter Q l))%nat as Hle.
  { clear Hy l. intros l. induction l as [|x l IH]; [done|].
    destruct (decide (P x)) as [Hx|Hx].
    - rewrite !filter_cons_True by auto. simpl. lia.
    - rewrite (filter_cons_False P) by done.
      destruct (decide (Q x)).
      + rewrite filter_cons_True by done. simpl. lia.
      + by rewrite filter_cons_False. }
  induction l as [|x l IH]; [by apply elem_of_nil in Hy|].
  apply elem_of_cons in Hy as [<-|Hy].
  - rewrite (filter_cons_False P), filter_cons_True by done. simpl.
    specialize (Hle l). lia.
  - specialize (IH Hy). destruct (decide (P x)) as [Hx|Hx].
    + rewrite !filter_cons_True by auto. simpl. lia.
    + rewrite (filter_cons_False P) by done.
      destruct (decide (Q x)).
      * rewrite filter_cons_True by done. simpl. lia.
      * by rewrite filter_cons_False.
Qed.

Lemma rank_lt sid ps q p :
  q ∈ ps → poll_server_config_id q = sid → newer q p →
  (rank sid ps q < rank sid ps p)%nat.
Proof.
  intros Hq Hs Hn. unfold rank. apply (filter_length_lt _ _ _ q); try done.
  - intros r [? ?]. split; [done|]. by eapply newer_trans.
  - intros [_ ?]. by eapply newer_irrefl.
Qed.

Lemma few_below (l : list nat) k :
  NoDup l → Forall (λ n, (n < k)%nat) l → (length l ≤ k)%nat.
Proof.
  intros Hnd Hlt. trans (length (seq 0 k)); [|by rewrite length_seq].
  apply submseteq_length, NoDup_submseteq; [done|].
  intros n Hn. rewrite Forall_forall in Hlt. apply elem_of_seq.
  specialize (Hlt n Hn). lia.
Qed.

(** Of rows with distinct ids, fewer than [k] newer ones leaves at most [k]. *)
Lemma newest_count sid ps k :
  NoDup (poll_id <$> ps) →
  (length (filter (λ p, poll_server_config_id p = sid ∧ (rank sid ps p < k)%nat) ps)
   ≤ k)%nat.
Proof.
  intros Hnd.
  set (K := filter _ ps).
  rewrite <- (length_fmap (rank sid ps)). apply few_below.
  - apply NoDup_fmap_2_strong.
    + intros p q [[Hsp _] Hp]%list_elem_of_filter [[Hsq _] Hq]%list_elem_of_filter Heq.
      destruct (decide (poll_id p = poll_id q)) as [Hid|Hid].
      { by eapply (NoDup_fmap_eq poll_id ps). }
      destruct (newer_total p q Hid) as [Hn|Hn].
      * pose proof (rank_lt sid ps p q Hp Hsp Hn). lia.
      * pose proof (rank_lt sid ps q p Hq Hsq Hn). lia.
    + apply NoDup_filter. by eapply NoDup_fmap_1.
  - apply Forall_forall. intros n (p & -> & [[_ Hr] _]%list_elem_of_filter)%list_elem_of_fmap.
    done.
Qed.

(** With distinct ids, deleting the old polls of a server leaves its
    polls with fewer than three newer ones, and the other servers' polls. *)
Lemma delete_old_polls sid d :
  NoDup (poll_id <$> polls d) →
  polls (foldl (λ d p, delete_poll p d) d (old_polls sid d))
  = filter (λ p, ¬ (poll_server_config_id p = sid ∧ (3 ≤ rank sid (polls d) p)%nat))
           (polls d).
Proof.
  intros Hnd. rewrite delete_polls_polls. apply filter_ext_in.
  intros p Hp. unfold old_polls. rewrite list_elem_of_fmap. split.
  - intros Hno [Hs Hr]. apply Hno. exists p. split; [done|].
    apply list_elem_of_filter. by split.
  - intros Hno (q & Hid & [[Hs Hr] Hq]%list_elem_of_filter).
    assert (p = q) as -> by by eapply (NoDup_fmap_eq poll_id (polls d)).
    by apply Hno.
Qed.

Lemma delete_old_polls_server sid d :
  NoDup (poll_id <$> polls d) →
  (length (server_polls sid (foldl (λ d p, delete_poll p d) d (old_polls sid d)))
   ≤ 3)%nat.
Proof.
  intros Hnd. unfold server_polls. rewrite (delete_old_polls _ _ Hnd).
  rewrite list_filter_filter. etrans; [|apply (newest_count sid (polls d) 3 Hnd)].
  apply Nat.eq_le_incl. f_equal. apply list_filter_iff. intros p. lia.
Qed.

Lemma delete_old_polls_others sid sid' d :
  sid' ≠ sid →
  NoDup (poll_id <$> polls d) →
  server_polls sid' (foldl (λ d p, delete_poll p d) d (old_polls sid d))
  = server_polls sid' d.
Proof.
  intros Hne Hnd. unfold server_polls. rewrite (delete_old_polls _ _ Hnd).
  rewrite list_filter_filter. apply list_filter_iff. intros p. split; [tauto|].
  intros Hs. split; [done|]. intros [? _]. congruence.
Qed.
End retention_count.

Section create_poll_keys.
Implicit Types (w : world) (d : database) (ps : list Poll) (p q : Poll).

Lemma fresh_id_new d p :
  poll_ids_fresh d → poll_id p = next_poll_id d →
  NoDup (poll_id <$> (polls d ++ [p])).
Proof.
  intros [Hnd Hlt] Hid. rewrite fmap_app. apply NoDup_app. split_and!; [done| |].
  - intros x (q & -> & Hq)%list_elem_of_fmap [Hx|[]%elem_of_nil]%elem_of_cons.
    rewrite Forall_forall in Hlt. specialize (Hlt q Hq). lia.
  - apply NoDup_singleton.
Qed.

Lemma query_poll_row message_id d i p :
  query_poll message_id d = Some (i, p) → p ∈ polls d ∧ poll_message_id p = message_id.
Proof.
  unfold query_poll. intros (Hi & Hm & _)%list_find_Some.
  split; [by eapply list_elem_of_lookup_2|done].
Qed.
End create_poll_keys.

(** [create_poll] turns a call down in two ways, and neither leaves
    anything behind: for a guild without a server row it raises
    [ValueError]; for a message that already has a poll row ([message_id]
    is unique) the commit fails and the staged row is rolled back. *)
Theorem create_poll_rejected (guild_id channel_id message_id : Z) (date : string)
    (is_test : bool) (w : world) :
  available (db w) = true →
  query_server guild_id (db w) = None ∨ is_Some (query_poll message_id (db w)) →
  let w' := run (create_poll guild_id channel_id message_id date is_test) w in
  result (create_poll guild_id channel_id message_id date is_test) w
  = Raised (match query_server guild_id (db w) with
            | None => ValueError
            | Some _ => SQLAlchemyError
            end)
  ∧ db w' = db w
  ∧ log w' = log w ++ [(ERROR, "Failed to create poll")].
Proof.
  intros Hav Hno. unfold create_poll, create_poll_failed. unfold_M.
  repeat (simpl; rewrite ?Hav).
  destruct (query_server guild_id (db w)) as [[i server]|] eqn:Hs; simpl.
  - destruct Hno as [?|Hdup]; [done|]. rewrite decide_True by done. simpl.
    by destruct (db w).
  - by destruct (db w).
Qed.

Lemma create_poll_rejected_witness :
  result (create_poll 7 70 100 "Monday" false) sample_published = Raised SQLAlchemyError
  ∧ result (create_poll 8 80 200 "Monday" false) sample_published = Raised ValueError
  ∧ db (run (create_poll 7 70 100 "Monday" false) sample_published)
    = db sample_published.
Proof.
  destruct (create_poll_rejected 7 70 100 "Monday" false sample_published)
    as (H1 & H2 & _); [by vm_compute|right; vm_compute; by eexists|].
  destruct (create_poll_rejected 8 80 200 "Monday" false sample_published)
    as (H3 & _); [by vm_compute|left; by vm_compute|].
  split_and!; [exact H1|exact H3|exact H2].
Defined.

(** A poll row that goes in leaves the guild's server with at most three
    poll rows; the polls of other servers stay, and a vote row stays
    exactly when its poll does (the deletion of a poll cascades to its
    votes). *)
Theorem create_poll_keeps_three (guild_id channel_id message_id : Z) (date : string)
    (is_test : bool) (w : world) (i : nat) (server : ServerConfig) :
  available (db w) = true →
  query_server guild_id (db w) = Some (i, server) →
  query_poll message_id (db w) = None →
  poll_ids_fresh (db w) →
  votes_have_polls (db w) →
  let w' := run (create_poll guild_id channel_id message_id date is_test) w in
  (length (server_polls (sc_id server) (db w')) ≤ 3)%nat
  ∧ (∀ sid, sid ≠ sc_id server → server_polls sid (db w') = server_polls sid (db w))
  ∧ votes (db w')
    = filter (λ v, vote_poll_id v ∈ poll_id <$> polls (db w')) (votes (db w)).
Proof.
  intros Hav Hs Hq Hfresh Hfk w'. subst w'. unfold run.
  rewrite (create_poll_created _ _ _ _ _ _ _ _ Hav Hs Hq). simpl.
  set (poll := mkPoll _ _ _ _ _ _ _ _).
  set (d1 := set_next_poll_id _ _).
  assert (NoDup (poll_id <$> polls d1)) as Hnd by by apply fresh_id_new.
  split_and!.
  - by apply delete_old_polls_server.
  - intros sid Hne. rewrite delete_old_polls_others by done.
    unfold server_polls, d1. simpl. rewrite filter_app, filter_cons_False by done.
    by rewrite filter_nil, app_nil_r.
  - rewrite delete_polls_votes_rows, delete_polls_polls. simpl.
    apply filter_ext_in. intros v Hv.
    unfold votes_have_polls in Hfk.
    rewrite Forall_forall in Hfk. specialize (Hfk v Hv).
    apply list_elem_of_fmap in Hfk as (q & Hid & Hin).
    rewrite !list_elem_of_fmap. split.
    + intros Hno. exists q. split; [done|]. apply list_elem_of_filter. split.
      * rewrite list_elem_of_fmap. by rewrite <- Hid.
      * apply elem_of_app. by left.
    + intros (q' & Hid' & [Hno _]%list_elem_of_filter) Hold.
      apply Hno. rewrite list_elem_of_fmap. by rewrite <- Hid'.
Qed.

Lemma create_poll_keeps_three_witness :
  length (server_polls 1 (db sample_more_polls)) = 3%nat
  ∧ (length (server_polls 1 (db (run (create_poll 7 70 103 "Thursday" false)
                                      sample_more_polls))) ≤ 3)%nat.
Proof.
  split; [by vm_compute|].
  destruct (create_poll_keeps_three 7 70 103 "Thursday" false sample_more_polls 0%nat
              (mkServerConfig 1 7 true (Some 70) 8 0 "UTC" 0 0)) as (H & _);
    [by vm_compute..| | |exact H].
  - by apply (bool_decide_unpack _); vm_compute.
  - by apply (bool_decide_unpack _); vm_compute.
Defined.

Section new_row.
Implicit Types (w : world) (d : database) (p : Poll).

(** The only row with a message id is the one [.first()] finds. *)
Lemma query_poll_only message_id d p :
  p ∈ polls d →
  poll_message_id p = message_id →
  (∀ q, q ∈ polls d → poll_message_id q = message_id → q = p) →
  ∃ k, query_poll message_id d = Some (k, p).
Proof.
  intros Hin Hm Honly.
  destruct (list_find_elem_of (λ p, poll_message_id p = message_id) _ p Hin Hm)
    as [[k y] Hfind].
  exists k. unfold query_poll. rewrite Hfind. do 2 f_equal.
  apply list_find_Some in Hfind as (Hk & Hy & _).
  apply Honly; [by eapply list_elem_of_lookup_2|done].
Qed.

(** The row a successful [create_poll] adds survives the retention step of
    the same call when it is the newest of its server; it is the only row of
    its message, and it has no votes. *)
Lemma create_poll_new_row guild_id channel_id message_id date is_test w i server :
  available (db w) = true →
  query_server guild_id (db w) = Some (i, server) →
  query_poll message_id (db w) = None →
  poll_ids_fresh (db w) →
  votes_have_polls (db w) →
  polls_not_ahead (clock (discord w)) (db w) →
  let d' := db (run (create_poll guild_id channel_id message_id date is_test) w) in
  let poll := mkPoll (next_poll_id (db w)) (sc_id server) guild_id channel_id
                     message_id date is_test (clock (discord w)) in
  poll ∈ polls d'
  ∧ (∀ q, q ∈ polls d' → poll_message_id q = message_id → q = poll)
  ∧ poll_votes (poll_id poll) d' = [].
Proof.
  intros Hav Hs Hq Hfresh Hfk Hclock d' poll. subst d'. unfold run.
  rewrite (create_poll_created _ _ _ _ _ _ _ _ Hav Hs Hq). simpl. fold poll.
  set (d1 := set_next_poll_id _ _).
  assert (NoDup (poll_id <$> polls d1)) as Hnd by by apply fresh_id_new.
  destruct Hfresh as [_ Hlt]. rewrite Forall_forall in Hlt.
  unfold polls_not_ahead in Hclock. rewrite Forall_forall in Hclock.
  split_and!.
  - rewrite delete_old_polls by done. apply list_elem_of_filter. split.
    + intros [_ Hr]. unfold rank in Hr. rewrite filter_none in Hr; [simpl in Hr; lia|].
      apply Forall_forall. intros q Hq' [_ Hn]. unfold newer in Hn. simpl in Hn.
      apply elem_of_app in Hq' as [Hq'|Hq'%list_elem_of_singleton].
      * specialize (Hlt q Hq'). specialize (Hclock q Hq'). lia.
      * subst q. simpl in Hn. lia.
    + simpl. apply elem_of_app. right. by left.
  - intros q Hin Hm. rewrite delete_polls_polls in Hin.
    apply list_elem_of_filter in Hin as [_ Hin]. simpl in Hin.
    apply elem_of_app in Hin as [Hin|Hin%list_elem_of_singleton]; [|done].
    unfold query_poll in Hq. apply list_find_None in Hq.
    rewrite Forall_forall in Hq. by destruct (Hq q Hin).
  - unfold poll_votes. apply filter_none, Forall_forall. intros v Hv Hid.
    rewrite delete_polls_votes_rows in Hv. apply list_elem_of_filter in Hv as [_ Hv].
    simpl in Hv. unfold votes_have_polls in Hfk. rewrite Forall_forall in Hfk.
    apply Hfk, list_elem_of_fmap in Hv as (q & Hvq & Hq').
    specialize (Hlt q Hq'). simpl in Hid. lia.
Qed.
End new_row.

(** A poll row that goes in is found again under its message, with no
    votes yet, when the rows already stored have ids below the serial
    counter and none of them is dated ahead of the clock: the new row is
    then the newest of its server and the retention step keeps it. *)
Theorem create_poll_registered (guild_id channel_id message_id : Z) (date : string)
    (is_test : bool) (w : world) (i : nat) (server : ServerConfig) :
  available (db w) = true →
  query_server guild_id (db w) = Some (i, server) →
  query_poll message_id (db w) = None →
  poll_ids_fresh (db w) →
  votes_have_polls (db w) →
  polls_not_ahead (clock (discord w)) (db w) →
  let w' := run (create_poll guild_id channel_id message_id date is_test) w in
  let poll := mkPoll (next_poll_id (db w)) (sc_id server) guild_id channel_id
                     message_id date is_test (clock (discord w)) in
  result (create_poll guild_id channel_id message_id date is_test) w
  = Returned (poll_id poll)
  ∧ (∃ k, query_poll message_id (db w') = Some (k, poll))
  ∧ poll_votes (poll_id poll) (db w') = []
  ∧ next_poll_id (db w') = next_poll_id (db w) + 1.
Proof.
  intros Hav Hs Hq Hfresh Hfk Hclock w' poll.
  destruct (create_poll_new_row guild_id channel_id message_id date is_test w i server
              Hav Hs Hq Hfresh Hfk Hclock) as (Hin & Honly & Hno).
  split_and!.
  - unfold result. by rewrite (create_poll_created _ _ _ _ _ _ _ _ Hav Hs Hq).
  - by apply query_poll_only.
  - exact Hno.
  - subst w'. unfold run. rewrite (create_poll_created _ _ _ _ _ _ _ _ Hav Hs Hq).
    simpl. by rewrite delete_polls_next_poll_id.
Qed.

Lemma create_poll_registered_witness :
  poll_ids_fresh (db sample_more_polls)
  ∧ polls_not_ahead 5003 (db sample_more_polls)
  ∧ ∃ k, query_poll 103 (db (run (create_poll 7 70 103 "Thursday" true)
                                  sample_more_polls))
         = Some (k, mkPoll 4 1 7 70 103 "Thursday" true 5003).
Proof.
  assert (poll_ids_fresh (db sample_more_polls)) as Hf
    by by apply (bool_decide_unpack _); vm_compute.
  assert (polls_not_ahead (clock (discord sample_more_polls)) (db sample_more_polls))
    as Hc by by apply (bool_decide_unpack _); vm_compute.
  split_and!; [exact Hf|exact Hc|].
  destruct (create_poll_registered 7 70 103 "Thursday" true sample_more_polls 0%nat
              (mkServerConfig 1 7 true (Some 70) 8 0 "UTC" 0 0)) as (_ & H & _);
    [by vm_compute..|exact Hf| |exact Hc|exact H].
  by apply (bool_decide_unpack _); vm_compute.
Defined.

Section keys.
Implicit Types (w : world) (d : database).

Lemma save_server_config_polls guild_id cfg w :
  polls (db (run (save_server_config guild_id cfg) w)) = polls (db w)
  ∧ next_poll_id (db (run (save_server_config guild_id cfg) w)) = next_poll_id (db w).
Proof.
  unfold save_server_config. unfold_M.
  destruct (available (db w)) eqn:Hav; simpl; [|done].
  destruct (query_server guild_id (db w)) as [[i server]|];
    destruct (cfg_poll_options cfg); repeat (simpl; rewrite ?Hav); done.
Qed.

Lemma save_vote_polls message_id user_id username display_name emoji w :
  polls (db (run (save_vote message_id user_id username display_name emoji) w))
  = polls (db w)
  ∧ next_poll_id (db (run (save_vote message_id user_id username display_name emoji) w))
    = next_poll_id (db w).
Proof.
  unfold save_vote. unfold_M.
  destruct (available (db w)) eqn:Hav; simpl; [|done].
  destruct (query_poll message_id (db w)) as [[i poll]|]; simpl; [|done].
  rewrite Hav.
  destruct (query_vote (poll_id poll) user_id (db w)) as [[j existing]|];
    simpl; rewrite Hav; done.
Qed.

Lemma remove_vote_polls message_id user_id w :
  polls (db (run (remove_vote message_id user_id) w)) = polls (db w)
  ∧ next_poll_id (db (run (remove_vote message_id user_id) w)) = next_poll_id (db w).
Proof.
  unfold remove_vote. unfold_M.
  destruct (available (db w)) eqn:Hav; simpl; [|done].
  destruct (query_poll message_id (db w)) as [[i poll]|]; simpl; [|done].
  rewrite Hav.
  destruct (query_vote (poll_id poll) user_id (db w)) as [[j v]|]; simpl; [|done].
  by rewrite Hav.
Qed.

(** What [create_poll] leaves in the store: what was there, or the new
    row and the retention step's deletions. *)
Lemma create_poll_db guild_id channel_id message_id date is_test w :
  db (run (create_poll guild_id channel_id message_id date is_test) w) = db w
  ∨ ∃ sid p,
      poll_id p = next_poll_id (db w)
      ∧ let d1 := set_next_poll_id (next_poll_id (db w) + 1)
                    (set_polls (polls (db w) ++ [p]) (db w)) in
        db (run (create_poll guild_id channel_id message_id date is_test) w)
        = foldl (λ d p, delete_poll p d) d1 (old_polls sid d1).
Proof.
  destruct (available (db w)) eqn:Hav.
  2: { left. unfold create_poll, create_poll_failed. unfold_M. rewrite Hav. simpl.
       by destruct (db w). }
  destruct (query_server guild_id (db w)) as [[i server]|] eqn:Hs.
  2: { left. unfold create_poll, create_poll_failed. unfold_M. rewrite Hav. simpl.
       rewrite Hs. simpl. by destruct (db w). }
  destruct (query_poll message_id (db w)) as [[k p]|] eqn:Hq.
  { left. unfold create_poll, create_poll_failed. unfold_M. rewrite Hav. simpl.
    rewrite Hs. simpl. rewrite decide_True by (rewrite Hq; by eexists). simpl.
    by destruct (db w). }
  right. unfold run. rewrite (create_poll_created _ _ _ _ _ _ _ _ Hav Hs Hq).
  eexists _, _. split; [|done]. done.
Qed.

Lemma delete_polls_keys ps d :
  poll_ids_fresh d → votes_have_polls d →
  poll_ids_fresh (foldl (λ d p, delete_poll p d) d ps)
  ∧ votes_have_polls (foldl (λ d p, delete_poll p d) d ps).
Proof.
  intros [Hnd Hlt] Hfk. unfold poll_ids_fresh, votes_have_polls.
  rewrite delete_polls_polls, delete_polls_votes_rows, delete_polls_next_poll_id.
  split_and!.
  - eapply sublist_NoDup; [done|]. apply fmap_sublist, sublist_filter.
  - apply Forall_forall. intros p [_ Hp]%list_elem_of_filter.
    rewrite Forall_forall in Hlt. by apply Hlt.
  - apply Forall_forall. intros v [Hno Hv]%list_elem_of_filter.
    unfold votes_have_polls in Hfk. rewrite Forall_forall in Hfk.
    apply Hfk, list_elem_of_fmap in Hv as (q & Hid & Hq).
    apply list_elem_of_fmap. exists q. split; [done|].
    apply list_elem_of_filter. split; [|done]. by rewrite <- Hid.
Qed.

Lemma perform_keys c w :
  poll_ids_fresh (db w) → votes_have_polls (db w) →
  poll_ids_fresh (db (run (perform c) w)) ∧ votes_have_polls (db (run (perform c) w)).
Proof.
  intros Hfresh Hfk. destruct c as [g cfg|g ch m date t|m u n dn e|m u|m|up|now];
    simpl; rewrite ?swallow_run.
  - unfold poll_ids_fresh, votes_have_polls.
    destruct (save_server_config_polls g cfg w) as [-> ->].
    by rewrite save_server_config_votes.
  - destruct (create_poll_db g ch m date t w) as [->|(sid & p & Hid & ->)]; [done|].
    apply delete_polls_keys.
    + split; [by apply fresh_id_new|]. simpl. destruct Hfresh as [_ Hlt].
      apply Forall_app. split.
      * eapply Forall_impl; [done|]. simpl. lia.
      * apply Forall_singleton. lia.
    + unfold votes_have_polls in *. simpl. eapply Forall_impl; [done|].
      simpl. intros v Hv. rewrite fmap_app. apply elem_of_app. by left.
  - unfold poll_ids_fresh, votes_have_polls.
    destruct (save_vote_polls m u n dn e w) as [-> ->]. split; [done|].
    unfold votes_have_polls in Hfk.
    destruct (save_vote_votes m u n dn e w)
      as [-> | [(i & poll & j & ex & _ & Hv & ->) | (i & poll & Hq & _ & ->)]].
    + done.
    + apply Forall_insert; [done|]. simpl.
      apply query_vote_Some in Hv as [Hj _].
      rewrite Forall_forall in Hfk. apply Hfk. by eapply list_elem_of_lookup_2.
    + apply Forall_app. split; [done|]. apply Forall_singleton. simpl.
      apply query_poll_row in Hq as [Hin _].
      apply list_elem_of_fmap. by exists poll.
  - unfold poll_ids_fresh, votes_have_polls.
    destruct (remove_vote_polls m u w) as [-> ->]. split; [done|].
    destruct (remove_vote_votes m u w) as [-> | (i & poll & j & v & _ & _ & ->)];
      [done|].
    by apply Forall_delete.
  - by rewrite get_poll_votes_db.
  - done.
  - done.
Qed.
End keys.

(** The keys of the store hold after any sequence of calls into it: poll
    ids stay distinct and below the serial counter, and every vote row
    belongs to a poll row that is still there. *)
Theorem store_calls_keep_keys (calls : list store_call) (w0 : world) :
  poll_ids_fresh (db w0) →
  votes_have_polls (db w0) →
  let w := run (for_each calls perform) w0 in
  poll_ids_fresh (db w) ∧ votes_have_polls (db w).
Proof.
  revert w0. induction calls as [|c calls IH]; intros w0 Hfresh Hfk; [done|].
  simpl. unfold run, bind.
  pose proof (perform_returns c w0) as Hr.
  pose proof (perform_keys c w0 Hfresh Hfk) as [Hf1 Hk1].
  unfold result, run in Hr, Hf1, Hk1.
  destruct (perform c w0) as [[[]|e] w']; [|done].
  by apply IH.
Qed.

Lemma store_calls_keep_keys_witness :
  votes_have_polls (db sample_voted)
  ∧ votes_have_polls
      (db (run (for_each [CreatePoll 7 70 101 "Tuesday" false;
                          CreatePoll 7 70 102 "Wednesday" false;
                          SaveVote 102 10 "alice" "Alice" first_emoji;
                          CreatePoll 7 70 103 "Thursday" false;
                          RemoveVote 100 11] perform) sample_voted)).
Proof.
  assert (votes_have_polls (db sample_voted)) as Hk
    by by apply (bool_decide_unpack _); vm_compute.
  split; [exact Hk|].
  eapply store_calls_keep_keys; [|exact Hk].
  by apply (bool_decide_unpack _); vm_compute.
Defined.

(** ** Vote rows: reading, saving twice, saving and removing *)

Section votes.
Implicit Types (w : world) (d : database) (vs : list Vote).

Lemma list_find_insert_found {A} (P : A → Prop) `{!∀ x, Decision (P x)}
    (l : list A) j x y :
  list_find P l = Some (j, x) → P y → list_find P (<[j := y]> l) = Some (j, y).
Proof.
  intros (Hj & _ & Hbefore)%list_find_Some Hy. apply list_find_Some. split_and!.
  - rewrite list_lookup_insert_eq; [done|]. by eapply lookup_lt_Some.
  - done.
  - intros k z Hk Hlt. rewrite list_lookup_insert_ne in Hk by lia. by eapply Hbefore.
Qed.

Lemma list_find_app_new {A} (P : A → Prop) `{!∀ x, Decision (P x)} (l : list A) y :
  list_find P l = None → P y → list_find P (l ++ [y]) = Some (length l, y).
Proof.
  intros Hnone Hy. rewrite list_find_app_r by done. cbn [list_find].
  by rewrite decide_True.
Qed.

Lemma remove_vote_found message_id user_id w i poll j v :
  available (db w) = true →
  query_poll message_id (db w) = Some (i, poll) →
  query_vote (poll_id poll) user_id (db w) = Some (j, v) →
  remove_vote message_id user_id w
  = (Returned tt,
     set_log (log w ++ [(DEBUG, "Removed vote")])
       (set_db (set_votes (delete j (votes (db w))) (db w)) w)).
Proof.
  intros Hav Hq Hv. unfold remove_vote. unfold_M.
  repeat (simpl; rewrite ?Hav, ?Hq, ?Hv). done.
Qed.

Lemma foldl_group_vote_nonempty vs (acc : gmap string (list string)) :
  (∀ e, acc !! e ≠ Some []) → ∀ e, foldl group_vote acc vs !! e ≠ Some [].
Proof.
  revert acc. induction vs as [|v vs IH]; intros acc Hacc; [done|].
  simpl. apply IH. intros e. unfold group_vote.
  destruct (decide (vote_emoji v = e)) as [<-|Hne].
  - rewrite lookup_insert_eq. intros [= Heq]. by apply app_nil in Heq as [_ ?].
  - by rewrite lookup_insert_ne.
Qed.
End votes.

(** [get_poll_votes] never raises and never changes what is stored.  When
    the store fails or the message has no poll row, the tally is empty.
    Otherwise the group of an emoji lists, in row order, the display names
    of the poll's vote rows with that emoji, and an emoji nobody chose has
    no key at all. *)
Theorem get_poll_votes_total (message_id : Z) (w : world) :
  ∃ tally,
    result (get_poll_votes message_id) w = Returned tally
    ∧ db (run (get_poll_votes message_id) w) = db w
    ∧ (available (db w) = false ∨ query_poll message_id (db w) = None → tally = ∅)
    ∧ (∀ emoji, tally !! emoji ≠ Some [])
    ∧ (∀ i poll,
         available (db w) = true →
         query_poll message_id (db w) = Some (i, poll) →
         ∀ emoji,
           tally_group tally emoji
           = vote_display_name
               <$> filter (λ v, vote_emoji v = emoji) (poll_votes (poll_id poll) (db w))).
Proof.
  unfold get_poll_votes. unfold_M.
  destruct (available (db w)) eqn:Hav; simpl.
  2: { exists ∅. split_and!; try done. }
  destruct (query_poll message_id (db w)) as [[i poll]|] eqn:Hq; simpl.
  2: { exists ∅. split_and!; try done. }
  rewrite Hav. simpl. eexists. split_and!; try done.
  - by intros [?|?].
  - by apply foldl_group_vote_nonempty.
  - intros i' poll' _ [= <- <-] emoji. rewrite tally_group_fold.
    unfold tally_group. by rewrite lookup_empty.
Qed.

(** Saving the same vote a second time, at whatever moment [now] the
    second call comes, adds no row and changes one field at most.  When the
    first call stored nothing (store down, or no poll for the message), the
    second stores nothing either.  Otherwise the first call leaves the
    voter's row with the given emoji and display name, and the second call
    overwrites that row with itself except for [updated_at], which becomes
    [now]; every other row and table is as the first call left it.  A
    second call at the very moment of the first changes nothing at all. *)
Theorem save_vote_again (message_id user_id : Z)
    (username display_name emoji : string) (now : Z) (w : world) :
  let save := save_vote message_id user_id username display_name emoji in
  let w1 := run save w in
  let w2 := run save (run (perform (Tick now)) w1) in
  (available (db w) = false ∨ query_poll message_id (db w) = None →
   db w1 = db w ∧ db w2 = db w)
  ∧ (∀ i poll,
       available (db w) = true →
       query_poll message_id (db w) = Some (i, poll) →
       ∃ j v, query_vote (poll_id poll) user_id (db w1) = Some (j, v)
              ∧ vote_display_name v = display_name
              ∧ vote_emoji v = emoji
              ∧ db w2
                = set_votes
                    (<[j := mkVote (vote_id v) (vote_poll_id v) (vote_user_id v)
                                   (vote_username v) display_name emoji
                                   (vote_voted_at v) now]>
                       (votes (db w1)))
                    (db w1))
  ∧ length (votes (db w2)) = length (votes (db w1))
  ∧ (now = clock (discord w) → db w2 = db w1).
Proof.
  cbv zeta.
  assert (∀ w1, run (perform (Tick now)) w1
                = set_discord (set_clock now (discord w1)) w1) as Htick by done.
  rewrite Htick.
  destruct (available (db w)) eqn:Hav.
  2: { unfold save_vote. unfold_M. rewrite Hav. simpl. rewrite Hav.
       split_and!; try done. }
  destruct (query_poll message_id (db w)) as [[i poll]|] eqn:Hq.
  2: { unfold save_vote. unfold_M. rewrite Hav. simpl. rewrite Hq. simpl.
       rewrite ?Hav. simpl. rewrite ?Hq. simpl. rewrite ?Hav. simpl.
       split_and!; try done. }
  assert (∃ j v,
            query_vote (poll_id poll) user_id
              (db (run (save_vote message_id user_id username display_name emoji) w))
            = Some (j, v)
            ∧ vote_display_name v = display_name
            ∧ vote_emoji v = emoji
            ∧ (clock (discord w) = now → vote_updated_at v = now)
            ∧ available
                (db (run (save_vote message_id user_id username display_name emoji) w))
              = true
            ∧ query_poll message_id
                (db (run (save_vote message_id user_id username display_name emoji) w))
              = Some (i, poll)) as (j & v & Hv1 & Hname & Hemoji & Hat & Hav1 & Hq1).
  { destruct (query_vote (poll_id poll) user_id (db w)) as [[j existing]|] eqn:Hv.
    - unfold run. rewrite (save_vote_update _ _ _ _ _ _ _ _ _ _ Hav Hq Hv). simpl.
      exists j, (updated_vote existing display_name emoji (clock (discord w))).
      split_and!; [|done..].
      unfold query_vote in *. simpl.
      apply (list_find_insert_found _ _ _ existing); [done|].
      simpl. by apply list_find_Some in Hv as (_ & Hk & _).
    - unfold run. rewrite (save_vote_insert _ _ _ _ _ _ _ _ Hav Hq Hv). simpl.
      exists (length (votes (db w))),
             (mkVote (next_vote_id (db w)) (poll_id poll) user_id username display_name
                     emoji (clock (discord w)) (clock (discord w))).
      split_and!; [|done..].
      unfold query_vote in *. simpl. by apply list_find_app_new. }
  set (w1 := run (save_vote message_id user_id username display_name emoji) w) in *.
  clearbody w1.
  assert (db (run (save_vote message_id user_id username display_name emoji)
                  (set_discord (set_clock now (discord w1)) w1))
          = set_votes
              (<[j := mkVote (vote_id v) (vote_poll_id v) (vote_user_id v)
                             (vote_username v) display_name emoji
                             (vote_voted_at v) now]>
                 (votes (db w1)))
              (db w1)) as Hw2.
  { unfold run.
    by rewrite (save_vote_update _ _ _ _ _ (set_discord (set_clock now (discord w1)) w1)
                  i poll j v Hav1 Hq1 Hv1). }
  rewrite Hw2. clear Hw2.
  split_and!.
  - by intros [?|?].
  - intros i' poll' _ [= <- <-]. by exists j, v.
  - simpl. by rewrite length_insert.
  - intros ->. specialize (Hat eq_refl).
    rewrite list_insert_id; [by destruct (db w1)|].
    apply query_vote_Some in Hv1 as [Hj _]. rewrite Hj. f_equal.
    destruct v. simpl in *. by subst.
Qed.

(** A vote saved and then removed is gone: for a voter who had no row the
    vote table is back to what it was, and where each voter has at most one
    row no row of the voter is left on the poll. *)
Theorem save_then_remove_vote (message_id user_id : Z)
    (username display_name emoji : string) (w : world) (i : nat) (poll : Poll) :
  available (db w) = true →
  query_poll message_id (db w) = Some (i, poll) →
  let w' := run (remove_vote message_id user_id)
                (run (save_vote message_id user_id username display_name emoji) w) in
  (query_vote (poll_id poll) user_id (db w) = None → votes (db w') = votes (db w))
  ∧ (one_vote_per_voter (db w) → stored_vote (poll_id poll) user_id (db w') = None).
Proof.
  intros Hav Hq. split.
  - intros Hv. unfold run at 2.
    rewrite (save_vote_insert _ _ _ _ _ _ _ _ Hav Hq Hv).
    set (v := mkVote _ _ _ _ _ _ _ _). cbn [snd].
    set (w1 := set_log _ _).
    assert (query_vote (poll_id poll) user_id (db w1) = Some (length (votes (db w)), v))
      as Hv1.
    { unfold query_vote in *. simpl. by apply list_find_app_new. }
    unfold run. rewrite (remove_vote_found _ _ w1 i poll _ _ Hav Hq Hv1). simpl.
    rewrite delete_take_drop, take_app_length.
    rewrite drop_ge; [by rewrite app_nil_r|]. rewrite length_app. simpl. lia.
  - intros Hone.
    destruct (save_vote_choice message_id i poll user_id username display_name emoji w
                Hav Hq) as (w1 & Hrun1 & Hav1 & Hp1 & _ & _ & Hone1 & _).
    assert (query_poll message_id (db w1) = Some (i, poll)) as Hq1
      by (unfold query_poll in *; by rewrite Hp1).
    destruct (remove_vote_choice message_id i poll user_id w1 Hav1 Hq1 (Hone1 Hone))
      as (w2 & Hrun2 & _ & _ & _ & _ & _ & Hch).
    unfold run. rewrite Hrun1. simpl. rewrite Hrun2. simpl.
    specialize (Hch user_id). rewrite decide_True in Hch by done.
    unfold stored_choice in Hch. by destruct (stored_vote _ _ _).
Qed.

Lemma save_then_remove_vote_witness :
  votes (db (run (remove_vote 100 12)
                 (run (save_vote 100 12 "carol" "Carol" first_emoji) sample_voted)))
  = votes (db sample_voted)
  ∧ stored_vote 1 10 (db (run (remove_vote 100 10)
                              (run (save_vote 100 10 "alice" "Alice" first_emoji)
                                   sample_voted)))
    = None.
Proof.
  destruct (save_then_remove_vote 100 12 "carol" "Carol" first_emoji sample_voted
              0%nat sample_poll) as [H12 _]; [by vm_compute..|].
  destruct (save_then_remove_vote 100 10 "alice" "Alice" first_emoji sample_voted
              0%nat sample_poll) as [_ H10]; [by vm_compute..|].
  split.
  - apply H12. by vm_compute.
  - apply H10. by apply (bool_decide_unpack _); vm_compute.
Defined.

(** Saving or removing one voter's vote on a message leaves every other
    stored vote as it is: the votes of other voters on the same poll and
    all votes on other polls. *)
Theorem other_votes_untouched (message_id user_id : Z)
    (username display_name emoji : string) (w : world) (pid' user_id' : Z) :
  (∀ i poll, query_poll message_id (db w) = Some (i, poll) →
             (pid', user_id') ≠ (poll_id poll, user_id)) →
  stored_vote pid' user_id'
    (db (run (save_vote message_id user_id username display_name emoji) w))
  = stored_vote pid' user_id' (db w)
  ∧ stored_vote pid' user_id' (db (run (remove_vote message_id user_id) w))
    = stored_vote pid' user_id' (db w).
Proof.
  intros Hother. rewrite !stored_vote_head. split.
  - destruct (save_vote_votes message_id user_id username display_name emoji w)
      as [-> | [(i & poll & j & ex & Hq & Hv & ->) | (i & poll & Hq & Hv & ->)]].
    + done.
    + apply query_vote_Some in Hv as [Hj Hk]. unfold vote_key in Hk.
      specialize (Hother i poll Hq).
      erewrite filter_insert_other; [done|exact Hj|..]; simpl;
        intros [Hp Hu]; apply Hother; by simplify_eq.
    + specialize (Hother i poll Hq).
      rewrite filter_app, filter_cons_False; [by rewrite filter_nil, app_nil_r|].
      simpl. intros [Hp Hu]. apply Hother. by rewrite Hp, Hu.
  - destruct (remove_vote_votes message_id user_id w)
      as [-> | (i & poll & j & v & Hq & Hv & ->)]; [done|].
    apply query_vote_Some in Hv as [Hj Hk]. unfold vote_key in Hk.
    specialize (Hother i poll Hq).
    erewrite filter_delete_other; [done|exact Hj|].
    intros [Hp Hu]. apply Hother. by simplify_eq.
Qed.

Lemma other_votes_untouched_witness :
  stored_vote 1 11 (db (run (save_vote 100 10 "alice" "Alice" first_emoji) sample_voted))
  = stored_vote 1 11 (db sample_voted)
  ∧ stored_vote 1 11 (db (run (remove_vote 100 10) sample_voted))
    = stored_vote 1 11 (db sample_voted).
Proof.
  apply (other_votes_untouched 100 10 "alice" "Alice" first_emoji sample_voted 1 11).
  intros i poll Hq. vm_compute in Hq. injection Hq as <- <-. by vm_compute.
Defined.

(** ** Reading a configuration back, and cleaning up *)

Section read_back.
Implicit Types (w : world) (d : database) (l : list PollOption).

Lemma order_by_index_sorted l : ordered_by_index l → order_by_index l = l.
Proof.
  induction l as [|o l IH]; [done|]. intros [Hhd Hs].
  unfold order_by_index in *. simpl. rewrite (IH Hs).
  destruct l as [|o' l']; [done|]. simpl. by rewrite decide_True.
Qed.

Lemma imap_index_sorted {A} (g : nat → A → PollOption) (l : list A) k :
  (∀ i x, po_order_index (g i x) = i) →
  ordered_by_index (imap (λ i x, g (k + i)%nat x) l).
Proof.
  intros Hg. revert k. induction l as [|x l IH]; intros k; [done|].
  rewrite imap_cons. split.
  - destruct l as [|y l]; [done|]. simpl. rewrite !Hg. lia.
  - rewrite (imap_ext _ (λ i x, g (S k + i)%nat x)); [apply IH|].
    intros i y _. simpl. f_equal. lia.
Qed.

Lemma new_poll_options_ordered first_id sid now emojis texts :
  order_by_index (new_poll_options first_id sid now emojis texts)
  = new_poll_options first_id sid now emojis texts.
Proof.
  apply order_by_index_sorted. unfold new_poll_options.
  apply (imap_index_sorted
           (λ i option_text,
              mkPollOption (first_id + Z.of_nat i) sid
                           (default placeholder_emoji (emojis !! i)) option_text i now)
           _ 0).
  done.
Qed.

(** The guild's server row after a save that went through. *)
Lemma save_server_config_row guild_id cfg w :
  available (db w) = true →
  ∃ k server,
    query_server guild_id (db (run (save_server_config guild_id cfg) w))
    = Some (k, server)
    ∧ available (db (run (save_server_config guild_id cfg) w)) = true
    ∧ sc_enabled server = default false (cfg_enabled cfg)
    ∧ sc_channel_id server = cfg_channel_id cfg
    ∧ sc_poll_hour server = default 5 (cfg_poll_hour cfg)
    ∧ sc_poll_minute server = default 0 (cfg_poll_minute cfg)
    ∧ sc_timezone server = default "UTC" (cfg_timezone cfg).
Proof.
  intros Hav. unfold save_server_config. unfold_M.
  repeat (simpl; rewrite ?Hav).
  destruct (query_server guild_id (db w)) as [[i server]|] eqn:Hq;
    destruct (cfg_poll_options cfg) as [texts|];
    repeat (simpl; rewrite ?Hav); unfold query_server at 1; simpl.
  - erewrite query_server_insert by done. by eexists _, _.
  - erewrite query_server_insert by done. by eexists _, _.
  - erewrite query_server_append by done. by eexists _, _.
  - erewrite query_server_append by done. by eexists _, _.
Qed.
End read_back.

(** A configuration saved to the store reads back with the settings that
    were saved, the store's own defaults where a key was missing (disabled,
    05:00, UTC), and an empty poll history.  When options were given, the
    first seven of them come back, in order, each with the emoji it was
    stored with. *)
Theorem get_server_config_after_save (guild_id : Z) (cfg : config) (w : world) :
  available (db w) = true →
  let w' := run (save_server_config guild_id cfg) w in
  ∃ texts emojis,
    result (get_server_config guild_id) w'
    = Returned (Some (stored_settings cfg texts emojis))
    ∧ ∀ given, cfg_poll_options cfg = Some given →
        texts = take 7 given
        ∧ emojis = imap (λ i _, default placeholder_emoji
                                  (default default_emojis (cfg_poll_emojis cfg) !! i))
                        (take 7 given).
Proof.
  intros Hav w'. subst w'.
  destruct (save_server_config_row guild_id cfg w Hav)
    as (k & server & Hq & Hav' & He & Hc & Hh & Hm & Hz).
  unfold get_server_config. unfold_M. rewrite Hav'. simpl. rewrite Hq. simpl.
  rewrite Hav'. simpl. unfold stored_settings. rewrite He, Hc, Hh, Hm, Hz.
  eexists _, _. split; [done|].
  intros given Hg.
  destruct (save_server_config_stored guild_id cfg given w Hav Hg) as (a & b & Hst).
  unfold stored_options, run in Hst. rewrite Hq in Hst. rewrite Hst.
  rewrite new_poll_options_ordered.
  by rewrite new_poll_options_texts, new_poll_options_emojis.
Qed.

Lemma get_server_config_after_save_witness :
  result (get_server_config 7) sample_saved
  = Returned (Some (stored_settings sample_config ["Free all day"; "Busy"]
                                    (take 2 default_emojis))).
Proof.
  destruct (get_server_config_after_save 7 sample_config sample_world)
    as (texts & emojis & Hr & Hgiven); [by vm_compute|].
  destruct (Hgiven _ eq_refl) as [-> ->]. exact Hr.
Defined.

(** [cleanup_old_data] never raises.  With the store down it leaves the
    store as it was.  When the cutoff cannot be computed (more days than a
    [timedelta] holds, or a date [days] days back from now that is no
    [datetime]), nothing is deleted and the failure is logged.  Otherwise,
    with the store up, it deletes exactly the poll rows created before the
    cutoff, [days] days back from now, and with each of them its vote rows;
    the votes of the polls that stay are untouched. *)
Theorem cleanup_old_data_cutoff (days : Z) (w : world) :
  let w' := run (cleanup_old_data days) w in
  let cutoff_date := clock (discord w) - days * 86400 in
  result (cleanup_old_data days) w = Returned tt
  ∧ (available (db w) = false → db w' = db w)
  ∧ (¬ cutoff_in_range (clock (discord w)) days →
     db w' = db w
     ∧ log w' = log w ++ [(ERROR, "Failed to cleanup old data")])
  ∧ (available (db w) = true →
     cutoff_in_range (clock (discord w)) days →
     NoDup (poll_id <$> polls (db w)) →
     polls (db w') = filter (λ p, cutoff_date ≤ poll_created_at p) (polls (db w))
     ∧ (votes_have_polls (db w) →
        votes (db w')
        = filter (λ v, vote_poll_id v ∈ poll_id <$> polls (db w')) (votes (db w)))).
Proof.
  cbv zeta. unfold cleanup_old_data, timedelta_days, datetime_sub, cutoff_in_range.
  destruct (decide (- timedelta_max_days ≤ days ≤ timedelta_max_days)) as [Hd|Hd].
  2: { unfold_M. simpl. split_and!; try done. by intros _ [? _]. }
  unfold_M. cbv beta.
  destruct (decide (datetime_min ≤ clock (discord w) - days * 86400 ≤ datetime_max))
    as [Hc|Hc].
  2: { simpl. split_and!; try done. by intros _ [_ ?]. }
  destruct (available (db w)) eqn:Hav; simpl.
  2: { split_and!; try done; try (intros Hno; destruct Hno; by split).
       all: by destruct (db w). }
  rewrite delete_polls_available. repeat (simpl; rewrite ?Hav).
  split_and!; try done; try (intros Hno; destruct Hno; by split).
  intros _ _ Hnd.
  set (old := filter _ (polls (db w))).
  assert (∀ p, p ∈ polls (db w) →
               poll_id p ∉ poll_id <$> old
               ↔ clock (discord w) - days * 86400 ≤ poll_created_at p) as Hold.
  { intros p Hp. unfold old. rewrite list_elem_of_fmap. split.
    - intros Hno. destruct (decide (clock (discord w) - days * 86400
                                    ≤ poll_created_at p)) as [|Hlt]; [done|].
      destruct Hno. exists p. split; [done|]. apply list_elem_of_filter.
      split; [lia|done].
    - intros Hle (q & Hid & [Hlt Hq]%list_elem_of_filter).
      assert (p = q) as -> by by eapply (NoDup_fmap_eq poll_id (polls (db w))).
      lia. }
  split.
  - rewrite delete_polls_polls. by apply filter_ext_in.
  - intros Hfk. rewrite delete_polls_votes_rows, delete_polls_polls.
    apply filter_ext_in. intros v Hv.
    unfold votes_have_polls in Hfk. rewrite Forall_forall in Hfk.
    specialize (Hfk v Hv). apply list_elem_of_fmap in Hfk as (q & Hid & Hin).
    rewrite (list_elem_of_fmap poll_id (filter _ _)). split.
    + intros Hno. exists q. split; [done|]. apply list_elem_of_filter.
      split; [by rewrite <- Hid|done].
    + intros (q' & Hid' & [Hno _]%list_elem_of_filter). by rewrite Hid'.
Qed.

Lemma cleanup_old_data_cutoff_witness :
  poll_id <$> polls (db sample_month_later) = [1; 2; 3]
  ∧ poll_id <$> polls (db (run (cleanup_old_data 30) sample_month_later)) = [3]
  ∧ vote_poll_id <$> votes (db (run (cleanup_old_data 30) sample_month_later)) = [3]
  ∧ ¬ cutoff_in_range (clock (discord sample_month_later)) (-4000000)
  ∧ poll_id <$> polls (db (run (cleanup_old_data (-4000000)) sample_month_later))
    = [1; 2; 3].
Proof.
  destruct (cleanup_old_data_cutoff 30 sample_month_later) as (_ & _ & _ & H).
  destruct H as [Hp Hv];
    [by vm_compute|by apply (bool_decide_unpack _); vm_compute
    |by apply (bool_decide_unpack _); vm_compute|].
  assert (¬ cutoff_in_range (clock (discord sample_month_later)) (-4000000)) as Hout
    by by apply (bool_decide_unpack _); vm_compute.
  destruct (cleanup_old_data_cutoff (-4000000) sample_month_later)
    as (_ & _ & Hkept & _).
  destruct (Hkept Hout) as [Hdb _].
  split_and!.
  - by vm_compute.
  - rewrite Hp. by vm_compute.
  - rewrite Hv; [by vm_compute|]. by apply (bool_decide_unpack _); vm_compute.
  - done.
  - rewrite Hdb. by vm_compute.
Defined.

(** ** The schedule across guilds *)

Section schedule.
Implicit Types (w : world) (js : list job) (cfg : config).

Lemma daily_poll_job_id_inj g g' : daily_poll_job_id g = daily_poll_job_id g' → g = g'.
Proof. unfold daily_poll_job_id. intros H. by simplify_eq. Qed.

Lemma get_job_Some id js i j :
  get_job id js = Some (i, j) → js !! i = Some j ∧ job_id j = id.
Proof. unfold get_job. by intros (? & ? & _)%list_find_Some. Qed.

(** What [schedule_guild_poll] leaves in the job store: what was there,
    or the new trigger in place of the guild's old one. *)
Lemma schedule_guild_poll_jobs_cases guild_id cfg w :
  let id := daily_poll_job_id guild_id in
  let new := configured_trigger guild_id cfg in
  let js' := jobs (run (schedule_guild_poll guild_id cfg) w) in
  (¬ schedulable (all_timezones w) cfg ∧ js' = jobs w)
  ∨ (schedulable (all_timezones w) cfg
     ∧ match get_job id (jobs w) with
       | Some (i, _) =>
           match get_job id (delete i (jobs w)) with
           | Some (k, _) => js' = <[k := new]> (delete i (jobs w))
           | None => js' = delete i (jobs w) ++ [new]
           end
       | None => js' = jobs w ++ [new]
       end).
Proof.
  intros id new js'. subst js'.
  destruct (decide (default "UTC" (cfg_timezone cfg) ∈ all_timezones w)) as [Hz|Hz].
  2: { left. split; [by intros [? _]|].
       unfold run. by rewrite schedule_guild_poll_unknown_zone. }
  destruct (decide (0 ≤ default 20 (cfg_poll_hour cfg) ≤ 23
                    ∧ 0 ≤ default 0 (cfg_poll_minute cfg) ≤ 59)) as [Ht|Ht].
  2: { left. split; [by intros [_ ?]|]. by apply schedule_guild_poll_bad_time. }
  right. split; [done|]. rewrite (schedule_guild_poll_jobs _ _ _ Hz Ht). fold id.
  destruct (get_job id (jobs w)) as [[i j]|]; [|done].
  by destruct (get_job id (delete i (jobs w))) as [[k j']|].
Qed.

Lemma schedule_guild_poll_returns guild_id cfg w :
  result (schedule_guild_poll guild_id cfg) w = Returned tt.
Proof.
  unfold schedule_guild_poll, pytz_timezone, CronTrigger, remove_job, add_job.
  unfold_M.
  destruct (decide (_ ∈ _)); simpl; [|done].
  destruct (decide (_ ∧ _)); simpl; [|done].
  destruct (get_job _ (jobs w)) as [[i j]|] eqn:Hg; simpl; rewrite ?Hg; simpl.
  - by destruct (get_job _ (delete i (jobs w))) as [[k j']|].
  - done.
Qed.

Lemma schedule_guild_poll_configs guild_id cfg w :
  configs (run (schedule_guild_poll guild_id cfg) w) = configs w.
Proof.
  unfold schedule_guild_poll, pytz_timezone, CronTrigger, remove_job, add_job.
  unfold_M.
  destruct (decide (_ ∈ _)); simpl; [|done].
  destruct (decide (_ ∧ _)); simpl; [|done].
  destruct (get_job _ (jobs w)) as [[i j]|] eqn:Hg; simpl; rewrite ?Hg; simpl.
  - by destruct (get_job _ (delete i (jobs w))) as [[k j']|].
  - done.
Qed.

(** Job ids stay distinct through [schedule_guild_poll]. *)
Lemma schedule_guild_poll_unique guild_id cfg w :
  job_ids_unique (jobs w) →
  job_ids_unique (jobs (run (schedule_guild_poll guild_id cfg) w)).
Proof.
  unfold job_ids_unique. intros Hnd.
  destruct (schedule_guild_poll_jobs_cases guild_id cfg w) as [[_ ->]|[_ Hjs]]; [done|].
  destruct (get_job _ (jobs w)) as [[i j]|] eqn:Hg.
  - assert (NoDup (job_id <$> delete i (jobs w))) as Hnd'.
    { rewrite list_fmap_delete. eapply sublist_NoDup; [done|apply sublist_delete]. }
    destruct (get_job _ (delete i (jobs w))) as [[k j']|] eqn:Hg'; rewrite Hjs.
    + apply get_job_Some in Hg' as [Hk Hid].
      rewrite list_fmap_insert. simpl. rewrite <- Hid.
      rewrite list_insert_id; [done|]. by rewrite list_lookup_fmap, Hk.
    + rewrite fmap_app. apply NoDup_app. split_and!; [done| |apply NoDup_singleton].
      intros x (j' & -> & Hj')%list_elem_of_fmap [Hx|[]%elem_of_nil]%elem_of_cons.
      simpl in Hx. unfold get_job in Hg'. apply list_find_None in Hg'.
      rewrite Forall_forall in Hg'. by apply (Hg' j').
  - rewrite Hjs. rewrite fmap_app. apply NoDup_app.
    split_and!; [done| |apply NoDup_singleton].
    intros x (j' & -> & Hj')%list_elem_of_fmap [Hx|[]%elem_of_nil]%elem_of_cons.
    simpl in Hx. unfold get_job in Hg. apply list_find_None in Hg.
    rewrite Forall_forall in Hg. by apply (Hg j').
Qed.

(** With distinct job ids a guild has at most one trigger. *)
Lemma unique_one_trigger guild_id js :
  job_ids_unique js → (length (triggers guild_id js) ≤ 1)%nat.
Proof.
  unfold job_ids_unique, triggers. induction js as [|j js IH]; [simpl; lia|].
  rewrite fmap_cons. intros [Hj Hnd]%NoDup_cons.
  destruct (decide (job_id j = daily_poll_job_id guild_id)) as [Hid|Hid].
  - rewrite filter_cons_True by done. rewrite filter_none; [done|].
    apply Forall_forall. intros j' Hj' Hid'. apply Hj.
    apply list_elem_of_fmap. exists j'. split; [congruence|done].
  - rewrite filter_cons_False by done. by apply IH.
Qed.

(** A schedulable configuration leaves the guild with the configured
    trigger and no other. *)
Lemma schedule_guild_poll_trigger guild_id cfg w :
  job_ids_unique (jobs w) →
  schedulable (all_timezones w) cfg →
  triggers guild_id (jobs (run (schedule_guild_poll guild_id cfg) w))
  = [configured_trigger guild_id cfg].
Proof.
  intros Hnd Hok. pose proof (unique_one_trigger guild_id _ Hnd) as Hone.
  destruct (schedule_guild_poll_jobs_cases guild_id cfg w) as [[Hno _]|[_ Hjs]]; [done|].
  unfold triggers in *.
  destruct (get_job _ (jobs w)) as [[i j]|] eqn:Hg.
  - rewrite (filter_delete_found _ _ _ _ Hg) in Hone.
    assert (filter (λ j, job_id j = daily_poll_job_id guild_id) (delete i (jobs w))
            = []) as Hnil by (apply length_zero_iff_nil; lia).
    rewrite (proj2 (get_job_None _ _) Hnil) in Hjs. rewrite Hjs.
    by rewrite filter_app, Hnil, filter_cons_True.
  - rewrite Hjs. apply get_job_None in Hg.
    by rewrite filter_app, Hg, filter_cons_True.
Qed.

(** Whatever [schedule_guild_poll] does for one guild, the triggers of
    every other guild are as before. *)
Lemma schedule_guild_poll_others guild_id cfg w g' :
  g' ≠ guild_id →
  triggers g' (jobs (run (schedule_guild_poll guild_id cfg) w)) = triggers g' (jobs w).
Proof.
  intros Hne.
  assert (∀ j, job_id j = daily_poll_job_id guild_id →
               ¬ job_id j = daily_poll_job_id g') as Hother.
  { intros j Hj Hj'. rewrite Hj in Hj'. by apply daily_poll_job_id_inj in Hj'. }
  destruct (schedule_guild_poll_jobs_cases guild_id cfg w) as [[_ ->]|[_ Hjs]]; [done|].
  unfold triggers.
  destruct (get_job _ (jobs w)) as [[i j]|] eqn:Hg.
  - pose proof Hg as [Hi Hid]%get_job_Some.
    rewrite <- (filter_delete_other _ (jobs w) i j Hi) by auto.
    destruct (get_job _ (delete i (jobs w))) as [[k j']|] eqn:Hg'; rewrite Hjs.
    + apply get_job_Some in Hg' as [Hk Hid'].
      apply (filter_insert_other _ _ k j'); auto.
    + rewrite filter_app, filter_cons_False by auto.
      by rewrite filter_nil, app_nil_r.
  - rewrite Hjs, filter_app, filter_cons_False by auto.
    by rewrite filter_nil, app_nil_r.
Qed.
End schedule.

Section unschedule.
Implicit Types (w : world) (js : list job) (cfg : config).

Lemma unschedule_guild_poll_run guild_id w :
  unschedule_guild_poll guild_id w
  = match get_job (daily_poll_job_id guild_id) (jobs w) with
    | Some (i, _) =>
        (Returned tt,
         set_log (log w ++ [(INFO, "Unscheduled daily poll for guild")])
                 (set_jobs (delete i (jobs w)) w))
    | None => (Returned tt, w)
    end.
Proof.
  unfold unschedule_guild_poll, remove_job. unfold_M.
  destruct (decide (is_Some (get_job (daily_poll_job_id guild_id) (jobs w))))
    as [[[i j] Hg]|Hno]; simpl.
  - by rewrite Hg.
  - destruct (get_job _ (jobs w)) as [[i j]|]; [|done].
    destruct Hno. by eexists.
Qed.

Lemma unschedule_guild_poll_unique guild_id w :
  job_ids_unique (jobs w) →
  job_ids_unique (jobs (run (unschedule_guild_poll guild_id) w)).
Proof.
  unfold job_ids_unique, run. intros Hnd. rewrite unschedule_guild_poll_run.
  destruct (get_job _ (jobs w)) as [[i j]|]; [|done]. simpl.
  rewrite list_fmap_delete. eapply sublist_NoDup; [done|apply sublist_delete].
Qed.

Lemma unschedule_guild_poll_others guild_id w g' :
  g' ≠ guild_id →
  triggers g' (jobs (run (unschedule_guild_poll guild_id) w)) = triggers g' (jobs w).
Proof.
  intros Hne. unfold run. rewrite unschedule_guild_poll_run.
  destruct (get_job _ (jobs w)) as [[i j]|] eqn:Hg; [|done]. simpl.
  apply get_job_Some in Hg as [Hi Hid]. unfold triggers.
  apply (filter_delete_other _ _ i j); [done|].
  rewrite Hid. intros Heq. by apply daily_poll_job_id_inj in Heq.
Qed.

Lemma unschedule_guild_poll_none guild_id w :
  job_ids_unique (jobs w) →
  triggers guild_id (jobs (run (unschedule_guild_poll guild_id) w)) = [].
Proof.
  intros Hnd. pose proof (unique_one_trigger guild_id _ Hnd) as Hone.
  unfold run. rewrite unschedule_guild_poll_run. unfold triggers in *.
  destruct (get_job _ (jobs w)) as [[i j]|] eqn:Hg; simpl.
  - rewrite (filter_delete_found _ _ _ _ Hg) in Hone.
    apply length_zero_iff_nil. lia.
  - by apply get_job_None.
Qed.

Lemma unschedule_guild_poll_frame guild_id w :
  configs (run (unschedule_guild_poll guild_id) w) = configs w
  ∧ all_timezones (run (unschedule_guild_poll guild_id) w) = all_timezones w.
Proof.
  unfold run. rewrite unschedule_guild_poll_run.
  by destruct (get_job _ (jobs w)) as [[i j]|].
Qed.
End unschedule.

(** [unschedule_guild_poll] never raises.  A guild without a trigger is
    left as it is, log included; where job ids are distinct the guild has no
    trigger afterwards; and the triggers of other guilds are not touched. *)
Theorem unschedule_guild_poll_removes (guild_id : Z) (w : world) :
  let w' := run (unschedule_guild_poll guild_id) w in
  result (unschedule_guild_poll guild_id) w = Returned tt
  ∧ (triggers guild_id (jobs w) = [] → w' = w)
  ∧ (job_ids_unique (jobs w) → triggers guild_id (jobs w') = [])
  ∧ (∀ g', g' ≠ guild_id → triggers g' (jobs w') = triggers g' (jobs w)).
Proof.
  cbv zeta. split_and!.
  - unfold result. rewrite unschedule_guild_poll_run.
    by destruct (get_job _ (jobs w)) as [[i j]|].
  - intros Hnone%get_job_None. unfold run.
    by rewrite unschedule_guild_poll_run, Hnone.
  - apply unschedule_guild_poll_none.
  - intros g' Hne. by apply unschedule_guild_poll_others.
Qed.

(** With distinct job ids, [schedule_guild_poll] for a schedulable
    configuration leaves the guild with exactly the configured trigger,
    whether or not it had one; for a configuration that is not schedulable
    it leaves the job store alone.  Either way the triggers of every other
    guild are as before. *)
Theorem schedule_guild_poll_sets_trigger (guild_id : Z) (cfg : config) (w : world) :
  job_ids_unique (jobs w) →
  let w' := run (schedule_guild_poll guild_id cfg) w in
  (schedulable (all_timezones w) cfg →
   triggers guild_id (jobs w') = [configured_trigger guild_id cfg])
  ∧ (¬ schedulable (all_timezones w) cfg → jobs w' = jobs w)
  ∧ (∀ g', g' ≠ guild_id → triggers g' (jobs w') = triggers g' (jobs w))
  ∧ job_ids_unique (jobs w').
Proof.
  intros Hnd. cbv zeta. split_and!.
  - by apply schedule_guild_poll_trigger.
  - intros Hno.
    by destruct (schedule_guild_poll_jobs_cases guild_id cfg w) as [[_ ->]|[? _]].
  - intros g' Hne. by apply schedule_guild_poll_others.
  - by apply schedule_guild_poll_unique.
Qed.

Lemma schedule_guild_poll_sets_trigger_witness :
  job_ids_unique (jobs sample_scheduled)
  ∧ triggers 7 (jobs (run (schedule_guild_poll 7 sample_config_disabled)
                          sample_scheduled))
    = [mkJob (daily_poll_job_id 7) 7 21 30 "Europe/Sofia"]
  ∧ jobs (run (schedule_guild_poll 8 sample_config_bad_timezone) sample_scheduled)
    = jobs sample_scheduled.
Proof.
  assert (job_ids_unique (jobs sample_scheduled)) as Hnd
    by by apply (bool_decide_unpack _); vm_compute.
  split; [exact Hnd|]. split.
  - destruct (schedule_guild_poll_sets_trigger 7 sample_config_disabled
                sample_scheduled Hnd) as (H & _).
    apply H. by apply (bool_decide_unpack _); vm_compute.
  - destruct (schedule_guild_poll_sets_trigger 8 sample_config_bad_timezone
                sample_scheduled Hnd) as (_ & H & _).
    apply H. by apply (bool_decide_unpack _); vm_compute.
Defined.

Section schedule_all.
Implicit Types (w : world) (js : list job) (cfg : config) (l : list (Z * config)).

(** The loop of [schedule_all_guilds] over configurations with distinct
    guild ids. *)
Lemma schedule_each l w :
  NoDup (l.*1) →
  job_ids_unique (jobs w) →
  ∃ w',
    for_each l (λ gc, if default false (cfg_enabled gc.2)
                      then schedule_guild_poll gc.1 gc.2 else ret tt) w
    = (Returned tt, w')
    ∧ job_ids_unique (jobs w')
    ∧ all_timezones w' = all_timezones w
    ∧ (∀ g cfg, (g, cfg) ∈ l →
                default false (cfg_enabled cfg) = true →
                schedulable (all_timezones w) cfg →
                triggers g (jobs w') = [configured_trigger g cfg])
    ∧ (∀ g, (∀ cfg, (g, cfg) ∈ l →
                    ¬ (default false (cfg_enabled cfg) = true
                       ∧ schedulable (all_timezones w) cfg)) →
            triggers g (jobs w') = triggers g (jobs w)).
Proof.
  revert w. induction l as [|[g0 cfg0] l IH]; intros w Hkeys Hnd.
  { exists w. split_and!; try done. intros g cfg Hin. by apply elem_of_nil in Hin. }
  rewrite fmap_cons in Hkeys. apply NoDup_cons in Hkeys as [Hg0 Hkeys]. simpl in Hg0.
  set (body := λ gc : Z * config, _).
  assert (∃ w1, body (g0, cfg0) w = (Returned tt, w1)
                ∧ job_ids_unique (jobs w1)
                ∧ all_timezones w1 = all_timezones w
                ∧ (default false (cfg_enabled cfg0) = true →
                   schedulable (all_timezones w) cfg0 →
                   triggers g0 (jobs w1) = [configured_trigger g0 cfg0])
                ∧ (∀ g, g ≠ g0 ∨ ¬ (default false (cfg_enabled cfg0) = true
                                    ∧ schedulable (all_timezones w) cfg0) →
                        triggers g (jobs w1) = triggers g (jobs w)))
    as (w1 & Hrun1 & Hnd1 & Hz1 & Hnew1 & Hold1).
  { unfold body. simpl. destruct (default false (cfg_enabled cfg0)) eqn:Hen.
    - exists (run (schedule_guild_poll g0 cfg0) w). split_and!.
      + pose proof (schedule_guild_poll_returns g0 cfg0 w) as Hr.
        unfold result, run in *. by destruct (schedule_guild_poll g0 cfg0 w) as [[[]|] ?].
      + by apply schedule_guild_poll_unique.
      + apply schedule_guild_poll_timezones.
      + intros _ Hok. by apply schedule_guild_poll_trigger.
      + intros g [Hne|Hno].
        * by apply schedule_guild_poll_others.
        * destruct (schedule_guild_poll_jobs_cases g0 cfg0 w) as [[_ ->]|[Hok _]];
            [done|]. destruct Hno. by split.
    - exists w. split_and!; try done. }
  destruct (IH w1 Hkeys Hnd1) as (w' & Hrun & Hnd' & Hz' & Hnew & Hold).
  exists w'. split_and!.
  - simpl. unfold bind. by rewrite Hrun1.
  - done.
  - congruence.
  - intros g cfg [Heq|Hin]%elem_of_cons Hen Hok.
    + injection Heq as -> ->. rewrite Hold; [by apply Hnew1|].
      intros cfg Hin. destruct Hg0. apply list_elem_of_fmap. by exists (g0, cfg).
    + apply (Hnew g cfg Hin Hen). by rewrite Hz1.
  - intros g Hno. rewrite Hold.
    + apply Hold1. destruct (decide (g = g0)) as [->|Hne]; [|by left].
      right. apply Hno. by left.
    + intros cfg Hin. rewrite Hz1. apply Hno. by right.
Qed.

Lemma schedule_all_guilds_run w :
  job_ids_unique (jobs w) →
  ∃ w',
    schedule_all_guilds w = (Returned tt, w')
    ∧ job_ids_unique (jobs w')
    ∧ (∀ g cfg, configs w !! g = Some cfg →
                default false (cfg_enabled cfg) = true →
                schedulable (all_timezones w) cfg →
                triggers g (jobs w') = [configured_trigger g cfg])
    ∧ (∀ g, (∀ cfg, configs w !! g = Some cfg →
                    ¬ (default false (cfg_enabled cfg) = true
                       ∧ schedulable (all_timezones w) cfg)) →
            triggers g (jobs w') = triggers g (jobs w)).
Proof.
  intros Hnd.
  destruct (schedule_each (map_to_list (configs w)) w) as (w' & Hrun & Hnd' & _ & Hnew & Hold);
    [apply NoDup_fst_map_to_list|done|].
  exists w'. split_and!; [done|done| |].
  - intros g cfg Hc. apply Hnew. by apply elem_of_map_to_list.
  - intros g Hno. apply Hold. intros cfg Hin. apply Hno.
    by apply elem_of_map_to_list in Hin.
Qed.
End schedule_all.

(** At start-up [schedule_all_guilds] never raises, and afterwards a guild
    whose stored configuration is enabled and schedulable has exactly the
    trigger that configuration asks for.  Every other guild (disabled, not
    configured, or with a timezone or time no trigger can be built from)
    keeps the triggers it had, so one guild's bad configuration costs no
    other guild its poll. *)
Theorem schedule_all_guilds_enabled (w : world) :
  job_ids_unique (jobs w) →
  let w' := run schedule_all_guilds w in
  result schedule_all_guilds w = Returned tt
  ∧ (∀ g cfg, configs w !! g = Some cfg →
              default false (cfg_enabled cfg) = true →
              schedulable (all_timezones w) cfg →
              triggers g (jobs w') = [configured_trigger g cfg])
  ∧ (∀ g, (∀ cfg, configs w !! g = Some cfg →
                  ¬ (default false (cfg_enabled cfg) = true
                     ∧ schedulable (all_timezones w) cfg)) →
          triggers g (jobs w') = triggers g (jobs w)).
Proof.
  intros Hnd. destruct (schedule_all_guilds_run w Hnd) as (w' & Hrun & _ & Hnew & Hold).
  unfold run, result. rewrite Hrun. by split_and!.
Qed.

Lemma schedule_all_guilds_enabled_witness :
  triggers 7 (jobs (run schedule_all_guilds sample_three_guilds))
  = [mkJob (daily_poll_job_id 7) 7 8 0 "UTC"]
  ∧ triggers 8 (jobs (run schedule_all_guilds sample_three_guilds)) = []
  ∧ triggers 9 (jobs (run schedule_all_guilds sample_three_guilds)) = [].
Proof.
  destruct (schedule_all_guilds_enabled sample_three_guilds) as (_ & Hnew & Hold);
    [by apply (bool_decide_unpack _); vm_compute|].
  split_and!.
  - apply (Hnew 7 sample_config); [by vm_compute..|].
    by apply (bool_decide_unpack _); vm_compute.
  - rewrite (Hold 8); [by vm_compute|].
    intros cfg Hc. vm_compute in Hc. injection Hc as <-.
    intros [_ Hok]. revert Hok. by apply (bool_decide_unpack _); vm_compute.
  - rewrite (Hold 9); [by vm_compute|].
    intros cfg Hc. vm_compute in Hc. injection Hc as <-.
    intros [Hen _]. by vm_compute in Hen.
Defined.

(** Job ids stay distinct through every call into the scheduler, so at any
    time a guild has at most one trigger; and none of these calls raises. *)
Theorem schedule_calls_one_trigger (calls : list schedule_call) (w : world) :
  job_ids_unique (jobs w) →
  let w' := run (for_each calls perform_schedule) w in
  result (for_each calls perform_schedule) w = Returned tt
  ∧ job_ids_unique (jobs w')
  ∧ ∀ g, (length (triggers g (jobs w')) ≤ 1)%nat.
Proof.
  intros Hnd. cbv zeta.
  assert (result (for_each calls perform_schedule) w = Returned tt
          ∧ job_ids_unique (jobs (run (for_each calls perform_schedule) w)))
    as [Hr Hnd'].
  { revert w Hnd. induction calls as [|c calls IH]; intros w Hnd; [done|].
    assert (∃ w1, perform_schedule c w = (Returned tt, w1) ∧ job_ids_unique (jobs w1))
      as (w1 & Hrun1 & Hnd1).
    { destruct c as [g cfg|g|]; simpl.
      - exists (run (schedule_guild_poll g cfg) w). split.
        + pose proof (schedule_guild_poll_returns g cfg w) as Hr.
          unfold result, run in *.
          by destruct (schedule_guild_poll g cfg w) as [[[]|] ?].
        + by apply schedule_guild_poll_unique.
      - exists (run (unschedule_guild_poll g) w). split.
        + unfold run. rewrite unschedule_guild_poll_run.
          by destruct (get_job _ (jobs w)) as [[i j]|].
        + by apply unschedule_guild_poll_unique.
      - destruct (schedule_all_guilds_run w Hnd) as (w1 & Hrun & Hnd1 & _).
        by exists w1. }
    destruct (IH w1 Hnd1) as [Hr Hnd'].
    unfold result, run in *. simpl. unfold bind. by rewrite Hrun1. }
  split_and!; [done|done|].
  intros g. by apply unique_one_trigger.
Qed.

Lemma schedule_calls_one_trigger_witness :
  (length (triggers 7 (jobs (run (for_each [ScheduleAll; Schedule 7 sample_config_disabled;
                                            Unschedule 9; Schedule 9 sample_config;
                                            ScheduleAll] perform_schedule)
                                 sample_three_guilds))) ≤ 1)%nat.
Proof.
  destruct (schedule_calls_one_trigger
              [ScheduleAll; Schedule 7 sample_config_disabled; Unschedule 9;
               Schedule 9 sample_config; ScheduleAll] sample_three_guilds)
    as (_ & _ & H); [by apply (bool_decide_unpack _); vm_compute|].
  apply H.
Defined.

(** ** The configuration manager: saving, removing, persisting *)

Section config_calls.
Implicit Types (w : world) (cfg : config).

Lemma save_configs_run w :
  save_configs w
  = (Returned tt,
     if file_writable w
     then set_log (log w ++ [(DEBUG, "Configurations saved successfully")])
                  (set_config_file (configs w) w)
     else set_log (log w ++ [(ERROR, "Failed to save configurations")]) w).
Proof. unfold save_configs. unfold_M. by destruct (file_writable w). Qed.

Lemma save_guild_config_run guild_id cfg w :
  save_guild_config guild_id cfg w
  = (Returned tt,
     let w1 := set_configs (<[guild_id := cfg]> (configs w)) w in
     let w2 := (save_configs w1).2 in
     set_log (log w2 ++ [(DEBUG, "Saved configuration for guild")]) w2).
Proof.
  unfold save_guild_config. unfold_M. simpl. rewrite save_configs_run. done.
Qed.

Lemma remove_guild_run guild_id w :
  remove_guild guild_id w
  = match configs w !! guild_id with
    | Some _ =>
        (Returned tt,
         let w1 := set_configs (delete guild_id (configs w)) w in
         let w2 := (save_configs w1).2 in
         set_log (log w2 ++ [(INFO, "Removed configuration for guild")]) w2)
    | None => (Returned tt, w)
    end.
Proof.
  unfold remove_guild. unfold_M. simpl.
  destruct (configs w !! guild_id); [|done]. simpl. by rewrite save_configs_run.
Qed.

Lemma initialize_guild_run guild_id w :
  initialize_guild guild_id w
  = match configs w !! guild_id with
    | None =>
        (Returned tt,
         let w1 := set_configs (<[guild_id := get_default_config]> (configs w)) w in
         let w2 := (save_configs w1).2 in
         set_log (log w2 ++ [(INFO, "Initialized configuration for guild")]) w2)
    | Some _ => (Returned tt, w)
    end.
Proof.
  unfold initialize_guild. unfold_M. simpl.
  destruct (configs w !! guild_id); [done|]. simpl. by rewrite save_configs_run.
Qed.

(** One call into the configuration manager: it returns, and on a disk
    that can be written a file that agreed with memory still does. *)
Lemma perform_config_in_sync c w :
  ∃ w', perform_config c w = (Returned tt, w')
        ∧ file_writable w' = file_writable w
        ∧ (file_writable w = true → config_file w = configs w →
           config_file w' = configs w').
Proof.
  destruct c as [g|g|g cfg|g]; simpl.
  - rewrite initialize_guild_run. destruct (configs w !! g); [by eexists|].
    cbv zeta. rewrite save_configs_run. eexists. split; [done|]. simpl.
    destruct (file_writable w) eqn:Hfw; simpl; by split.
  - unfold bind. destruct (configs w !! g) as [cfg|] eqn:Hc.
    + rewrite (get_guild_config_known _ _ _ Hc). by eexists.
    + rewrite (get_guild_config_unknown _ _ Hc). eexists. split; [done|].
      simpl. destruct (file_writable w) eqn:Hfw; simpl; by split.
  - rewrite save_guild_config_run. cbv zeta. rewrite save_configs_run.
    eexists. split; [done|]. simpl. destruct (file_writable w) eqn:Hfw; simpl; by split.
  - rewrite remove_guild_run. destruct (configs w !! g); [|by eexists].
    cbv zeta. rewrite save_configs_run. eexists. split; [done|]. simpl.
    destruct (file_writable w) eqn:Hfw; simpl; by split.
Qed.
End config_calls.


(** [remove_guild] never raises.  For a guild without a configuration it
    changes nothing at all.  Otherwise the guild's configuration is gone
    from memory (and from the file, on a disk that can be written), the
    other guilds keep theirs, and the next [get_guild_config] for the guild
    starts over from the default configuration: whatever had been set is
    lost. *)
Theorem remove_guild_forgets (guild_id : Z) (w : world) :
  let w' := run (remove_guild guild_id) w in
  result (remove_guild guild_id) w = Returned tt
  ∧ configs w' = delete guild_id (configs w)
  ∧ (configs w !! guild_id = None → w' = w)
  ∧ (is_Some (configs w !! guild_id) → file_writable w = true →
     config_file w' = delete guild_id (configs w))
  ∧ result (get_guild_config guild_id) w' = Returned get_default_config.
Proof.
  cbv zeta. unfold run, result. rewrite remove_guild_run.
  destruct (configs w !! guild_id) as [cfg|] eqn:Hc; cbn [fst snd].
  - cbv zeta. rewrite save_configs_run. simpl. split_and!; try done.
    + by destruct (file_writable w).
    + by intros _ ->.
    + rewrite get_guild_config_unknown; [done|].
      destruct (file_writable w); simpl; by rewrite lookup_delete_eq.
  - split_and!; try done.
    + by rewrite delete_id.
    + by rewrite get_guild_config_unknown.
Qed.

(** Through any sequence of calls into the configuration manager on a disk
    that can be written, no call raises and the file keeps agreeing with
    memory: every change is persisted by the call that makes it. *)
Theorem config_calls_persisted (calls : list config_call) (w : world) :
  file_writable w = true →
  config_file w = configs w →
  let w' := run (for_each calls perform_config) w in
  result (for_each calls perform_config) w = Returned tt
  ∧ config_file w' = configs w'.
Proof.
  revert w. induction calls as [|c calls IH]; intros w Hfw Hsync; [done|].
  destruct (perform_config_in_sync c w) as (w1 & Hrun1 & Hfw1 & Hsync1).
  destruct (IH w1) as [Hr Hs]; [congruence|by apply Hsync1|].
  cbv zeta in *. unfold run, result in *. simpl. unfold bind. by rewrite Hrun1.
Qed.

Lemma config_calls_persisted_witness :
  config_file (run (for_each [GetGuildConfig 8; SaveGuildConfig 7 sample_config_disabled;
                              RemoveGuild 8; InitializeGuild 9] perform_config)
                   sample_world)
  = {[ 7 := sample_config_disabled; 9 := get_default_config ]}.
Proof.
  destruct (config_calls_persisted
              [GetGuildConfig 8; SaveGuildConfig 7 sample_config_disabled;
               RemoveGuild 8; InitializeGuild 9] sample_world) as [_ H];
    [by vm_compute..|].
  rewrite H. by vm_compute.
Defined.

(** ** Publishing: when nothing is published *)

Section skips.
Implicit Types (w : world) (cfg : config).

Lemma post_daily_poll_no_guild guild_id w :
  guilds (discord w) !! guild_id = None →
  post_daily_poll guild_id w
  = (Returned tt, set_log (log w ++ [(ERROR, "Guild not found")]) w).
Proof.
  intros Hg. unfold post_daily_poll. unfold try_except, bind at 1, get.
  by rewrite Hg.
Qed.

(** A guild the platform knows, with its configuration in memory, that is
    disabled, has no channel, or has a channel the guild does not have:
    one line is logged and nothing else happens. *)
Lemma post_daily_poll_skipped guild_id channels cfg w :
  guilds (discord w) !! guild_id = Some channels →
  configs w !! guild_id = Some cfg →
  default false (cfg_enabled cfg) = false
  ∨ cfg_channel_id cfg = None
  ∨ (∃ channel_id, cfg_channel_id cfg = Some channel_id ∧ channel_id ∉ channels) →
  ∃ line, post_daily_poll guild_id w = (Returned tt, set_log (log w ++ [line]) w).
Proof.
  intros Hg Hc Hskip. unfold post_daily_poll. unfold try_except, bind at 1, get.
  rewrite Hg. unfold bind at 1. rewrite (get_guild_config_known _ _ _ Hc).
  destruct (default false (cfg_enabled cfg)) eqn:Hen; simpl; [|by eexists].
  destruct Hskip as [?|[Hch|(channel_id & Hch & Hin)]]; [done| |]; rewrite Hch.
  - by eexists.
  - rewrite decide_False by done. by eexists.
Qed.

(** A guild the platform knows but the configuration manager does not: the
    default configuration is created, and it is disabled. *)
Lemma post_daily_poll_unconfigured guild_id channels w :
  guilds (discord w) !! guild_id = Some channels →
  configs w !! guild_id = None →
  post_daily_poll guild_id w
  = (Returned tt,
     let w0 := (get_guild_config guild_id w).2 in
     set_log (log w0 ++ [(INFO, "Polls disabled for guild")]) w0).
Proof.
  intros Hg Hc. unfold post_daily_poll. unfold try_except, bind at 1, get.
  rewrite Hg. unfold bind at 1. by rewrite (get_guild_config_unknown _ _ Hc).
Qed.
End skips.

(** The daily publish sends nothing and stores nothing unless the platform
    knows the guild, the guild is enabled, and its configured channel is a
    channel of the guild: in every other case it logs one line and returns,
    with the platform, the store, the active-poll index and the job store
    as they were.  The configurations are untouched too, except that a guild
    the platform knows and the configuration manager does not gets the
    default configuration on the way. *)
Theorem post_daily_poll_skips (guild_id : Z) (w : world) :
  let cfg := default get_default_config (configs w !! guild_id) in
  guilds (discord w) !! guild_id = None
  ∨ default false (cfg_enabled cfg) = false
  ∨ cfg_channel_id cfg = None
  ∨ (∃ channels channel_id,
       guilds (discord w) !! guild_id = Some channels
       ∧ cfg_channel_id cfg = Some channel_id
       ∧ channel_id ∉ channels) →
  let w' := run (post_daily_poll guild_id) w in
  result (post_daily_poll guild_id) w = Returned tt
  ∧ discord w' = discord w
  ∧ db w' = db w
  ∧ active_polls w' = active_polls w
  ∧ jobs w' = jobs w
  ∧ (∀ g', g' ≠ guild_id → configs w' !! g' = configs w !! g')
  ∧ (is_Some (configs w !! guild_id) ∨ guilds (discord w) !! guild_id = None →
     configs w' = configs w ∧ config_file w' = config_file w).
Proof.
  intros cfg Hskip. cbv zeta. unfold run, result.
  destruct (guilds (discord w) !! guild_id) as [channels|] eqn:Hg.
  2: { rewrite (post_daily_poll_no_guild _ _ Hg). by split_and!. }
  destruct (configs w !! guild_id) as [cfg'|] eqn:Hc.
  - destruct (post_daily_poll_skipped guild_id channels cfg' w Hg Hc) as [line ->].
    { subst cfg. simpl in Hskip.
      destruct Hskip as [?|[?|[?|(cs & ch & Hcs & Hch & Hin)]]]; [done|by left| |].
      - right. by left.
      - right. right. exists ch. by simplify_eq. }
    by split_and!.
  - rewrite (post_daily_poll_unconfigured _ _ _ Hg Hc).
    rewrite (get_guild_config_unknown _ _ Hc). cbn [fst snd].
    destruct (file_writable w); simpl; split_and!; try done.
    + intros g' Hne. by rewrite lookup_insert_ne.
    + by intros [[? ?]|?].
    + intros g' Hne. by rewrite lookup_insert_ne.
    + by intros [[? ?]|?].
Qed.

Lemma post_daily_poll_skips_witness :
  discord (run (post_daily_poll 7)
               (set_configs {[ 7 := sample_config_disabled ]} sample_world))
  = discord sample_world
  ∧ db (run (post_daily_poll 8) sample_world) = db sample_world.
Proof.
  destruct (post_daily_poll_skips 7 (set_configs {[ 7 := sample_config_disabled ]}
                                                 sample_world)) as (_ & H7 & _);
    [right; left; by vm_compute|].
  destruct (post_daily_poll_skips 8 sample_world) as (_ & _ & H8 & _);
    [left; by vm_compute|].
  split; [exact H7|exact H8].
Defined.

(** When the bot is removed from a guild, [on_guild_remove] forgets the
    guild's configuration but leaves the job store alone: the guild's
    trigger, if it had one, stays.  When that trigger fires, the platform no
    longer knows the guild, and the daily publish only logs that: nothing is
    sent or stored, and the guild's configuration is not created again. *)
Theorem on_guild_remove_keeps_trigger (guild_id : Z) (w : world) :
  guilds (discord w) !! guild_id = None →
  let w1 := run (on_guild_remove guild_id) w in
  let w2 := run (post_daily_poll guild_id) w1 in
  result (on_guild_remove guild_id) w = Returned tt
  ∧ configs w1 !! guild_id = None
  ∧ jobs w1 = jobs w
  ∧ result (post_daily_poll guild_id) w1 = Returned tt
  ∧ configs w2 !! guild_id = None
  ∧ jobs w2 = jobs w
  ∧ discord w2 = discord w
  ∧ db w2 = db w
  ∧ last (log w2) = Some (ERROR, "Guild not found").
Proof.
  intros Hg. cbv zeta.
  assert (∃ w1, on_guild_remove guild_id w = (Returned tt, w1)
                ∧ configs w1 !! guild_id = None
                ∧ jobs w1 = jobs w ∧ discord w1 = discord w ∧ db w1 = db w)
    as (w1 & Hrun1 & Hc1 & Hj1 & Hd1 & Hdb1).
  { unfold on_guild_remove. unfold bind at 1, logger, modify.
    rewrite remove_guild_run. simpl.
    destruct (configs w !! guild_id) as [cfg|] eqn:Hc.
    - cbv zeta. rewrite save_configs_run. eexists. split; [done|]. simpl.
      destruct (file_writable w); simpl; by rewrite lookup_delete_eq.
    - by eexists. }
  unfold run, result. rewrite Hrun1. cbn [fst snd].
  rewrite post_daily_poll_no_guild by by rewrite Hd1.
  split_and!; try done. simpl. by rewrite last_snoc.
Qed.

Lemma on_guild_remove_keeps_trigger_witness :
  triggers 7 (jobs (run (post_daily_poll 7) (run (on_guild_remove 7) sample_left_guild)))
  = triggers 7 (jobs sample_scheduled)
  ∧ configs (run (on_guild_remove 7) sample_left_guild) !! 7 = None.
Proof.
  destruct (on_guild_remove_keeps_trigger 7 sample_left_guild)
    as (_ & Hc & _ & _ & _ & Hj & _); [by vm_compute|].
  split; [by rewrite Hj|exact Hc].
Defined.

(** ** What a test poll and a reaction event cannot do *)

Section frames.
Implicit Types (w : world) (cfg : config).

Lemma create_poll_world guild_id channel_id message_id date is_test w :
  let w' := run (create_poll guild_id channel_id message_id date is_test) w in
  w' = set_log (log w') (set_db (db w') w).
Proof.
  cbv zeta. unfold create_poll, create_poll_failed. unfold_M.
  destruct (available (db w)) eqn:Hav; simpl; [|done].
  destruct (query_server guild_id (db w)) as [[i server]|]; simpl; [|done].
  destruct (decide (is_Some (query_poll message_id (db w)))); simpl; [done|].
  repeat (simpl; rewrite ?Hav).
  rewrite delete_polls_available. repeat (simpl; rewrite ?Hav). done.
Qed.

Lemma index_pure {A} (l : list A) i w : (index l i w).2 = w.
Proof. unfold index. by destruct (l !! i). Qed.

Lemma build_options_text_same w0 texts :
  preserves (same_configuration w0) (build_options_text texts).
Proof.
  apply preserves_fold_enumerate. intros k x acc.
  apply preserves_bind; [apply preserves_pure, index_pure|].
  intros emoji. by apply preserves_pure.
Qed.

Lemma channel_send_same w0 channel text :
  preserves (same_configuration w0) (channel_send channel text).
Proof.
  intros w Hw. unfold channel_send. unfold_M.
  by destruct (send_raises (discord w)).
Qed.

Lemma add_reactions_same w0 msg texts :
  preserves (same_configuration w0) (add_reactions msg texts).
Proof.
  apply preserves_fold_enumerate. intros k x acc.
  apply preserves_bind; [apply preserves_pure, index_pure|].
  intros emoji. apply preserves_try.
  - intros w Hw. unfold add_reaction. unfold_M.
    by destruct (react_raises (discord w) !! emoji).
  - intros e. destruct (is_HTTPException e); [|by apply preserves_pure].
    intros w Hw. by unfold_M.
Qed.

Lemma create_poll_same w0 guild_id channel_id message_id date is_test :
  preserves (same_configuration w0)
            (create_poll guild_id channel_id message_id date is_test).
Proof.
  intros w Hw.
  by rewrite (create_poll_world guild_id channel_id message_id date is_test w).
Qed.
End frames.

(** A test poll never touches the configuration: however [post_test_poll]
    ends, the guild configurations in memory and on disk and the job store
    are as before.  In particular a test poll never enters [poll_history],
    so the retention step of the daily publish never deletes it. *)
Theorem post_test_poll_keeps_configuration (guild_id channel_id : Z) (cfg : config)
    (w : world) :
  let w' := run (post_test_poll guild_id channel_id cfg) w in
  configs w' = configs w ∧ config_file w' = config_file w ∧ jobs w' = jobs w.
Proof.
  cbv zeta.
  assert (preserves (same_configuration w) (post_test_poll guild_id channel_id cfg))
    as Hpres.
  { unfold post_test_poll. apply preserves_try.
    - apply preserves_bind; [by apply preserves_pure|]. intros date.
      apply preserves_bind; [apply build_options_text_same|]. intros text.
      apply preserves_bind; [apply channel_send_same|]. intros msg.
      apply preserves_bind; [apply add_reactions_same|]. intros _.
      apply preserves_bind; [apply create_poll_same|]. intros id.
      apply preserves_bind; [by intros w1 Hw1|]. intros _.
      apply preserves_bind; [by intros w1 Hw1|]. intros _.
      by apply preserves_pure.
    - intros e. apply preserves_bind; [by intros w1 Hw1|]. intros _.
      by apply preserves_pure. }
  destruct (Hpres w) as (? & ? & _ & ? & _); [done|]. done.
Qed.

Section containment.
Implicit Types (w : world) (d : database).

Lemma remove_vote_returns message_id user_id w :
  result (remove_vote message_id user_id) w = Returned tt.
Proof.
  unfold remove_vote. unfold_M.
  destruct (available (db w)) eqn:Hav; simpl; [|done].
  destruct (query_poll message_id (db w)) as [[i poll]|]; simpl; [|done].
  rewrite Hav.
  destruct (query_vote (poll_id poll) user_id (db w)) as [[j v]|]; simpl; [|done].
  by rewrite Hav.
Qed.

Lemma update_poll_results_returns message_id info w :
  result (update_poll_results message_id info) w = Returned tt.
Proof.
  unfold update_poll_results, result, try_except.
  match goal with |- context [let (_, _) := ?body w in _] =>
    destruct (body w) as [[[]|e] w'] end; done.
Qed.

Lemma handler_returns message_id user_id w :
  result (on_reaction_add message_id user_id) w = Returned tt
  ∧ result (on_reaction_remove message_id user_id) w = Returned tt.
Proof.
  assert (result (on_reaction_add message_id user_id) w = Returned tt) as H.
  { unfold on_reaction_add, result, bind, get.
    destruct (member_bot (members (discord w) user_id)); [done|].
    destruct (active_polls w !! message_id) as [info|]; [|done].
    pose proof (remove_vote_returns message_id user_id w) as Hr. unfold result in Hr.
    destruct (remove_vote message_id user_id w) as [[[]|e] w1]; [|done].
    apply update_poll_results_returns. }
  done.
Qed.

(** With the store down, nothing a handler calls changes the store. *)
Lemma save_vote_down d message_id user_id username display_name emoji :
  available d = false →
  preserves (store_is d) (save_vote message_id user_id username display_name emoji).
Proof.
  intros Hav w Hw. unfold store_is in *. unfold save_vote. unfold_M.
  by rewrite Hw, Hav.
Qed.

Lemma remove_vote_down d message_id user_id :
  available d = false → preserves (store_is d) (remove_vote message_id user_id).
Proof.
  intros Hav w Hw. unfold store_is in *. unfold remove_vote. unfold_M.
  by rewrite Hw, Hav.
Qed.

Lemma get_poll_votes_down d message_id :
  preserves (store_is d) (get_poll_votes message_id).
Proof. intros w Hw. unfold store_is in *. by rewrite get_poll_votes_db. Qed.

Lemma update_poll_results_down d message_id info :
  available d = false → preserves (store_is d) (update_poll_results message_id info).
Proof.
  intros Hav. unfold update_poll_results. apply preserves_try.
  - apply preserves_bind; [apply get_poll_votes_down|]. intros _.
    apply preserves_bind; [by apply preserves_pure|]. intros reactions.
    apply preserves_bind.
    { apply preserves_for_each. intros emoji _.
      destruct (reaction_users reactions emoji) as [users|]; [|by apply preserves_pure].
      apply preserves_for_each. intros uid _.
      apply preserves_bind; [by apply preserves_pure|]. intros user.
      destruct (member_bot user); [by apply preserves_pure|].
      by apply save_vote_down. }
    intros _. apply preserves_bind; [apply get_poll_votes_down|]. intros tally.
    apply preserves_bind.
    { apply preserves_fold_enumerate. intros k x acc.
      apply preserves_bind; [apply preserves_pure, index_pure|].
      intros emoji. by apply preserves_pure. }
    intros text w Hw. unfold message_edit. unfold_M.
    destruct (edit_raises (discord w)); simpl; [done|].
    by destruct (messages (discord w) !! message_id).
  - intros e w Hw. by unfold_M.
Qed.

Lemma handler_down d message_id user_id :
  available d = false →
  preserves (store_is d) (on_reaction_add message_id user_id)
  ∧ preserves (store_is d) (on_reaction_remove message_id user_id).
Proof.
  intros Hav.
  assert (preserves (store_is d) (on_reaction_add message_id user_id)) as H.
  { unfold on_reaction_add.
    apply preserves_bind; [by apply preserves_pure|]. intros user.
    destruct (member_bot user); [by apply preserves_pure|].
    apply preserves_bind; [by apply preserves_pure|]. intros aps.
    destruct (aps !! message_id) as [info|]; [|by apply preserves_pure].
    apply preserves_bind; [by apply remove_vote_down|]. intros _.
    by apply update_poll_results_down. }
  done.
Qed.
End containment.

(** A reaction event never brings the bot down: [on_reaction_add] and
    [on_reaction_remove] return whatever the store and the platform do.
    A reaction by a bot, or on a message that is not a tracked poll, is not
    looked at any further: nothing changes but the reaction itself.  And
    while the store is down, handling an event leaves the store as it
    was. *)
Theorem deliver_contained (ev : reaction_event) (w : world) :
  let w' := run (deliver ev) w in
  result (deliver ev) w = Returned tt
  ∧ (member_bot (members (discord w) (event_user ev)) = true
     ∨ active_polls w !! event_message ev = None →
     w' = set_discord (apply_reaction ev (discord w)) w)
  ∧ (available (db w) = false → db w' = db w).
Proof.
  cbv zeta. split_and!.
  - unfold deliver, result. unfold bind at 1, modify_discord, modify.
    destruct ev as [m u e|m u e]; apply handler_returns.
  - intros Hskip. unfold deliver, run. unfold bind at 1, modify_discord, modify.
    destruct ev as [m u e|m u e]; simpl in *;
      unfold on_reaction_add, on_reaction_remove, bind, get; simpl;
      destruct (member_bot (members (discord w) u)); try done;
      (destruct Hskip as [?|Hno]; [done|]);
      cbn [active_polls set_discord]; by rewrite Hno.
  - intros Hav.
    assert (preserves (store_is (db w)) (deliver ev)) as Hpres.
    { unfold deliver. apply preserves_bind; [by intros w1 Hw1|]. intros _.
      destruct ev as [m u e|m u e]; by apply handler_down. }
    by apply Hpres.
Qed.

(** ** From a publish to a tally *)

Section attach.
Implicit Types (w : world) (rs : list (string * list Z)) (a : Z).

Lemma publish_step_refl w : publish_step w w.
Proof. by repeat split. Qed.

Lemma publish_step_trans w1 w2 w3 :
  publish_step w1 w2 → publish_step w2 w3 → publish_step w1 w3.
Proof.
  intros (?&?&?&?&?&?&?&?&?&?&?&?) (?&?&?&?&?&?&?&?&?&?&?&?).
  repeat split; congruence.
Qed.

Lemma react_by emoji a rs : reactions_by a rs → reactions_by a (react emoji a rs).
Proof.
  unfold reactions_by. induction rs as [|[e us] rs IH]; intros Hrs; simpl.
  - repeat constructor.
  - apply Forall_cons in Hrs as [Hus Hrs]. simpl in Hus.
    destruct (decide (e = emoji)).
    + constructor; [|done]. simpl. destruct (decide (a ∈ us)); [done|].
      apply Forall_app. split; [done|]. by repeat constructor.
    + constructor; [done|]. by apply IH.
Qed.

(** One reaction attached, or refused with a delivery error that is only
    logged: the message's reactions stay the bot's own, one entry per
    emoji. *)
Lemma add_reaction_attached msg emoji w :
  (∀ emoji e, react_raises (discord w) !! emoji = Some e → is_HTTPException e = true) →
  NoDup (message_reactions w msg).*1 →
  reactions_by (bot_user (discord w)) (message_reactions w msg) →
  ∃ w', try_except (add_reaction msg emoji)
          (λ e, if is_HTTPException e
                then logger WARNING "Failed to add reaction"
                else raise e) w = (Returned tt, w')
        ∧ publish_step w w'
        ∧ NoDup (message_reactions w' msg).*1
        ∧ reactions_by (bot_user (discord w')) (message_reactions w' msg).
Proof.
  intros Hhttp Hnd Hby. unfold add_reaction. unfold_M.
  destruct (react_raises (discord w) !! emoji) as [e|] eqn:He; simpl.
  - rewrite (Hhttp _ _ He). eexists. split; [done|]. by repeat split.
  - eexists. split; [done|]. split; [by repeat split|].
    unfold message_reactions in *. simpl. rewrite lookup_alter_eq.
    destruct (messages (discord w) !! msg) as [m|]; simpl in *; [|done].
    split; [by apply react_NoDup|by apply react_by].
Qed.

Lemma add_reactions_attached_from msg (l : list string) i w :
  (i + length l ≤ 7)%nat →
  (∀ emoji e, react_raises (discord w) !! emoji = Some e → is_HTTPException e = true) →
  NoDup (message_reactions w msg).*1 →
  reactions_by (bot_user (discord w)) (message_reactions w msg) →
  ∃ w', fold_enumerate i l tt
          (λ i _ _,
             emoji <- index poll_emojis i ;;
             try_except (add_reaction msg emoji)
               (λ e, if is_HTTPException e
                     then logger WARNING "Failed to add reaction"
                     else raise e)) w = (Returned tt, w')
        ∧ publish_step w w'
        ∧ NoDup (message_reactions w' msg).*1
        ∧ reactions_by (bot_user (discord w')) (message_reactions w' msg).
Proof.
  revert i w. induction l as [|t l IH]; intros i w Hlen Hhttp Hnd Hby.
  - eexists. split; [done|]. split; [apply publish_step_refl|done].
  - simpl in *. destruct (index_poll_emojis i) as [emoji He]; [lia|].
    unfold bind at 1. unfold index at 1. rewrite He. unfold bind at 1, ret at 1.
    destruct (add_reaction_attached msg emoji w Hhttp Hnd Hby)
      as (w1 & -> & Hs1 & Hnd1 & Hby1).
    destruct (IH (S i) w1) as (w2 & Hw2 & Hs2 & Hnd2 & Hby2); [lia| |done|done|].
    { destruct Hs1 as (_&_&_&_&_&_&_&_&Hr&_). by rewrite Hr. }
    exists w2. split; [done|]. split; [by eapply publish_step_trans|done].
Qed.

Lemma add_reactions_attached msg texts w :
  (∀ emoji e, react_raises (discord w) !! emoji = Some e → is_HTTPException e = true) →
  NoDup (message_reactions w msg).*1 →
  reactions_by (bot_user (discord w)) (message_reactions w msg) →
  ∃ w', add_reactions msg texts w = (Returned tt, w')
        ∧ publish_step w w'
        ∧ NoDup (message_reactions w' msg).*1
        ∧ reactions_by (bot_user (discord w')) (message_reactions w' msg).
Proof. apply add_reactions_attached_from. rewrite length_take. lia. Qed.

(** The retention step of the daily publish, as far as the rest of the
    publish is concerned. *)
Lemma cleanup_poll_history_step guild_id channel cfg w :
  (∀ e, delete_raises (discord w) = Some e → is_HTTPException e = true) →
  ∃ history w', cleanup_poll_history guild_id channel cfg w = (Returned history, w')
                ∧ publish_step w w'.
Proof.
  intros Hhttp. unfold cleanup_poll_history.
  destruct (decide _); [|eexists _, _; split; [done|apply publish_step_refl]].
  destruct (default [] (cfg_poll_history cfg)) as [|oldest rest];
    [eexists _, _; split; [done|apply publish_step_refl]|].
  unfold fetch_message, message_delete. unfold_M. simpl.
  destruct (messages (discord w) !! oldest) as [m|]; simpl;
    [|eexists _, _; split; [done|by repeat split]].
  destruct (decide (msg_channel m = channel)); simpl;
    [|eexists _, _; split; [done|by repeat split]].
  destruct (delete_raises (discord w)) as [ex|] eqn:He; simpl;
    [|eexists _, _; split; [done|by repeat split]].
  destruct (decide (ex = NotFound)); simpl;
    [eexists _, _; split; [done|by repeat split]|].
  rewrite (Hhttp ex eq_refl). eexists _, _; split; [done|by repeat split].
Qed.
End attach.

Section record.
Implicit Types (w : world) (cfg : config) (info : poll_info).

Lemma channel_send_run channel text w :
  send_raises (discord w) = None →
  channel_send channel text w
  = (Returned (next_message_id (discord w)),
     set_discord
       (set_next_message_id (next_message_id (discord w) + 1)
          (set_messages (<[next_message_id (discord w) := mkMessage channel [] text]>
                           (messages (discord w))) (discord w))) w).
Proof. intros Hs. unfold channel_send. unfold_M. by rewrite Hs. Qed.

(** The poll row goes in, the message goes into the active-poll index: the
    new poll is tracked and consistent, with nobody's vote on it. *)
Lemma record_poll_tracked guild_id channel_id msg date is_test info w :
  store_accepts guild_id msg (clock (discord w)) (db w) →
  NoDup (message_reactions w msg).*1 →
  reactions_by (bot_user (discord w)) (message_reactions w msg) →
  member_bot (members (discord w) (bot_user (discord w))) = true →
  ∃ id w', create_poll guild_id channel_id msg date is_test w = (Returned id, w')
           ∧ discord w' = discord w
           ∧ ∃ k poll,
               poll_is_test poll = is_test
               ∧ poll_tracked msg k poll info
                   (set_active_polls (<[msg := info]> (active_polls w')) w').
Proof.
  intros (Hav & [[i server] Hs] & Hq & Hfresh & Hfk & Hclock & Hone) Hnd Hby Hbot.
  destruct (create_poll_new_row guild_id channel_id msg date is_test w i server
              Hav Hs Hq Hfresh Hfk Hclock) as (Hin & Honly & Hno).
  destruct (query_poll_only msg _ _ Hin eq_refl Honly) as [k Hk].
  pose proof (create_poll_frame guild_id channel_id msg date is_test w)
    as (_ & _ & _ & Hd & Hav' & _).
  pose proof (create_poll_votes guild_id channel_id msg date is_test w) as Hsub.
  assert (create_poll guild_id channel_id msg date is_test w
          = (Returned (next_poll_id (db w)),
             run (create_poll guild_id channel_id msg date is_test) w)) as Hrun.
  { unfold run. by rewrite (create_poll_created _ _ _ _ _ _ _ _ Hav Hs Hq). }
  set (w' := run (create_poll guild_id channel_id msg date is_test) w) in *.
  exists (next_poll_id (db w)), w'. split; [done|]. split; [done|].
  exists k, (mkPoll (next_poll_id (db w)) (sc_id server) guild_id channel_id msg date
                    is_test (clock (discord w))).
  split; [done|]. apply fresh_poll_tracked.
  - change (available (db w') = true). congruence.
  - exact Hk.
  - simpl. by rewrite lookup_insert_eq.
  - change (one_vote_per_voter (db w')). unfold one_vote_per_voter in *.
    eapply sublist_NoDup; [exact Hone|]. by apply fmap_sublist.
  - exact Hno.
  - change (NoDup (message_reactions w' msg).*1).
    unfold message_reactions in *. by rewrite Hd.
  - change (Forall (λ r, Forall (λ u, member_bot (members (discord w') u) = true) r.2)
                   (message_reactions w' msg)).
    unfold message_reactions in *. rewrite Hd.
    unfold reactions_by in Hby. eapply Forall_impl; [exact Hby|].
    intros r Hr. eapply Forall_impl; [exact Hr|]. simpl. by intros u ->.
Qed.

Lemma poll_tracked_log msg k poll info l w :
  poll_tracked msg k poll info w → poll_tracked msg k poll info (set_log l w).
Proof. by intros (?&?&?&?&?&?). Qed.
End record.

Section published.
Implicit Types (w : world) (cfg : config) (info : poll_info).

(** From a sent message to a tracked poll: reactions, then the poll row
    and the active-poll index. *)
Lemma send_react_record guild_id channel_id cfg is_test w0 w date text :
  platform_accepts (discord w0) →
  store_accepts guild_id (next_message_id (discord w0)) (clock (discord w0)) (db w0) →
  publish_step w0 w →
  let msg := next_message_id (discord w0) in
  let texts := default default_poll_options (cfg_poll_options cfg) in
  ∃ w2,
    (msg <- channel_send channel_id text ;; add_reactions msg texts ;; ret msg) w
    = (Returned msg, w2)
    ∧ members (discord w2) = members (discord w0)
    ∧ ∀ w4 info,
        db w4 = db w2 → discord w4 = discord w2 → active_polls w4 = active_polls w2 →
        ∃ id w5, create_poll guild_id channel_id msg date is_test w4 = (Returned id, w5)
                 ∧ discord w5 = discord w2
                 ∧ ∃ k poll,
                     poll_is_test poll = is_test
                     ∧ poll_tracked msg k poll info
                         (set_active_polls (<[msg := info]> (active_polls w5)) w5).
Proof.
  intros (Hsend & Hdel & Hreact & Hbot) Hstore
         (Hdb & Hap & Hnext & Hg & Hm & Hb & Hs & Hd & Hr & He & Ht & Hc) msg texts.
  unfold bind at 1. rewrite channel_send_run by congruence. rewrite Hnext. fold msg.
  set (ws := set_discord _ w).
  destruct (add_reactions_attached msg texts ws) as (w2 & Hrun2 & Hs2 & Hnd2 & Hby2).
  { subst ws. simpl. intros emoji e. rewrite Hr. apply Hreact. }
  { subst ws. unfold message_reactions. simpl. rewrite lookup_insert_eq. simpl.
    constructor. }
  { subst ws. unfold message_reactions. simpl. rewrite lookup_insert_eq. simpl.
    constructor. }
  unfold bind at 1. rewrite Hrun2. unfold ret.
  destruct Hs2 as (Hdb2 & Hap2 & Hnext2 & Hg2 & Hm2 & Hb2 & Hss2 & Hd2 & Hr2 & He2
                   & Ht2 & Hc2).
  subst ws. simpl in *.
  exists w2. split; [done|]. split; [congruence|].
  intros w4 info Hdb4 Hd4 Hap4.
  destruct (record_poll_tracked guild_id channel_id msg date is_test info w4)
    as (id & w5 & Hrun5 & Hd5 & Htracked).
  - rewrite Hdb4, Hd4, Hc2, Hc, Hdb2, Hdb. exact Hstore.
  - unfold message_reactions in *. by rewrite Hd4.
  - unfold message_reactions in *. by rewrite Hd4.
  - rewrite Hd4, Hm2, Hb2, Hm, Hb. exact Hbot.
  - exists id, w5. split; [done|]. split; [congruence|]. exact Htracked.
Qed.

(** A daily publish that goes through leaves its message tracked and
    consistent. *)
Lemma post_daily_poll_tracked guild_id channel_id channels cfg w :
  guilds (discord w) !! guild_id = Some channels →
  configs w !! guild_id = Some cfg →
  cfg_enabled cfg = Some true →
  cfg_channel_id cfg = Some channel_id →
  channel_id ∈ channels →
  platform_accepts (discord w) →
  store_accepts guild_id (next_message_id (discord w)) (clock (discord w)) (db w) →
  let msg := next_message_id (discord w) in
  ∃ w', post_daily_poll guild_id w = (Returned tt, w')
        ∧ ∃ k poll,
            poll_is_test poll = false
            ∧ poll_tracked msg k poll
                (published_info msg channel_id guild_id cfg None
                                (tomorrow_label (discord w))) w'.
Proof.
  intros Hg Hc Hen Hch Hin Hacc Hstore msg.
  enough (ensures (post_daily_poll guild_id) w
            (λ o w', o = Returned tt
                     ∧ ∃ k poll,
                         poll_is_test poll = false
                         ∧ poll_tracked msg k poll
                             (published_info msg channel_id guild_id cfg None
                                             (tomorrow_label (discord w))) w')) as H.
  { unfold ensures in H. destruct (post_daily_poll guild_id w) as [o w'].
    simpl in H. destruct H as [-> H]. by exists w'. }
  unfold post_daily_poll.
  apply ensures_try, ensures_bind.
  eapply ensures_eq; [reflexivity|]. cbv beta iota. rewrite Hg.
  apply ensures_bind.
  eapply ensures_eq; [by apply get_guild_config_known|]. cbv beta iota.
  rewrite Hen. simpl negb. cbv iota. rewrite Hch. rewrite decide_True by done.
  apply ensures_bind. eapply ensures_eq; [reflexivity|]. cbv beta iota.
  destruct (build_options_text_returns
              (default default_poll_options (cfg_poll_options cfg)) w) as [text Htext].
  apply ensures_bind. eapply ensures_eq; [exact Htext|]. cbv beta iota.
  pose proof Hacc as (_ & Hdel & _).
  destruct (cleanup_poll_history_step guild_id channel_id cfg w Hdel)
    as (history & w1 & Hrun1 & Hstep1).
  apply ensures_bind. eapply ensures_eq; [exact Hrun1|]. cbv beta iota.
  destruct (send_react_record guild_id channel_id cfg false w w1
              (tomorrow_label (discord w)) text Hacc Hstore Hstep1)
    as (w2 & Hrun2 & Hm2 & Hrecord).
  fold msg in Hrun2, Hrecord. unfold bind at 1 2 in Hrun2.
  apply ensures_bind. unfold ensures at 1.
  destruct (channel_send channel_id text w1) as [[m|e] ws]; [|done].
  cbn [fst snd]. apply ensures_bind. unfold ensures at 1.
  destruct (add_reactions m _ ws) as [[[]|e] w2']; [|done].
  unfold ret in Hrun2. injection Hrun2 as -> ->. cbn [fst snd].
  apply ensures_bind. eapply ensures_eq; [reflexivity|]. cbv beta iota.
  set (w3 := set_configs _ w2).
  destruct (save_configs_returns w3) as (w4 & Hw4 & Hc4 & Hdb4 & Hap4 & Hd4 & Hf4 & Hl4).
  apply ensures_bind. eapply ensures_eq; [exact Hw4|]. cbv beta iota.
  destruct (Hrecord w4 (published_info msg channel_id guild_id cfg None
                                       (tomorrow_label (discord w))))
    as (id & w5 & Hrun5 & Hd5 & k & poll & Htest & Htracked); [done..|].
  apply ensures_bind. eapply ensures_eq; [exact Hrun5|]. cbv beta iota.
  apply ensures_bind. eapply ensures_eq; [reflexivity|]. cbv beta iota.
  apply ensures_bind. eapply ensures_eq; [reflexivity|]. cbv beta iota.
  eapply ensures_eq; [reflexivity|]. cbv beta iota.
  split; [done|]. exists k, poll. split; [done|].
  by do 2 apply poll_tracked_log.
Qed.

(** So does a test publish, which also hands the message back. *)
Lemma post_test_poll_tracked guild_id channel_id cfg w :
  platform_accepts (discord w) →
  store_accepts guild_id (next_message_id (discord w)) (clock (discord w)) (db w) →
  let msg := next_message_id (discord w) in
  ∃ w', post_test_poll guild_id channel_id cfg w = (Returned msg, w')
        ∧ ∃ k poll,
            poll_is_test poll = true
            ∧ poll_tracked msg k poll
                (published_info msg channel_id guild_id cfg (Some true)
                                (tomorrow_label (discord w))) w'.
Proof.
  intros Hacc Hstore msg.
  enough (ensures (post_test_poll guild_id channel_id cfg) w
            (λ o w', o = Returned msg
                     ∧ ∃ k poll,
                         poll_is_test poll = true
                         ∧ poll_tracked msg k poll
                             (published_info msg channel_id guild_id cfg (Some true)
                                             (tomorrow_label (discord w))) w')) as H.
  { unfold ensures in H. destruct (post_test_poll guild_id channel_id cfg w) as [o w'].
    simpl in H. destruct H as [-> H]. by exists w'. }
  unfold post_test_poll.
  apply ensures_try, ensures_bind.
  eapply ensures_eq; [reflexivity|]. cbv beta iota.
  destruct (build_options_text_returns
              (default default_poll_options (cfg_poll_options cfg)) w) as [text Htext].
  apply ensures_bind. eapply ensures_eq; [exact Htext|]. cbv beta iota.
  destruct (send_react_record guild_id channel_id cfg true w w
              (tomorrow_label (discord w)) text Hacc Hstore (publish_step_refl w))
    as (w2 & Hrun2 & Hm2 & Hrecord).
  fold msg in Hrun2, Hrecord. unfold bind at 1 2 in Hrun2.
  apply ensures_bind. unfold ensures at 1.
  destruct (channel_send channel_id text w) as [[m|e] ws]; [|done].
  cbn [fst snd]. apply ensures_bind. unfold ensures at 1.
  destruct (add_reactions m _ ws) as [[[]|e] w2']; [|done].
  unfold ret in Hrun2. injection Hrun2 as -> ->. cbn [fst snd].
  destruct (Hrecord w2 (published_info msg channel_id guild_id cfg (Some true)
                                       (tomorrow_label (discord w))))
    as (id & w5 & Hrun5 & Hd5 & k & poll & Htest & Htracked); [done..|].
  apply ensures_bind. eapply ensures_eq; [exact Hrun5|]. cbv beta iota.
  apply ensures_bind. eapply ensures_eq; [reflexivity|]. cbv beta iota.
  apply ensures_bind. eapply ensures_eq; [reflexivity|]. cbv beta iota.
  eapply ensures_eq; [reflexivity|]. cbv beta iota.
  split; [done|]. exists k, poll. split; [done|].
  by apply poll_tracked_log.
Qed.

(** The tally of a tracked poll after any events on its message. *)
Lemma tracked_events_tally msg k poll info (evs : list reaction_event) w :
  poll_tracked msg k poll info w →
  Forall (λ ev, event_message ev = msg) evs →
  let w' := run (for_each evs deliver) w in
  ∃ tally,
    result (get_poll_votes msg) w' = Returned tally
    ∧ ∀ emoji,
        tally_group tally emoji
        ≡ₚ net_tally (discord w') (pi_emojis info) (message_reactions w' msg) emoji.
Proof.
  intros Ht Hevs w'.
  destruct (deliver_all_tracked msg k poll info evs w Hevs Ht) as (w1 & Hrun1 & Ht1 & _).
  subst w'. unfold run. rewrite Hrun1. simpl.
  pose proof Ht1 as (Hav' & Hq' & _).
  eexists. unfold result. rewrite (get_poll_votes_tracked msg k poll w1 Hav' Hq').
  split; [done|]. intros emoji. rewrite tally_group_fold.
  unfold tally_group at 1. rewrite lookup_empty. simpl.
  by apply (tracked_tally msg k poll info).
Qed.
End published.

(** From the publish to the tally.  When the daily publish goes through
    (the guild is known, enabled and has its channel; the platform takes the
    message; the store is up, has the guild's server row and its keys hold),
    then after any sequence of reaction events on the new message the tally
    [get_poll_votes] returns groups, under every emoji, exactly the display
    names of the non-bot users whose net choice among the seven poll emojis
    is that emoji. *)
Theorem published_poll_converges (guild_id channel_id : Z) (channels : list Z)
    (cfg : config) (evs : list reaction_event) (w : world) :
  guilds (discord w) !! guild_id = Some channels →
  configs w !! guild_id = Some cfg →
  cfg_enabled cfg = Some true →
  cfg_channel_id cfg = Some channel_id →
  channel_id ∈ channels →
  platform_accepts (discord w) →
  store_accepts guild_id (next_message_id (discord w)) (clock (discord w)) (db w) →
  let msg := next_message_id (discord w) in
  Forall (λ ev, event_message ev = msg) evs →
  let w1 := run (post_daily_poll guild_id) w in
  let w2 := run (for_each evs deliver) w1 in
  active_polls w1 !! msg
  = Some (published_info msg channel_id guild_id cfg None (tomorrow_label (discord w)))
  ∧ ∃ tally,
      result (get_poll_votes msg) w2 = Returned tally
      ∧ ∀ emoji,
          tally_group tally emoji
          ≡ₚ net_tally (discord w2) (take 7 poll_emojis) (message_reactions w2 msg) emoji.
Proof.
  intros Hg Hc Hen Hch Hin Hacc Hstore msg Hevs w1 w2.
  destruct (post_daily_poll_tracked guild_id channel_id channels cfg w
              Hg Hc Hen Hch Hin Hacc Hstore) as (w' & Hrun & k & poll & _ & Ht).
  subst w2 w1.
  assert (run (post_daily_poll guild_id) w = w') as -> by (unfold run; by rewrite Hrun).
  fold msg in Ht. split.
  - by destruct Ht as (_ & _ & Hap & _).
  - exact (tracked_events_tally msg k poll _ evs w' Ht Hevs).
Qed.

Lemma published_poll_converges_witness :
  ∃ tally,
    result (get_poll_votes 100) sample_voted = Returned tally
    ∧ ∀ emoji,
        tally_group tally emoji
        ≡ₚ net_tally (discord sample_voted) (take 7 poll_emojis)
                     (message_reactions sample_voted 100) emoji.
Proof.
  assert (platform_accepts (discord sample_world)) as Hacc.
  { unfold platform_accepts. split_and!.
    - by vm_compute.
    - intros e He. by vm_compute in He.
    - intros emoji e He. by vm_compute in He.
    - by vm_compute. }
  assert (store_accepts 7 100 5000 (db sample_world)) as Hstore.
  { unfold store_accepts. split_and!.
    - by vm_compute.
    - by eexists.
    - by vm_compute.
    - by apply (bool_decide_unpack _); vm_compute.
    - by apply (bool_decide_unpack _); vm_compute.
    - by apply (bool_decide_unpack _); vm_compute.
    - by apply (bool_decide_unpack _); vm_compute. }
  assert (70 ∈ [70; 71]) as Hin by by apply (bool_decide_unpack _); vm_compute.
  assert (Forall (λ ev, event_message ev = 100) sample_events) as Hevs
    by by repeat constructor.
  exact (proj2 (published_poll_converges 7 70 [70; 71] sample_config sample_events
                  sample_world eq_refl eq_refl eq_refl eq_refl Hin Hacc Hstore Hevs)).
Defined.

(** The same for a test poll: [post_test_poll] returns the new message, the
    poll goes into the store marked as a test and into the active-poll
    index, and votes on it are tallied like votes on a daily poll. *)
Theorem test_poll_converges (guild_id channel_id : Z) (cfg : config)
    (evs : list reaction_event) (w : world) :
  platform_accepts (discord w) →
  store_accepts guild_id (next_message_id (discord w)) (clock (discord w)) (db w) →
  let msg := next_message_id (discord w) in
  Forall (λ ev, event_message ev = msg) evs →
  let w1 := run (post_test_poll guild_id channel_id cfg) w in
  let w2 := run (for_each evs deliver) w1 in
  result (post_test_poll guild_id channel_id cfg) w = Returned msg
  ∧ (∃ k poll, query_poll msg (db w1) = Some (k, poll) ∧ poll_is_test poll = true)
  ∧ active_polls w1 !! msg
    = Some (published_info msg channel_id guild_id cfg (Some true)
                           (tomorrow_label (discord w)))
  ∧ ∃ tally,
      result (get_poll_votes msg) w2 = Returned tally
      ∧ ∀ emoji,
          tally_group tally emoji
          ≡ₚ net_tally (discord w2) (take 7 poll_emojis) (message_reactions w2 msg) emoji.
Proof.
  intros Hacc Hstore msg Hevs w1 w2.
  destruct (post_test_poll_tracked guild_id channel_id cfg w Hacc Hstore)
    as (w' & Hrun & k & poll & Htest & Ht).
  subst w2 w1.
  assert (run (post_test_poll guild_id channel_id cfg) w = w') as ->
    by (unfold run; by rewrite Hrun).
  fold msg in Ht. split_and!.
  - unfold result. by rewrite Hrun.
  - exists k, poll. split; [|done]. by destruct Ht as (_ & Hq & _).
  - by destruct Ht as (_ & _ & Hap & _).
  - exact (tracked_events_tally msg k poll _ evs w' Ht Hevs).
Qed.

Lemma test_poll_converges_witness :
  result (post_test_poll 7 71 sample_config) sample_voted = Returned 101
  ∧ ∃ k poll,
      query_poll 101 (db (run (post_test_poll 7 71 sample_config) sample_voted))
      = Some (k, poll)
      ∧ poll_is_test poll = true.
Proof.
  assert (platform_accepts (discord sample_voted)) as Hacc.
  { unfold platform_accepts. split_and!.
    - by vm_compute.
    - intros e He. by vm_compute in He.
    - intros emoji e He. by vm_compute in He.
    - by vm_compute. }
  assert (store_accepts 7 101 5000 (db sample_voted)) as Hstore.
  { unfold store_accepts. split_and!.
    - by vm_compute.
    - by eexists.
    - by vm_compute.
    - by apply (bool_decide_unpack _); vm_compute.
    - by apply (bool_decide_unpack _); vm_compute.
    - by apply (bool_decide_unpack _); vm_compute.
    - by apply (bool_decide_unpack _); vm_compute. }
  destruct (test_poll_converges 7 71 sample_config [ReactionAdd 101 11 last_emoji]
              sample_voted Hacc Hstore) as (Hr & Hq & _).
  - by repeat constructor.
  - split; [exact Hr|exact Hq].
Defined.

Section refused.
Implicit Types (w : world) (cfg : config).

(** [create_poll] with the store down or without a server row for the
    guild: it raises and the store is as before. *)
Lemma create_poll_refused guild_id channel_id message_id date is_test w :
  available (db w) = false ∨ query_server guild_id (db w) = None →
  ∃ e w', create_poll guild_id channel_id message_id date is_test w = (Raised e, w')
          ∧ e ≠ Forbidden
          ∧ db w' = db w
          ∧ only_touches_store w w'.
Proof.
  intros Hno.
  pose proof (create_poll_frame guild_id channel_id message_id date is_test w) as Hf.
  revert Hf. unfold create_poll, create_poll_failed. unfold_M.
  destruct (available (db w)) eqn:Hav; simpl.
  - destruct Hno as [?|Hs]; [done|]. rewrite Hs. simpl. intros Hf.
    eexists _, _. split; [done|]. split; [done|]. split; [|done].
    simpl. by destruct (db w).
  - intros Hf. eexists _, _. split; [done|]. split; [done|]. split; [|done].
    simpl. by destruct (db w).
Qed.

(** Events on a message that is not in the active-poll index never reach
    the store. *)
Lemma deliver_untracked msg (evs : list reaction_event) w :
  active_polls w !! msg = None →
  Forall (λ ev, event_message ev = msg) evs →
  ∃ w', for_each evs deliver w = (Returned tt, w')
        ∧ db w' = db w
        ∧ active_polls w' = active_polls w.
Proof.
  intros Hno Hevs. revert w Hno.
  induction Hevs as [|ev evs Hev _ IH]; intros w Hno; [by exists w|].
  assert (deliver ev w = (Returned tt, set_discord (apply_reaction ev (discord w)) w))
    as Hrun.
  { unfold deliver. unfold bind at 1, modify_discord, modify.
    destruct ev as [m u e|m u e]; simpl in *; subst m;
      unfold on_reaction_add, on_reaction_remove, bind, get; simpl;
      destruct (member_bot (members (discord w) u)); try done;
      cbn [active_polls set_discord]; by rewrite Hno. }
  destruct (IH (set_discord (apply_reaction ev (discord w)) w) Hno)
    as (w' & Hrun' & Hdb & Hap).
  exists w'. split; [|done]. simpl. unfold bind. by rewrite Hrun.
Qed.
End refused.

(** When the store cannot take the poll row (it is down, or the guild has
    no server row), the daily publish has already sent the message and put
    it into the guild's poll history by the time [create_poll] raises; the
    failure is logged and the message never gets into the active-poll
    index.  Reactions on that message are then ignored: whatever events
    follow, the store stays as it was. *)
Theorem post_daily_poll_store_refuses (guild_id channel_id : Z) (channels : list Z)
    (cfg : config) (evs : list reaction_event) (w : world) :
  guilds (discord w) !! guild_id = Some channels →
  configs w !! guild_id = Some cfg →
  cfg_enabled cfg = Some true →
  cfg_channel_id cfg = Some channel_id →
  channel_id ∈ channels →
  platform_accepts (discord w) →
  available (db w) = false ∨ query_server guild_id (db w) = None →
  let msg := next_message_id (discord w) in
  active_polls w !! msg = None →
  Forall (λ ev, event_message ev = msg) evs →
  let w1 := run (post_daily_poll guild_id) w in
  let w2 := run (for_each evs deliver) w1 in
  result (post_daily_poll guild_id) w = Returned tt
  ∧ is_Some (messages (discord w1) !! msg)
  ∧ (∃ history,
       configs w1 !! guild_id = Some (set_poll_history (history ++ [msg]) cfg))
  ∧ active_polls w1 !! msg = None
  ∧ (ERROR, "Failed to post daily poll for guild") ∈ log w1
  ∧ db w1 = db w
  ∧ db w2 = db w.
Proof.
  intros Hg Hc Hen Hch Hin (Hsend & Hdel & Hreact & Hbot) Hno msg Hap Hevs w1 w2.
  enough (ensures (post_daily_poll guild_id) w
            (λ o w', o = Returned tt
                     ∧ is_Some (messages (discord w') !! msg)
                     ∧ (∃ history,
                          configs w' !! guild_id
                          = Some (set_poll_history (history ++ [msg]) cfg))
                     ∧ active_polls w' = active_polls w
                     ∧ (ERROR, "Failed to post daily poll for guild") ∈ log w'
                     ∧ db w' = db w)) as H.
  { subst w2 w1. unfold ensures, result, run in *.
    destruct (post_daily_poll guild_id w) as [o w']. simpl in *.
    destruct H as (-> & Hm & Hh & Hap' & Hl & Hdb).
    destruct (deliver_untracked msg evs w') as (w'' & Hrun & Hdb' & _);
      [by rewrite Hap'|done|].
    rewrite Hrun. simpl. split_and!; try done; congruence. }
  unfold post_daily_poll.
  apply ensures_try, ensures_bind.
  eapply ensures_eq; [reflexivity|]. cbv beta iota. rewrite Hg.
  apply ensures_bind.
  eapply ensures_eq; [by apply get_guild_config_known|]. cbv beta iota.
  rewrite Hen. simpl negb. cbv iota. rewrite Hch. rewrite decide_True by done.
  apply ensures_bind. eapply ensures_eq; [reflexivity|]. cbv beta iota.
  destruct (build_options_text_returns
              (default default_poll_options (cfg_poll_options cfg)) w) as [text Htext].
  apply ensures_bind. eapply ensures_eq; [exact Htext|]. cbv beta iota.
  destruct (cleanup_poll_history_step guild_id channel_id cfg w Hdel)
    as (history & w1' & Hrun1 & Hdb1 & Hap1 & Hnext1 & Hg1 & Hm1 & Hb1 & Hs1 & Hd1
        & Hr1 & He1 & Ht1 & Hc1).
  apply ensures_bind. eapply ensures_eq; [exact Hrun1|]. cbv beta iota.
  apply ensures_bind.
  eapply ensures_eq; [apply channel_send_run; congruence|]. cbv beta iota.
  rewrite Hnext1. fold msg.
  set (ws := set_discord _ w1').
  destruct (add_reactions_returns msg
              (default default_poll_options (cfg_poll_options cfg)) ws)
    as (w2' & Hw2 & Hdb2 & Hc2 & Hcf2 & Hfw2 & Hap2 & Hr2 & Hm2 & Hs2 & Hl2).
  { subst ws. simpl. intros emoji e. rewrite Hr1. apply Hreact. }
  apply ensures_bind. eapply ensures_eq; [exact Hw2|]. cbv beta iota.
  apply ensures_bind. eapply ensures_eq; [reflexivity|]. cbv beta iota.
  set (w3 := set_configs _ w2').
  destruct (save_configs_returns w3) as (w4 & Hw4 & Hc4 & Hdb4 & Hap4 & Hd4 & Hf4 & Hl4).
  apply ensures_bind. eapply ensures_eq; [exact Hw4|]. cbv beta iota.
  destruct (create_poll_refused guild_id channel_id msg (tomorrow_label (discord w))
              false w4) as (e & w5 & Hrun5 & Hne & Hdb5 & Hc5 & Hcf5 & Hap5 & Hd5 & _ & Hl5).
  { rewrite Hdb4. subst w3 ws. simpl. rewrite Hdb2. simpl. by rewrite Hdb1. }
  apply ensures_bind. eapply ensures_eq; [exact Hrun5|]. cbv beta iota.
  rewrite decide_False by done.
  eapply ensures_eq; [reflexivity|]. cbv beta iota. subst w3 ws. simpl in *.
  split_and!.
  - done.
  - rewrite Hd5, Hd4. apply Hs2. rewrite lookup_insert_eq. by eexists.
  - exists history. rewrite Hc5, Hc4. by rewrite lookup_insert_eq.
  - congruence.
  - apply elem_of_app. right. by left.
  - congruence.
Qed.

Lemma post_daily_poll_store_refuses_witness :
  is_Some (messages (discord (run (post_daily_poll 7) sample_no_server_row)) !! 100)
  ∧ votes (db (run (for_each sample_events deliver)
                   (run (post_daily_poll 7) sample_no_server_row))) = [].
Proof.
  assert (platform_accepts (discord sample_no_server_row)) as Hacc.
  { unfold platform_accepts. split_and!.
    - by vm_compute.
    - intros e He. by vm_compute in He.
    - intros emoji e He. by vm_compute in He.
    - by vm_compute. }
  assert (70 ∈ [70; 71]) as Hin by by apply (bool_decide_unpack _); vm_compute.
  assert (Forall (λ ev, event_message ev = 100) sample_events) as Hevs
    by by repeat constructor.
  destruct (post_daily_poll_store_refuses 7 70 [70; 71] sample_config sample_events
              sample_no_server_row eq_refl eq_refl eq_refl eq_refl Hin Hacc
              (or_intror eq_refl) eq_refl Hevs) as (_ & Hm & _ & _ & _ & _ & Hdb).
  split; [exact Hm|]. by rewrite Hdb.
Defined.

(** ** The poll message after an update *)

Section render.
Implicit Types (w : world) (info : poll_info) (tally : gmap string (list string)).

Lemma render_lines_run tally (emojis l : list string) k acc w :
  (k + length l ≤ length emojis)%nat →
  fold_enumerate k l acc
    (λ i option options_text,
       emoji <- index emojis i ;;
       let voters := default [] (tally !! emoji) in
       ret (options_text +:+ option_line emoji option voters)) w
  = (Returned (foldl (λ text oe, text +:+ option_line oe.2 oe.1 (tally_group tally oe.2))
                     acc (zip l (drop k emojis))), w).
Proof.
  revert k acc. induction l as [|o l IH]; intros k acc Hlen; [done|].
  simpl in Hlen. destruct (lookup_lt_is_Some_2 emojis k) as [e He]; [lia|].
  rewrite (drop_S _ _ _ He). simpl. unfold bind at 1, index. rewrite He.
  unfold bind at 1, ret at 1. unfold ret at 1. cbv beta iota.
  apply (IH (S k)). lia.
Qed.

Lemma render_lines_short tally (emojis l : list string) k acc w :
  (length emojis < k + length l)%nat →
  (k ≤ length emojis)%nat →
  fold_enumerate k l acc
    (λ i option options_text,
       emoji <- index emojis i ;;
       let voters := default [] (tally !! emoji) in
       ret (options_text +:+ option_line emoji option voters)) w
  = (Raised IndexError, w).
Proof.
  revert k acc. induction l as [|o l IH]; intros k acc Hlen Hk; [simpl in Hlen; lia|].
  simpl in Hlen. simpl. unfold bind at 1, index.
  destruct (emojis !! k) as [e|] eqn:He.
  - unfold bind at 1, ret at 1. unfold ret at 1. cbv beta iota.
    apply (IH (S k)); [lia|]. apply lookup_lt_Some in He. lia.
  - done.
Qed.
End render.



(** ** The settings commands *)

Section commands.
Implicit Types (w : world) (cfg : config).

Lemma ctx_send_same w0 ctx_channel title :
  preserves (same_configuration w0) (ctx_send ctx_channel title).
Proof.
  unfold ctx_send. apply preserves_bind; [apply channel_send_same|].
  intros _. by apply preserves_pure.
Qed.

(** The configuration a command goes on with, and what fetching it leaves
    behind. *)
Lemma get_guild_config_ready guild_id w :
  let cfg := default get_default_config (configs w !! guild_id) in
  ∃ w', get_guild_config guild_id w = (Returned cfg, w')
        ∧ configs w' = <[guild_id := cfg]> (configs w)
        ∧ jobs w' = jobs w
        ∧ all_timezones w' = all_timezones w
        ∧ discord w' = discord w
        ∧ db w' = db w
        ∧ active_polls w' = active_polls w.
Proof.
  destruct (configs w !! guild_id) as [cfg|] eqn:Hc; simpl.
  - exists w. rewrite (get_guild_config_known _ _ _ Hc). split_and!; try done.
    by rewrite insert_id.
  - eexists. rewrite (get_guild_config_unknown _ _ Hc). split; [done|].
    by destruct (file_writable w).
Qed.

Lemma save_guild_config_saved guild_id cfg w :
  ∃ w', save_guild_config guild_id cfg w = (Returned tt, w')
        ∧ configs w' = <[guild_id := cfg]> (configs w)
        ∧ jobs w' = jobs w
        ∧ all_timezones w' = all_timezones w
        ∧ discord w' = discord w
        ∧ db w' = db w
        ∧ active_polls w' = active_polls w.
Proof.
  rewrite save_guild_config_run. cbv zeta. rewrite save_configs_run.
  eexists. split; [done|]. simpl. by destruct (file_writable w).
Qed.

(** Saving a configuration, rescheduling when it is enabled, and
    answering: what the three commands that change a setting end with. *)
Lemma save_reschedule_answer guild_id cfg ctx_channel title w :
  let w' := run (save_guild_config guild_id cfg ;;
                 (if default false (cfg_enabled cfg)
                  then schedule_guild_poll guild_id cfg else ret tt) ;;
                 ctx_send ctx_channel title) w in
  configs w' = <[guild_id := cfg]> (configs w)
  ∧ (default false (cfg_enabled cfg) = false → jobs w' = jobs w)
  ∧ (default false (cfg_enabled cfg) = true →
     job_ids_unique (jobs w) →
     schedulable (all_timezones w) cfg →
     triggers guild_id (jobs w') = [configured_trigger guild_id cfg])
  ∧ (∀ g', g' ≠ guild_id → triggers g' (jobs w') = triggers g' (jobs w)).
Proof.
  cbv zeta.
  destruct (save_guild_config_saved guild_id cfg w)
    as (w1 & Hrun1 & Hc1 & Hj1 & Hz1 & _).
  set (step := if default false (cfg_enabled cfg)
               then schedule_guild_poll guild_id cfg else ret tt).
  assert (∃ w2, step w1 = (Returned tt, w2)
                ∧ configs w2 = configs w1
                ∧ (default false (cfg_enabled cfg) = false → jobs w2 = jobs w1)
                ∧ (default false (cfg_enabled cfg) = true →
                   job_ids_unique (jobs w1) →
                   schedulable (all_timezones w1) cfg →
                   triggers guild_id (jobs w2) = [configured_trigger guild_id cfg])
                ∧ (∀ g', g' ≠ guild_id → triggers g' (jobs w2) = triggers g' (jobs w1)))
    as (w2 & Hrun2 & Hc2 & Hoff & Hon & Hothers).
  { subst step. destruct (default false (cfg_enabled cfg)).
    - exists (run (schedule_guild_poll guild_id cfg) w1). split_and!.
      + pose proof (schedule_guild_poll_returns guild_id cfg w1) as Hr.
        unfold result, run in *.
        by destruct (schedule_guild_poll guild_id cfg w1) as [[[]|] ?].
      + apply schedule_guild_poll_configs.
      + done.
      + intros _. apply schedule_guild_poll_trigger.
      + intros g' Hne. by apply schedule_guild_poll_others.
    - exists w1. by split_and!. }
  destruct (ctx_send_same w2 ctx_channel title w2) as (Hc3 & _ & _ & Hj3 & _);
    [done|].
  assert (run (save_guild_config guild_id cfg ;; step ;; ctx_send ctx_channel title) w
          = run (ctx_send ctx_channel title) w2) as ->.
  { unfold run. unfold bind at 1. rewrite Hrun1. unfold bind at 1. by rewrite Hrun2. }
  split_and!.
  - congruence.
  - intros Hen. rewrite Hj3, (Hoff Hen). done.
  - intros Hen Hnd Hok. rewrite Hj3. apply Hon; [done|by rewrite Hj1|by rewrite Hz1].
  - intros g' Hne. rewrite Hj3, (Hothers g' Hne). by rewrite Hj1.
Qed.
End commands.

(** [!poll time]: an hour outside 0..23 or a minute outside 0..59 is
    turned down before anything is read or written, so the configurations
    and the job store stay as they were.  A time of day is written into the
    guild's configuration (created from the defaults if the guild had none)
    and, if the guild is enabled and its timezone is a known zone, the
    guild's trigger is replaced by one at the new time; a disabled guild
    gets no trigger.  All of this holds whether or not the answer to the
    command can be sent. *)
Theorem time_command_sets_time (guild_id ctx_channel hour minute : Z) (w : world) :
  let w' := run (time_command guild_id ctx_channel hour minute) w in
  let cfg := default get_default_config (configs w !! guild_id) in
  (¬ (0 ≤ hour ≤ 23 ∧ 0 ≤ minute ≤ 59) →
   configs w' = configs w ∧ config_file w' = config_file w ∧ jobs w' = jobs w)
  ∧ (0 ≤ hour ≤ 23 ∧ 0 ≤ minute ≤ 59 →
     configs w' !! guild_id = Some (set_poll_time hour minute cfg)
     ∧ (default false (cfg_enabled cfg) = false → jobs w' = jobs w)
     ∧ (default false (cfg_enabled cfg) = true →
        job_ids_unique (jobs w) →
        default "UTC" (cfg_timezone cfg) ∈ all_timezones w →
        triggers guild_id (jobs w')
        = [mkJob (daily_poll_job_id guild_id) guild_id hour minute
                 (default "UTC" (cfg_timezone cfg))])).
Proof.
  cbv zeta. unfold time_command. split.
  - intros Hbad.
    assert (∀ title, configs (run (ctx_send ctx_channel title) w) = configs w
                     ∧ config_file (run (ctx_send ctx_channel title) w) = config_file w
                     ∧ jobs (run (ctx_send ctx_channel title) w) = jobs w) as Hsend.
    { intros title.
      by destruct (ctx_send_same w ctx_channel title w) as (? & ? & _ & ? & _). }
    destruct (decide (0 ≤ hour ≤ 23)) as [Hh|Hh].
    + rewrite (bool_decide_eq_true_2 _ Hh). simpl.
      rewrite bool_decide_eq_false_2 by (intros ?; by apply Hbad). simpl.
      apply Hsend.
    + rewrite (bool_decide_eq_false_2 _ Hh). simpl. apply Hsend.
  - intros [Hh Hm].
    rewrite (bool_decide_eq_true_2 _ Hh), (bool_decide_eq_true_2 _ Hm). simpl.
    destruct (get_guild_config_ready guild_id w)
      as (w0 & Hrun0 & Hc0 & Hj0 & Hz0 & _).
    set (cfg := default get_default_config (configs w !! guild_id)) in *.
    destruct (save_reschedule_answer guild_id (set_poll_time hour minute cfg)
                ctx_channel "✅ Time Updated" w0) as (Hc & Hoff & Hon & _).
    match goal with |- context [run ?m w] =>
      assert (run m w
              = run (save_guild_config guild_id (set_poll_time hour minute cfg) ;;
                     (if default false (cfg_enabled (set_poll_time hour minute cfg))
                      then schedule_guild_poll guild_id (set_poll_time hour minute cfg)
                      else ret tt) ;;
                     ctx_send ctx_channel "✅ Time Updated") w0) as ->
        by (unfold run; unfold bind at 1; by rewrite Hrun0)
    end.
    split_and!.
    + rewrite Hc. by rewrite lookup_insert_eq.
    + intros Hen. rewrite <- Hj0. by apply Hoff.
    + intros Hen Hnd Hz. apply Hon; [done|by rewrite Hj0|].
      rewrite Hz0. split; [done|]. simpl. lia.
Qed.

Lemma time_command_sets_time_witness :
  jobs (run (time_command 7 70 24 0) sample_scheduled) = jobs sample_scheduled
  ∧ configs (run (time_command 7 70 21 30) sample_scheduled) !! 7
    = Some (set_poll_time 21 30
              (default get_default_config (configs sample_scheduled !! 7)))
  ∧ triggers 7 (jobs (run (time_command 7 70 21 30) sample_scheduled))
    = [mkJob (daily_poll_job_id 7) 7 21 30
             (default "UTC" (cfg_timezone
                               (default get_default_config
                                        (configs sample_scheduled !! 7))))].
Proof.
  destruct (time_command_sets_time 7 70 24 0 sample_scheduled) as [Hbad _].
  destruct (time_command_sets_time 7 70 21 30 sample_scheduled) as [_ Hok].
  destruct Hbad as (_ & _ & Hj); [lia|].
  destruct Hok as (Hc & _ & Ht); [lia|].
  split_and!; [exact Hj|exact Hc|]. apply Ht.
  - by vm_compute.
  - by apply (bool_decide_unpack _); vm_compute.
  - by apply (bool_decide_unpack _); vm_compute.
Defined.

Section validate.
Implicit Types (w : world).

Lemma validate_timezone ctx_channel timezone_name w :
  try_except (pytz_timezone timezone_name ;; ret true)
    (λ e, if decide (e = UnknownTimeZoneError)
          then ctx_send ctx_channel "❌ Invalid Timezone" ;; ret false
          else raise e) w
  = if decide (timezone_name ∈ all_timezones w)
    then (Returned true, w)
    else (ctx_send ctx_channel "❌ Invalid Timezone" ;; ret false) w.
Proof.
  unfold pytz_timezone. unfold_M.
  by destruct (decide (timezone_name ∈ all_timezones w)).
Qed.
End validate.

(** [!poll timezone]: a name that is not a known zone is turned down
    before anything is read or written, so an unknown timezone never gets
    into a configuration through this command.  A known zone is written
    into the guild's configuration and, if the guild is enabled and its time
    is a time of day, the guild's trigger is replaced by one in the new
    zone. *)
Theorem timezone_command_validates (guild_id ctx_channel : Z) (timezone_name : string)
    (w : world) :
  let w' := run (timezone_command guild_id ctx_channel timezone_name) w in
  let cfg := default get_default_config (configs w !! guild_id) in
  (timezone_name ∉ all_timezones w →
   configs w' = configs w ∧ config_file w' = config_file w ∧ jobs w' = jobs w)
  ∧ (timezone_name ∈ all_timezones w →
     configs w' !! guild_id = Some (set_timezone timezone_name cfg)
     ∧ (default false (cfg_enabled cfg) = false → jobs w' = jobs w)
     ∧ (default false (cfg_enabled cfg) = true →
        job_ids_unique (jobs w) →
        0 ≤ default 20 (cfg_poll_hour cfg) ≤ 23
        ∧ 0 ≤ default 0 (cfg_poll_minute cfg) ≤ 59 →
        triggers guild_id (jobs w')
        = [mkJob (daily_poll_job_id guild_id) guild_id
                 (default 20 (cfg_poll_hour cfg)) (default 0 (cfg_poll_minute cfg))
                 timezone_name])).
Proof.
  cbv zeta. split.
  - intros Hz.
    assert (run (timezone_command guild_id ctx_channel timezone_name) w
            = run (ctx_send ctx_channel "❌ Invalid Timezone") w) as ->.
    { unfold run, timezone_command. unfold bind at 1.
      rewrite validate_timezone, decide_False by done. unfold bind at 1.
      by destruct (ctx_send ctx_channel "❌ Invalid Timezone" w) as [[[]|e] w']. }
    by destruct (ctx_send_same w ctx_channel "❌ Invalid Timezone" w)
      as (? & ? & _ & ? & _).
  - intros Hz.
    destruct (get_guild_config_ready guild_id w)
      as (w0 & Hrun0 & Hc0 & Hj0 & Hz0 & _).
    set (cfg := default get_default_config (configs w !! guild_id)) in *.
    destruct (save_reschedule_answer guild_id (set_timezone timezone_name cfg)
                ctx_channel "✅ Timezone Updated" w0) as (Hc & Hoff & Hon & _).
    assert (run (timezone_command guild_id ctx_channel timezone_name) w
            = run (save_guild_config guild_id (set_timezone timezone_name cfg) ;;
                   (if default false (cfg_enabled (set_timezone timezone_name cfg))
                    then schedule_guild_poll guild_id (set_timezone timezone_name cfg)
                    else ret tt) ;;
                   ctx_send ctx_channel "✅ Timezone Updated") w0) as ->.
    { unfold run, timezone_command. unfold bind at 1.
      rewrite validate_timezone, decide_True by done.
      change (negb true) with false. cbv iota.
      unfold bind at 1. by rewrite Hrun0. }
    split_and!.
    + rewrite Hc. by rewrite lookup_insert_eq.
    + intros Hen. rewrite <- Hj0. by apply Hoff.
    + intros Hen Hnd Ht. apply Hon; [done|by rewrite Hj0|].
      rewrite Hz0. by split.
Qed.

Lemma timezone_command_validates_witness :
  configs (run (timezone_command 7 70 "Mars/Olympus_Mons") sample_scheduled)
  = configs sample_scheduled
  ∧ configs (run (timezone_command 7 70 "Europe/Sofia") sample_scheduled) !! 7
    = Some (set_timezone "Europe/Sofia"
              (default get_default_config (configs sample_scheduled !! 7))).
Proof.
  destruct (timezone_command_validates 7 70 "Mars/Olympus_Mons" sample_scheduled)
    as [Hbad _].
  destruct (timezone_command_validates 7 70 "Europe/Sofia" sample_scheduled)
    as [_ Hok].
  destruct Hbad as (Hc & _); [by apply (bool_decide_unpack _); vm_compute|].
  destruct Hok as (Hc' & _); [by apply (bool_decide_unpack _); vm_compute|].
  split; [exact Hc|exact Hc'].
Defined.



(** [!poll disable]: the guild is marked disabled and, where job ids are
    distinct, is left without a trigger; and should a publish for the guild
    still be attempted, it logs one line and sends nothing. *)
Theorem disable_command_stops_polls (guild_id ctx_channel : Z) (w : world) :
  let w' := run (disable_command guild_id ctx_channel) w in
  let cfg := default get_default_config (configs w !! guild_id) in
  configs w' !! guild_id = Some (set_enabled false cfg)
  ∧ (job_ids_unique (jobs w) → triggers guild_id (jobs w') = [])
  ∧ (∀ g', g' ≠ guild_id → triggers g' (jobs w') = triggers g' (jobs w))
  ∧ ∃ line, post_daily_poll guild_id w' = (Returned tt, set_log (log w' ++ [line]) w').
Proof.
  cbv zeta.
  destruct (get_guild_config_ready guild_id w) as (w0 & Hrun0 & Hc0 & Hj0 & Hz0 & _).
  set (cfg := default get_default_config (configs w !! guild_id)) in *.
  destruct (save_guild_config_saved guild_id (set_enabled false cfg) w0)
    as (w1 & Hrun1 & Hc1 & Hj1 & Hz1 & _).
  set (w2 := run (unschedule_guild_poll guild_id) w1).
  assert (unschedule_guild_poll guild_id w1 = (Returned tt, w2)) as Hrun2.
  { subst w2. unfold run. rewrite unschedule_guild_poll_run.
    by destruct (get_job _ (jobs w1)) as [[i j]|]. }
  assert (run (disable_command guild_id ctx_channel) w
          = run (ctx_send ctx_channel "✅ Polls Disabled") w2) as ->.
  { unfold run, disable_command. unfold bind at 1. rewrite Hrun0.
    unfold bind at 1. rewrite Hrun1. unfold bind at 1. by rewrite Hrun2. }
  destruct (ctx_send_same w2 ctx_channel "✅ Polls Disabled" w2)
    as (Hc & _ & _ & Hj & _); [done|].
  set (w' := run (ctx_send ctx_channel "✅ Polls Disabled") w2) in *.
  assert (configs w' !! guild_id = Some (set_enabled false cfg)) as Hcfg.
  { rewrite Hc. subst w2.
    destruct (unschedule_guild_poll_frame guild_id w1) as [-> _].
    rewrite Hc1. by rewrite lookup_insert_eq. }
  split_and!.
  - exact Hcfg.
  - intros Hnd. rewrite Hj. subst w2. apply unschedule_guild_poll_none.
    by rewrite Hj1, Hj0.
  - intros g' Hne. rewrite Hj. subst w2.
    rewrite unschedule_guild_poll_others by done. by rewrite Hj1, Hj0.
  - destruct (guilds (discord w') !! guild_id) as [channels|] eqn:Hg.
    + apply (post_daily_poll_skipped guild_id channels (set_enabled false cfg));
        [done|done|by left].
    + eexists. by apply post_daily_poll_no_guild.
Qed.

Lemma disable_command_stops_polls_witness :
  triggers 7 (jobs (run (disable_command 7 70) sample_scheduled)) = []
  ∧ configs (run (disable_command 7 70) sample_scheduled) !! 7
    = Some (set_enabled false
              (default get_default_config (configs sample_scheduled !! 7))).
Proof.
  destruct (disable_command_stops_polls 7 70 sample_scheduled) as (Hc & Ht & _).
  split; [|exact Hc]. apply Ht. by apply (bool_decide_unpack _); vm_compute.
Defined.

(** ** Migrating the JSON configurations into the store *)

Section migrate.
Implicit Types (w : world) (d : database) (cfg : config) (l : list (Z * config)).

Lemma index_default_emojis i :
  (i < 7)%nat → ∃ emoji, default_emojis !! i = Some emoji.
Proof.
  intros Hi. apply lookup_lt_is_Some_2.
  assert (length default_emojis = 7%nat) by done. lia.
Qed.

(** The option rows go in without touching any other table. *)
Lemma migrate_options_from sid (texts : list string) i w :
  (i + length texts ≤ 7)%nat →
  ∃ w', fold_enumerate i texts tt
          (λ i option_text _,
             emoji <- index default_emojis i ;;
             now <- utcnow ;;
             modify_db (λ d,
               set_next_poll_option_id (next_poll_option_id d + 1)
                 (set_poll_options
                    (poll_options d
                       ++ [mkPollOption (next_poll_option_id d) sid emoji option_text i
                                        now])
                    d))) w
        = (Returned tt, w')
        ∧ server_configs (db w') = server_configs (db w)
        ∧ next_server_config_id (db w') = next_server_config_id (db w)
        ∧ polls (db w') = polls (db w)
        ∧ votes (db w') = votes (db w)
        ∧ available (db w') = available (db w)
        ∧ discord w' = discord w.
Proof.
  revert i w. induction texts as [|t texts IH]; intros i w Hlen; [by eexists|].
  simpl in *. destruct (index_default_emojis i) as [emoji He]; [lia|].
  unfold bind at 1. unfold index at 1. rewrite He. unfold bind at 1, ret at 1.
  unfold bind at 1, utcnow at 1, get at 1. unfold bind at 1, modify_db at 1, modify at 1.
  match goal with |- context [fold_enumerate (S i) texts tt _ ?w1] =>
    destruct (IH (S i) w1) as (w' & Hrun & Hs & Hn & Hp & Hv & Hav & Hd); [lia|]
  end.
  exists w'. split; [exact Hrun|]. by rewrite Hs, Hn, Hp, Hv, Hav, Hd.
Qed.

(** What one turn of the loop does to the server rows. *)
Lemma migrate_guild_run guild_id cfg w :
  available (db w) = true →
  ∃ w', migrate_guild guild_id cfg w = (Returned tt, w')
        ∧ available (db w') = true
        ∧ polls (db w') = polls (db w)
        ∧ votes (db w') = votes (db w)
        ∧ discord w' = discord w
        ∧ match query_server guild_id (db w) with
          | Some _ => db w' = db w
          | None =>
              server_configs (db w')
              = server_configs (db w)
                  ++ [migrated_server (next_server_config_id (db w)) guild_id
                                      (clock (discord w)) cfg]
          end.
Proof.
  intros Hav. unfold migrate_guild.
  unfold bind at 1, execute at 1. rewrite Hav. unfold bind at 1, get at 1.
  destruct (query_server guild_id (db w)) as [[k s]|] eqn:Hq.
  - eexists. split; [done|]. by split_and!.
  - unfold bind at 1, utcnow at 1, get at 1.
    unfold bind at 1, modify_db at 1, modify at 1.
    unfold bind at 1, execute at 1. cbn [db set_db available set_next_server_config_id
                                         set_server_configs].
    rewrite Hav. unfold bind at 1.
    match goal with |- context [migrate_options ?sid ?texts ?w1] =>
      destruct (migrate_options_from sid (take 7 texts) 0 w1)
        as (w' & Hrun & Hs & Hn & Hp & Hv & Hav' & Hd);
        [rewrite length_take; lia|]
    end.
    unfold migrate_options. rewrite Hrun. unfold logger, modify.
    eexists. split; [done|]. simpl. rewrite Hs, Hp, Hv, Hav', Hd. by split_and!.
Qed.

Lemma query_server_kept guild_id d d' new k s :
  server_configs d' = server_configs d ++ new →
  query_server guild_id d = Some (k, s) →
  query_server guild_id d' = Some (k, s).
Proof.
  unfold query_server. intros -> Hq. by apply list_find_app_l.
Qed.

Lemma migrate_guild_step guild_id cfg w :
  available (db w) = true →
  ∃ w', migrate_guild guild_id cfg w = (Returned tt, w')
        ∧ available (db w') = true
        ∧ polls (db w') = polls (db w)
        ∧ votes (db w') = votes (db w)
        ∧ (∀ g k s, query_server g (db w) = Some (k, s) →
                    query_server g (db w') = Some (k, s))
        ∧ (∀ g, g ≠ guild_id → query_server g (db w) = None →
                query_server g (db w') = None)
        ∧ ∃ k s, query_server guild_id (db w') = Some (k, s)
                 ∧ (query_server guild_id (db w) = None →
                    s = migrated_server (next_server_config_id (db w)) guild_id
                                        (clock (discord w)) cfg).
Proof.
  intros Hav.
  destruct (migrate_guild_run guild_id cfg w Hav)
    as (w' & Hrun & Hav' & Hp & Hv & Hd & Hrows).
  exists w'. split; [done|]. split; [done|]. split; [done|]. split; [done|].
  destruct (query_server guild_id (db w)) as [[k s]|] eqn:Hq.
  - rewrite Hrows. split_and!; try done. by exists k, s.
  - split_and!.
    + intros g k s Hg. by eapply query_server_kept.
    + intros g Hne Hg. unfold query_server in *. rewrite Hrows.
      rewrite list_find_app_r by done. simpl. by rewrite decide_False.
    + eexists _, _. split; [|done]. unfold query_server in *. rewrite Hrows.
      by apply list_find_app_new.
Qed.

(** The loop over the guilds of the file. *)
Lemma migrate_each l w :
  NoDup l.*1 →
  available (db w) = true →
  ∃ w', for_each l (λ gc, migrate_guild gc.1 gc.2) w = (Returned tt, w')
        ∧ available (db w') = true
        ∧ polls (db w') = polls (db w)
        ∧ votes (db w') = votes (db w)
        ∧ (∀ g k s, query_server g (db w) = Some (k, s) →
                    query_server g (db w') = Some (k, s))
        ∧ (∀ g, g ∉ l.*1 → query_server g (db w) = None →
                query_server g (db w') = None)
        ∧ (∀ g cfg, (g, cfg) ∈ l →
             ∃ k s, query_server g (db w') = Some (k, s)
                    ∧ (query_server g (db w) = None →
                       sc_guild_id s = g
                       ∧ sc_enabled s = default false (cfg_enabled cfg)
                       ∧ sc_channel_id s = cfg_channel_id cfg
                       ∧ sc_poll_hour s = default 5 (cfg_poll_hour cfg)
                       ∧ sc_poll_minute s = default 0 (cfg_poll_minute cfg)
                       ∧ sc_timezone s = default "UTC" (cfg_timezone cfg))).
Proof.
  revert w. induction l as [|[g0 cfg0] l IH]; intros w Hkeys Hav.
  { exists w. split_and!; try done. intros g cfg Hin. by apply elem_of_nil in Hin. }
  rewrite fmap_cons in Hkeys. apply NoDup_cons in Hkeys as [Hg0 Hkeys]. simpl in Hg0.
  destruct (migrate_guild_step g0 cfg0 w Hav)
    as (w1 & Hrun1 & Hav1 & Hp1 & Hv1 & Hkept1 & Hnone1 & k0 & s0 & Hq0 & Hnew0).
  destruct (IH w1 Hkeys Hav1) as (w' & Hrun & Hav' & Hp & Hv & Hkept & Hnone & Hall).
  exists w'. split_and!.
  - simpl. unfold bind. by rewrite Hrun1.
  - done.
  - congruence.
  - congruence.
  - intros g k s Hq. by apply Hkept, Hkept1.
  - intros g Hnot Hq. rewrite fmap_cons in Hnot. apply not_elem_of_cons in Hnot as [Hne Hnot].
    apply Hnone; [done|]. by apply Hnone1.
  - intros g cfg [Heq|Hin]%elem_of_cons.
    + injection Heq as -> ->. exists k0, s0. split; [by apply Hkept|].
      intros Hq. by rewrite (Hnew0 Hq).
    + destruct (Hall g cfg Hin) as (k & s & Hq & Hnew). exists k, s. split; [done|].
      intros Hq'. apply Hnew. apply Hnone1; [|done].
      intros ->. apply Hg0. apply list_elem_of_fmap. by exists (g0, cfg).
Qed.

(** With a server row for every guild of the file, the loop only skips. *)
Lemma migrate_each_present l w :
  available (db w) = true →
  (∀ g cfg, (g, cfg) ∈ l → is_Some (query_server g (db w))) →
  ∃ w', for_each l (λ gc, migrate_guild gc.1 gc.2) w = (Returned tt, w')
        ∧ db w' = db w.
Proof.
  revert w. induction l as [|[g0 cfg0] l IH]; intros w Hav Hall; [by exists w|].
  destruct (migrate_guild_run g0 cfg0 w Hav) as (w1 & Hrun1 & Hav1 & _ & _ & _ & Hrows).
  destruct (Hall g0 cfg0) as [[k s] Hq]; [by left|]. rewrite Hq in Hrows.
  destruct (IH w1) as (w' & Hrun & Hdb); [done| |].
  { intros g cfg Hin. rewrite Hrows. apply (Hall g cfg). by right. }
  exists w'. split; [|congruence]. simpl. unfold bind. by rewrite Hrun1.
Qed.

Lemma migrate_from_json_run json_data w w1 :
  available (db w) = true →
  for_each (map_to_list json_data) (λ gc, migrate_guild gc.1 gc.2)
           (set_log (log w ++ [(INFO, "Loaded JSON data")]) w)
  = (Returned tt, w1) →
  available (db w1) = true →
  migrate_from_json (Parsed json_data) w
  = (Returned tt,
     set_log (log w1 ++ [(INFO, "JSON migration completed successfully")]) w1).
Proof.
  intros Hav Hrun Hav1. unfold migrate_from_json.
  unfold try_except at 1. unfold bind at 1, logger at 1, modify at 1.
  unfold bind at 1, get at 1. unfold try_except at 1. unfold bind at 1.
  rewrite Hrun. unfold bind at 1, execute at 1. rewrite Hav1. done.
Qed.
End migrate.

(** With the store up, [migrate_from_json] returns and afterwards every
    guild of the file has a server row.  A guild that already had one keeps
    it exactly as it was, whatever the file says; a guild that had none gets
    the settings of the file, with the store's defaults where a key is
    missing.  Polls and votes are not touched.  Running the migration again
    changes nothing more in the store.  Without a file, or with one that
    cannot be read, the migration returns at once and the store is as it
    was. *)
Theorem migrate_from_json_adds_missing (json_data : gmap Z config) (w : world) :
  available (db w) = true →
  let w' := run (migrate_from_json (Parsed json_data)) w in
  result (migrate_from_json (Parsed json_data)) w = Returned tt
  ∧ (∀ g cfg, json_data !! g = Some cfg →
       ∃ k s, query_server g (db w') = Some (k, s)
              ∧ (query_server g (db w) = None →
                 sc_guild_id s = g
                 ∧ sc_enabled s = default false (cfg_enabled cfg)
                 ∧ sc_channel_id s = cfg_channel_id cfg
                 ∧ sc_poll_hour s = default 5 (cfg_poll_hour cfg)
                 ∧ sc_poll_minute s = default 0 (cfg_poll_minute cfg)
                 ∧ sc_timezone s = default "UTC" (cfg_timezone cfg)))
  ∧ (∀ g k s, query_server g (db w) = Some (k, s) →
              query_server g (db w') = Some (k, s))
  ∧ polls (db w') = polls (db w)
  ∧ votes (db w') = votes (db w)
  ∧ db (run (migrate_from_json (Parsed json_data)) w') = db w'
  ∧ db (run (migrate_from_json FileNotFound) w) = db w
  ∧ db (run (migrate_from_json Unreadable) w) = db w.
Proof.
  intros Hav. cbv zeta.
  destruct (migrate_each (map_to_list json_data)
              (set_log (log w ++ [(INFO, "Loaded JSON data")]) w))
    as (w1 & Hrun1 & Hav1 & Hp1 & Hv1 & Hkept & _ & Hall);
    [apply NoDup_fst_map_to_list|done|].
  unfold run, result.
  rewrite (migrate_from_json_run json_data w w1 Hav Hrun1 Hav1). cbn [fst snd].
  set (w' := set_log _ w1).
  split_and!; try done.
  - intros g cfg Hg. apply (Hall g cfg). by apply elem_of_map_to_list.
  - destruct (migrate_each_present (map_to_list json_data)
                (set_log (log w' ++ [(INFO, "Loaded JSON data")]) w'))
      as (w2 & Hrun2 & Hdb2); [done| |].
    { intros g cfg Hin. destruct (Hall g cfg Hin) as (k & s & Hq & _). by eexists. }
    rewrite (migrate_from_json_run json_data w' w2); [done|done|done|].
    by rewrite Hdb2.
Qed.

Lemma migrate_from_json_adds_missing_witness :
  (∃ k s, query_server 8 (db (run (migrate_from_json (Parsed sample_json)) sample_world))
          = Some (k, s)
          ∧ sc_poll_hour s = 8)
  ∧ query_server 7 (db (run (migrate_from_json (Parsed sample_json)) sample_world))
    = Some (0%nat, mkServerConfig 1 7 true (Some 70) 8 0 "UTC" 0 0).
Proof.
  destruct (migrate_from_json_adds_missing sample_json sample_world)
    as (_ & Hall & Hkept & _); [by vm_compute|].
  split.
  - destruct (Hall 8 sample_config_bad_timezone) as (k & s & Hq & Hnew);
      [by vm_compute|].
    exists k, s. split; [exact Hq|].
    destruct Hnew as (_ & _ & _ & Hh & _); [by vm_compute|]. exact Hh.
  - apply Hkept. by vm_compute.
Defined.
